(** * Alert ingestion, incident correlation and lexical retrieval

    A shallow embedding of the three core modules of the repository
    ([modules/alerts.py], [modules/ontology.py], [modules/rag.py]), with
    the helpers of [streamlit_app.py] and [modules/visuals.py] that
    handle the same identifiers and records, and the properties their
    specification states about them, followed by further properties of
    the code.

    Conventions of the embedding.
    - A Python [str] is a [string] holding its UTF-8 form: a code point
      of ASCII is one character, any other code point a sequence of
      characters above 127.  Length and slicing count code points; the
      order of strings is the order of code points.  Case mapping,
      whitespace and the regular expressions are modelled on ASCII:
      characters above 127 are carried unchanged (they are neither
      whitespace, nor letters, nor digits).
    - A Python [set] of strings is a [gset string]; a [dict] whose iteration
      order is observed is an association list in insertion order.
    - A function that may raise returns a [result]; the exception classes
      that the modelled code can raise are the constructors of [exn].
    - The floats of the retrieval index are IEEE binary64 numbers:
      [PrimFloat.float]; a float inside an alert is identified by its
      [repr]. *)

From Stdlib Require Import ZArith String Ascii List Bool Lia DecimalString.
From Stdlib Require Import PrimFloat SpecFloat FloatOps FloatAxioms.
From stdpp Require Import base gmap strings list sorting.

Open Scope string_scope.

(** ** Exceptions *)

Inductive exn : Set :=
| AttributeError
| TypeError
| JSONDecodeError
| RecursionError
| ValueError
| QueryError.

Inductive result (A : Type) : Type :=
| Ok (a : A)
| Raise (e : exn).

Arguments Ok {A} a.
Arguments Raise {A} e.

#[global] Instance result_ret : MRet result := fun _ a => Ok a.

#[global] Instance result_bind : MBind result := fun _ _ k m =>
  match m with
  | Ok a => k a
  | Raise e => Raise e
  end.

(** [for x in xs: acc = step(x, acc)], where a step may raise. *)
Fixpoint rfold {A S : Type} (step : A -> S -> result S) (xs : list A) (acc : S)
  : result S :=
  match xs with
  | [] => Ok acc
  | x :: xs' => acc' ← step x acc; rfold step xs' acc'
  end.

(** ** Python string builtins *)

Module PyStr.

Definition code (c : ascii) : N := N_of_ascii c.

Definition between (lo hi : N) (c : ascii) : bool :=
  ((lo <=? code c) && (code c <=? hi))%N.

(** [str.isspace] on one character: TAB..CR, FS..US and the space. *)
Definition isspace (c : ascii) : bool := between 9 13 c || between 28 32 c.

Definition isdigit (c : ascii) : bool := between 48 57 c.
Definition isupper (c : ascii) : bool := between 65 90 c.
Definition islower (c : ascii) : bool := between 97 122 c.

(** The class [\w] of the [re] module: letters, digits and underscore. *)
Definition isword (c : ascii) : bool :=
  isdigit c || isupper c || islower c || Ascii.eqb c "_".

Definition upper_char (c : ascii) : ascii :=
  if islower c then ascii_of_N (code c - 32) else c.

Definition lower_char (c : ascii) : ascii :=
  if isupper c then ascii_of_N (code c + 32) else c.

Fixpoint smap (f : ascii -> ascii) (s : string) : string :=
  match s with
  | EmptyString => EmptyString
  | String c s' => String (f c) (smap f s')
  end.

(** [s.upper()], [s.lower()] *)
Definition upper (s : string) : string := smap upper_char s.
Definition lower (s : string) : string := smap lower_char s.

(** [s.replace(old, new)] for one-character [old] and [new]. *)
Definition replace (old new : ascii) (s : string) : string :=
  smap (fun c => if Ascii.eqb c old then new else c) s.

(** [s.lstrip()], [s.rstrip()], [s.strip()] *)
Fixpoint lstrip (s : string) : string :=
  match s with
  | EmptyString => EmptyString
  | String c s' => if isspace c then lstrip s' else s
  end.

Fixpoint rstrip (s : string) : string :=
  match s with
  | EmptyString => EmptyString
  | String c s' =>
      match rstrip s' with
      | EmptyString => if isspace c then EmptyString else String c EmptyString
      | r => String c r
      end
  end.

Definition strip (s : string) : string := rstrip (lstrip s).

(** [c in s] for a one-character [c]. *)
Fixpoint contains (c : ascii) (s : string) : bool :=
  match s with
  | EmptyString => false
  | String x s' => Ascii.eqb x c || contains c s'
  end.

(** [s.split(c)] for a one-character separator: never the empty list. *)
Fixpoint split (c : ascii) (s : string) : list string :=
  match s with
  | EmptyString => [EmptyString]
  | String x s' =>
      if Ascii.eqb x c then EmptyString :: split c s'
      else match split c s' with
           | p :: ps => String x p :: ps
           | [] => [String x EmptyString]
           end
  end.

(** [c.join(parts)] *)
Fixpoint join (c : ascii) (parts : list string) : string :=
  match parts with
  | [] => EmptyString
  | [p] => p
  | p :: ps => p +:+ String c (join c ps)
  end.

(** [s.rsplit(c, 1)]: one split, at the last occurrence of [c]. *)
Definition rsplit1 (c : ascii) (s : string) : list string :=
  match split c s with
  | [] | [_] => [s]
  | parts => [join c (removelast parts); List.last parts EmptyString]
  end.

(** [xs[0]] and [xs[-1]] on the never-empty results of the splits. *)
Definition first_part (parts : list string) : string := List.hd EmptyString parts.
Definition last_part (parts : list string) : string := List.last parts EmptyString.

(** [s.startswith(p)] *)
Definition startswith (p s : string) : bool := String.prefix p s.

(** The items of a [str] are code points.  In the UTF-8 form held here a
    code point is one byte that is not a continuation byte ([10xxxxxx]),
    followed by its continuation bytes. *)
Definition is_continuation (c : ascii) : bool := between 128 191 c.

Fixpoint count_points (s : string) : nat :=
  match s with
  | EmptyString => 0
  | String c s' => if is_continuation c then count_points s' else S (count_points s')
  end.

(** The first [n] code points: the bytes before the first byte of the
    next one. *)
Fixpoint take_points (n : nat) (s : string) : string :=
  match s with
  | EmptyString => EmptyString
  | String c s' =>
      if is_continuation c then String c (take_points n s')
      else match n with
           | O => EmptyString
           | S n' => String c (take_points n' s')
           end
  end.

(** [s[:k]] for an [int] bound: a negative bound counts from the end. *)
Definition slice_to (k : Z) (s : string) : string :=
  if (0 <=? k)%Z then take_points (Z.to_nat k) s
  else take_points (count_points s - Z.to_nat (- k)) s.

(** [len(s)] *)
Definition len (s : string) : Z := Z.of_nat (count_points s).

(** [sorted(xs)] for a list of strings: the order of [str] compares code
    points, lexicographically ([String.le] is [String.leb]). *)
Definition sorted (xs : list string) : list string := merge_sort String.le xs.

(** [s.split(c, 1)]: one split, at the first occurrence of [c]; [None]
    stands for the one-element list of a text without [c]. *)
Fixpoint split_first (c : ascii) (s : string) : option (string * string) :=
  match s with
  | EmptyString => None
  | String x s' =>
      if Ascii.eqb x c then Some (EmptyString, s')
      else match split_first c s' with
           | Some (h, t) => Some (String x h, t)
           | None => None
           end
  end.

End PyStr.

(** ** Python values

    The values [json.loads] produces, which are also the values the alert
    functions receive.  A float is identified by its [repr]: the modelled
    code observes a float only through [str], truthiness and [isinstance]. *)

#[warnings="-register-all"]
Inductive json : Type :=
| JNone
| JBool (b : bool)
| JInt (n : Z)
| JFloat (repr : string)
| JStr (s : string)
| JList (items : list json)
| JDict (entries : list (string * json)).

Module Py.

Definition dquote : ascii := "034"%char.
Definition squote : ascii := "039"%char.
Definition backslash : ascii := "092"%char.

(** [bool(v)] *)
Definition truthy (v : json) : bool :=
  match v with
  | JNone => false
  | JBool b => b
  | JInt n => negb (n =? 0)%Z
  | JFloat r => negb (String.eqb r "0.0" || String.eqb r "-0.0")
  | JStr s => negb (String.eqb s "")
  | JList items => match items with [] => false | _ => true end
  | JDict entries => match entries with [] => false | _ => true end
  end.

(** [a or b] *)
Definition or_ (a b : json) : json := if truthy a then a else b.

(** Dictionaries: [k in d], [d.get(k)], [d.get(k, default)], [d[k] = v]. *)
Fixpoint lookup (k : string) (d : list (string * json)) : option json :=
  match d with
  | [] => None
  | (k', v) :: d' => if String.eqb k' k then Some v else lookup k d'
  end.

Definition has_key (k : string) (d : list (string * json)) : bool :=
  match lookup k d with Some _ => true | None => false end.

Definition get (k : string) (d : list (string * json)) : json :=
  match lookup k d with Some v => v | None => JNone end.

Definition get_default (k : string) (dflt : json) (d : list (string * json)) : json :=
  match lookup k d with Some v => v | None => dflt end.

Fixpoint set_item (k : string) (v : json) (d : list (string * json))
  : list (string * json) :=
  match d with
  | [] => [(k, v)]
  | (k', v') :: d' =>
      if String.eqb k' k then (k', v) :: d' else (k', v') :: set_item k v d'
  end.

(** [v.get(k)] and [v.get(k, default)] on an arbitrary value: only a
    [dict] has the attribute. *)
Definition attr_get (k : string) (v : json) : result json :=
  match v with
  | JDict d => Ok (get k d)
  | _ => Raise AttributeError
  end.

Definition attr_get_default (k : string) (dflt : json) (v : json) : result json :=
  match v with
  | JDict d => Ok (get_default k dflt d)
  | _ => Raise AttributeError
  end.

(** [str(n)] for an [int]. *)
Definition str_of_int (n : Z) : string :=
  DecimalString.NilZero.string_of_int (Z.to_int n).

Definition hex_digit (n : N) : ascii :=
  if (n <? 10)%N then ascii_of_N (48 + n) else ascii_of_N (87 + n).

(** One character of [repr(s)], for the quote character in use. *)
Definition repr_char (quote : ascii) (c : ascii) : string :=
  if Ascii.eqb c backslash then String backslash (String backslash "")
  else if Ascii.eqb c quote then String backslash (String quote "")
  else if Ascii.eqb c "010" then String backslash "n"
  else if Ascii.eqb c "013" then String backslash "r"
  else if Ascii.eqb c "009" then String backslash "t"
  else if (PyStr.code c <? 32)%N || (PyStr.code c =? 127)%N then
    String backslash
      (String "x" (String (hex_digit (PyStr.code c / 16))
                          (String (hex_digit (PyStr.code c mod 16)) "")))
  else String c "".

Fixpoint repr_chars (quote : ascii) (s : string) : string :=
  match s with
  | EmptyString => EmptyString
  | String c s' => repr_char quote c +:+ repr_chars quote s'
  end.

(** [repr(s)] for a [str]: single quotes, unless the text has a single
    quote and no double quote. *)
Definition repr_str (s : string) : string :=
  let quote :=
    if PyStr.contains squote s && negb (PyStr.contains dquote s)
    then dquote else squote in
  String quote (repr_chars quote s +:+ String quote "").

Fixpoint join_with (sep : string) (parts : list string) : string :=
  match parts with
  | [] => EmptyString
  | [p] => p
  | p :: ps => p +:+ sep +:+ join_with sep ps
  end.

(** [repr(v)] *)
Fixpoint repr (v : json) : string :=
  match v with
  | JNone => "None"
  | JBool true => "True"
  | JBool false => "False"
  | JInt n => str_of_int n
  | JFloat r => r
  | JStr s => repr_str s
  | JList items => "[" +:+ join_with ", " (List.map repr items) +:+ "]"
  | JDict entries =>
      "{" +:+ join_with ", "
               (List.map (fun kv => match kv with
                                    | (k, x) => repr_str k +:+ ": " +:+ repr x
                                    end) entries) +:+ "}"
  end.

(** [str(v)]: the text itself for a [str], the [repr] otherwise. *)
Definition str (v : json) : string :=
  match v with
  | JStr s => s
  | _ => repr v
  end.

(** [isinstance(v, (str, int))]; [bool] is a subclass of [int]. *)
Definition is_str_or_int (v : json) : bool :=
  match v with
  | JStr _ | JInt _ | JBool _ => true
  | _ => false
  end.

(** [for x in v]: the items of a list, the characters of a string, the
    keys of a dictionary; other values are not iterable. *)
Fixpoint chars (s : string) : list json :=
  match s with
  | EmptyString => []
  | String c s' => JStr (String c "") :: chars s'
  end.

Definition iter (v : json) : result (list json) :=
  match v with
  | JList items => Ok items
  | JStr s => Ok (chars s)
  | JDict entries => Ok (List.map (fun kv => JStr (fst kv)) entries)
  | _ => Raise TypeError
  end.

End Py.

(** ** [json.loads]

    The decoder of the standard library, in its default (strict) mode, as a
    recursive-descent parser over the text.  A text that is not a JSON
    document is [Invalid], which [loads] raises as [JSONDecodeError]; an
    integer literal beyond the digit limit of [int] is [TooManyDigits],
    raised as [ValueError].  The recursion is bounded by [fuel]; [loads]
    gives twice the length of the text, more than a parse consumes, so
    that [OutOfFuel] is kept apart from [Invalid].  Python's own
    [RecursionError], raised on a nesting deeper than the interpreter
    allows where the decoder is called, depends on that call and is not
    modelled: what is proved of a function that calls the decoder is
    proved for every decoder.  A number with a fraction or an exponent
    becomes a float, written by the [repr] rules of Python from the decimal
    literal (exact for literals of at most 15 significant digits in the
    normal range of binary64; rounding beyond that is not modelled). *)

Module PyJson.

Inductive outcome (A : Type) : Type :=
| Parsed (a : A) (rest : string)
| Invalid
| OutOfFuel
| TooManyDigits.

Arguments Parsed {A} a rest.
Arguments Invalid {A}.
Arguments OutOfFuel {A}.
Arguments TooManyDigits {A}.

Definition is_ws (c : ascii) : bool :=
  Ascii.eqb c " " || Ascii.eqb c "009" || Ascii.eqb c "010" || Ascii.eqb c "013".

Fixpoint skip_ws (s : string) : string :=
  match s with
  | EmptyString => EmptyString
  | String c s' => if is_ws c then skip_ws s' else s
  end.

Fixpoint strip_prefix (p s : string) : option string :=
  match p, s with
  | EmptyString, _ => Some s
  | String a p', String b s' => if Ascii.eqb a b then strip_prefix p' s' else None
  | String _ _, EmptyString => None
  end.

(** *** Strings *)

Definition hex_value (c : ascii) : option N :=
  if PyStr.isdigit c then Some (PyStr.code c - 48)%N
  else if PyStr.between 97 102 c then Some (PyStr.code c - 87)%N
  else if PyStr.between 65 70 c then Some (PyStr.code c - 55)%N
  else None.

Definition read_hex4 (s : string) : option (N * string) :=
  match s with
  | String a (String b (String c (String d rest))) =>
      match hex_value a, hex_value b, hex_value c, hex_value d with
      | Some x, Some y, Some z, Some w =>
          Some (((x * 16 + y) * 16 + z) * 16 + w, rest)%N
      | _, _, _, _ => None
      end
  | _ => None
  end.

(** The UTF-8 bytes of a code point. *)
Definition utf8 (cp : N) : string :=
  (if cp <? 128 then String (ascii_of_N cp) ""
   else if cp <? 2048 then
     String (ascii_of_N (192 + cp / 64)) (String (ascii_of_N (128 + cp mod 64)) "")
   else if cp <? 65536 then
     String (ascii_of_N (224 + cp / 4096))
       (String (ascii_of_N (128 + (cp / 64) mod 64))
          (String (ascii_of_N (128 + cp mod 64)) ""))
   else
     String (ascii_of_N (240 + cp / 262144))
       (String (ascii_of_N (128 + (cp / 4096) mod 64))
          (String (ascii_of_N (128 + (cp / 64) mod 64))
             (String (ascii_of_N (128 + cp mod 64)) ""))))%N.

Definition simple_escape (e : ascii) : option ascii :=
  if Ascii.eqb e Py.dquote then Some Py.dquote
  else if Ascii.eqb e Py.backslash then Some Py.backslash
  else if Ascii.eqb e "/" then Some "/"%char
  else if Ascii.eqb e "b" then Some "008"%char
  else if Ascii.eqb e "f" then Some "012"%char
  else if Ascii.eqb e "n" then Some "010"%char
  else if Ascii.eqb e "r" then Some "013"%char
  else if Ascii.eqb e "t" then Some "009"%char
  else None.

Definition prepend (p : string) (o : outcome string) : outcome string :=
  match o with
  | Parsed s rest => Parsed (p +:+ s) rest
  | Invalid => Invalid
  | OutOfFuel => OutOfFuel
  | TooManyDigits => TooManyDigits
  end.

(** A [\uXXXX] escape, joined with a following low surrogate when it is a
    high one. *)
Definition read_unicode (s : string) : option (N * string) :=
  match read_hex4 s with
  | Some (hi, rest) =>
      if ((55296 <=? hi) && (hi <=? 56319))%N then
        match rest with
        | String b (String u rest') =>
            if Ascii.eqb b Py.backslash && Ascii.eqb u "u" then
              match read_hex4 rest' with
              | Some (lo, rest'') =>
                  if ((56320 <=? lo) && (lo <=? 57343))%N
                  then Some (65536 + (hi - 55296) * 1024 + (lo - 56320), rest'')%N
                  else Some (hi, rest)
              | None => Some (hi, rest)
              end
            else Some (hi, rest)
        | _ => Some (hi, rest)
        end
      else Some (hi, rest)
  | None => None
  end.

(** The text after an opening quote, up to the closing one. *)
Fixpoint scanstring (fuel : nat) (s : string) : outcome string :=
  match fuel with
  | O => OutOfFuel
  | S f =>
      match s with
      | EmptyString => Invalid
      | String c rest =>
          if Ascii.eqb c Py.dquote then Parsed EmptyString rest
          else if Ascii.eqb c Py.backslash then
            match rest with
            | EmptyString => Invalid
            | String e rest' =>
                if Ascii.eqb e "u" then
                  match read_unicode rest' with
                  | Some (cp, rest'') => prepend (utf8 cp) (scanstring f rest'')
                  | None => Invalid
                  end
                else
                  match simple_escape e with
                  | Some ch => prepend (String ch "") (scanstring f rest')
                  | None => Invalid
                  end
            end
          else if (PyStr.code c <? 32)%N then Invalid
          else prepend (String c "") (scanstring f rest)
      end
  end.

Definition scan_string (s : string) : outcome string :=
  scanstring (S (String.length s)) s.

(** *** Numbers *)

Fixpoint span_digits (s : string) : string * string :=
  match s with
  | EmptyString => (EmptyString, EmptyString)
  | String c s' =>
      if PyStr.isdigit c
      then let (d, r) := span_digits s' in (String c d, r)
      else (EmptyString, s)
  end.

Fixpoint digits_value (acc : Z) (ds : string) : Z :=
  match ds with
  | EmptyString => acc
  | String c ds' => digits_value (acc * 10 + (Z.of_N (PyStr.code c) - 48)) ds'
  end.

(** [0|[1-9][0-9]*] *)
Definition int_part (s : string) : option (string * string) :=
  match s with
  | EmptyString => None
  | String c rest =>
      if Ascii.eqb c "0" then Some ("0", rest)
      else if PyStr.isdigit c then Some (span_digits s)
      else None
  end.

(** [\.[0-9]+] *)
Definition frac_part (s : string) : option (string * string) :=
  match s with
  | String c rest =>
      if Ascii.eqb c "." then
        match span_digits rest with
        | (EmptyString, _) => None
        | (d, r) => Some (d, r)
        end
      else None
  | EmptyString => None
  end.

(** [[eE][-+]?[0-9]+] *)
Definition exp_part (s : string) : option (Z * string) :=
  match s with
  | String e rest =>
      if Ascii.eqb e "e" || Ascii.eqb e "E" then
        let '(neg, rest1) :=
          match rest with
          | String sg r =>
              if Ascii.eqb sg "-" then (true, r)
              else if Ascii.eqb sg "+" then (false, r)
              else (false, rest)
          | EmptyString => (false, rest)
          end in
        match span_digits rest1 with
        | (EmptyString, _) => None
        | (d, r) => Some (if neg then (- digits_value 0 d)%Z else digits_value 0 d, r)
        end
      else None
  | EmptyString => None
  end.

Fixpoint lstrip_zeros (s : string) : string :=
  match s with
  | String c s' => if Ascii.eqb c "0" then lstrip_zeros s' else s
  | EmptyString => EmptyString
  end.

Fixpoint rstrip_zeros (s : string) : string :=
  match s with
  | EmptyString => EmptyString
  | String c s' =>
      match rstrip_zeros s' with
      | EmptyString => if Ascii.eqb c "0" then EmptyString else String c EmptyString
      | r => String c r
      end
  end.

Fixpoint zeros (n : nat) : string :=
  match n with
  | O => EmptyString
  | S n' => String "0" (zeros n')
  end.

(** [repr] of the float whose decimal expansion is [0.digits * 10^decpt]. *)
Definition float_repr (neg : bool) (digits : string) (decpt : Z) : string :=
  let ds1 := lstrip_zeros digits in
  let decpt := (decpt - Z.of_nat (String.length digits - String.length ds1))%Z in
  let ds := rstrip_zeros ds1 in
  let n := Z.of_nat (String.length ds) in
  let body :=
    match ds with
    | EmptyString => "0.0"
    | String d1 more =>
        if ((-4 <? decpt) && (decpt <=? 16))%Z then
          if (decpt <=? 0)%Z then "0." +:+ zeros (Z.to_nat (- decpt)) +:+ ds
          else if (n <=? decpt)%Z then ds +:+ zeros (Z.to_nat (decpt - n)) +:+ ".0"
          else String.substring 0 (Z.to_nat decpt) ds +:+ "." +:+
               String.substring (Z.to_nat decpt) (String.length ds) ds
        else
          let e := (decpt - 1)%Z in
          let mant := match more with
                      | EmptyString => String d1 ""
                      | _ => String d1 ("." +:+ more)
                      end in
          let mag := Py.str_of_int (Z.abs e) in
          mant +:+ "e" +:+ (if (e <? 0)%Z then "-" else "+") +:+
          (if (Z.abs e <? 10)%Z then "0" +:+ mag else mag)
    end in
  if neg then "-" +:+ body else body.

(** [NUMBER_RE.match]: an [int] without fraction and exponent, a
    [float] otherwise. *)
Definition match_number (s : string) : option (json * string) :=
  let '(neg, s1) :=
    match s with
    | String c rest => if Ascii.eqb c "-" then (true, rest) else (false, s)
    | EmptyString => (false, s)
    end in
  match int_part s1 with
  | None => None
  | Some (ip, s2) =>
      let '(fp, s3) := match frac_part s2 with
                       | Some (d, r) => (Some d, r)
                       | None => (None, s2)
                       end in
      let '(ep, s4) := match exp_part s3 with
                       | Some (e, r) => (Some e, r)
                       | None => (None, s3)
                       end in
      match fp, ep with
      | None, None =>
          Some (JInt (if neg then (- digits_value 0 ip)%Z else digits_value 0 ip), s4)
      | _, _ =>
          let fd := match fp with Some d => d | None => EmptyString end in
          let e := match ep with Some e => e | None => 0%Z end in
          Some (JFloat (float_repr neg (ip +:+ fd) (Z.of_nat (String.length ip) + e)), s4)
      end
  end.

(** The conversion of an integer literal by [int] refuses, with a plain
    [ValueError], a literal of more than 4300 digits (the default of
    [sys.set_int_max_str_digits]); a literal with a fraction or an
    exponent goes through [float], which has no such limit. *)
Definition over_digit_limit (s : string) : bool :=
  let s1 :=
    match s with
    | String c rest => if Ascii.eqb c "-" then rest else s
    | EmptyString => s
    end in
  match int_part s1 with
  | None => false
  | Some (ip, s2) =>
      match frac_part s2, exp_part s2 with
      | None, None => (4300 <? String.length ip)%nat
      | _, _ => false
      end
  end.

(** *** Values *)

Definition constant (s : string) : option (json * string) :=
  match strip_prefix "null" s with
  | Some r => Some (JNone, r)
  | None =>
  match strip_prefix "true" s with
  | Some r => Some (JBool true, r)
  | None =>
  match strip_prefix "false" s with
  | Some r => Some (JBool false, r)
  | None =>
  match match_number s with
  | Some (v, r) => Some (v, r)
  | None =>
  match strip_prefix "NaN" s with
  | Some r => Some (JFloat "nan", r)
  | None =>
  match strip_prefix "Infinity" s with
  | Some r => Some (JFloat "inf", r)
  | None =>
  match strip_prefix "-Infinity" s with
  | Some r => Some (JFloat "-inf", r)
  | None => None
  end end end end end end end.

Fixpoint scan_once (fuel : nat) (s : string) : outcome json :=
  match fuel with
  | O => OutOfFuel
  | S f =>
      match s with
      | EmptyString => Invalid
      | String c rest =>
          if Ascii.eqb c Py.dquote then
            match scan_string rest with
            | Parsed t r => Parsed (JStr t) r
            | Invalid => Invalid
            | OutOfFuel => OutOfFuel
            | TooManyDigits => TooManyDigits
            end
          else if Ascii.eqb c "{" then
            match skip_ws rest with
            | String c' r =>
                if Ascii.eqb c' "}" then Parsed (JDict []) r
                else members f (String c' r) []
            | EmptyString => Invalid
            end
          else if Ascii.eqb c "[" then
            match skip_ws rest with
            | String c' r =>
                if Ascii.eqb c' "]" then Parsed (JList []) r
                else elements f (String c' r) []
            | EmptyString => Invalid
            end
          else
            match constant s with
            | Some (v, r) => if over_digit_limit s then TooManyDigits else Parsed v r
            | None => Invalid
            end
      end
  end

(** The pairs of an object from its first key on; [pairs] are those read
    so far. *)
with members (fuel : nat) (s : string) (pairs : list (string * json))
  : outcome json :=
  match fuel with
  | O => OutOfFuel
  | S f =>
      match s with
      | String q rest =>
          if Ascii.eqb q Py.dquote then
            match scan_string rest with
            | Parsed key r1 =>
                match skip_ws r1 with
                | String colon r2 =>
                    if Ascii.eqb colon ":" then
                      match scan_once f (skip_ws r2) with
                      | Parsed v r3 =>
                          let pairs' := Py.set_item key v pairs in
                          match skip_ws r3 with
                          | String d r4 =>
                              if Ascii.eqb d "}" then Parsed (JDict pairs') r4
                              else if Ascii.eqb d "," then members f (skip_ws r4) pairs'
                              else Invalid
                          | EmptyString => Invalid
                          end
                      | Invalid => Invalid
                      | OutOfFuel => OutOfFuel
                      | TooManyDigits => TooManyDigits
                      end
                    else Invalid
                | EmptyString => Invalid
                end
            | Invalid => Invalid
            | OutOfFuel => OutOfFuel
            | TooManyDigits => TooManyDigits
            end
          else Invalid
      | EmptyString => Invalid
      end
  end

(** The items of an array from its first item on. *)
with elements (fuel : nat) (s : string) (items : list json) : outcome json :=
  match fuel with
  | O => OutOfFuel
  | S f =>
      match scan_once f s with
      | Parsed v r1 =>
          match skip_ws r1 with
          | String d r2 =>
              if Ascii.eqb d "]" then Parsed (JList (items ++ [v])) r2
              else if Ascii.eqb d "," then elements f (skip_ws r2) (items ++ [v])
              else Invalid
          | EmptyString => Invalid
          end
      | Invalid => Invalid
      | OutOfFuel => OutOfFuel
      | TooManyDigits => TooManyDigits
      end
  end.

(** [json.loads(s)]: one value, surrounded by optional whitespace. *)
Definition loads (s : string) : result json :=
  match scan_once (2 * String.length s + 2) (skip_ws s) with
  | Parsed v rest =>
      match skip_ws rest with
      | EmptyString => Ok v
      | String _ _ => Raise JSONDecodeError
      end
  | Invalid => Raise JSONDecodeError
  | OutOfFuel => Raise RecursionError
  | TooManyDigits => Raise ValueError
  end.

End PyJson.

(** ** [modules/alerts.py] *)

Module Alerts.

(** *** [TID_RX = re.compile(r"\bT\d{4}(?:\.\d{3})?\b", re.IGNORECASE)] *)

(** [\b] after a match, whose last character is a digit: the end of the
    text or a non-word character. *)
Definition boundary (rest : string) : bool :=
  match rest with
  | EmptyString => true
  | String c _ => negb (PyStr.isword c)
  end.

(** The match of the pattern at the head of [s], the word boundary in
    front of it being checked by the caller.  The longer alternative
    (with the sub-technique) is tried first, as the regex engine does. *)
Definition tid_match (s : string) : option string :=
  match s with
  | String t (String d1 (String d2 (String d3 (String d4 rest)))) =>
      if (Ascii.eqb t "T" || Ascii.eqb t "t")
         && PyStr.isdigit d1 && PyStr.isdigit d2
         && PyStr.isdigit d3 && PyStr.isdigit d4 then
        let base := String t (String d1 (String d2 (String d3 (String d4 "")))) in
        let long :=
          match rest with
          | String dot (String e1 (String e2 (String e3 rest'))) =>
              if Ascii.eqb dot "." && PyStr.isdigit e1 && PyStr.isdigit e2
                 && PyStr.isdigit e3 && boundary rest'
              then Some (base +:+ String dot (String e1 (String e2 (String e3 ""))))
              else None
          | _ => None
          end in
        match long with
        | Some m => Some m
        | None => if boundary rest then Some base else None
        end
      else None
  | _ => None
  end.

(** [TID_RX.findall(text)]: the matches from left to right, without
    overlap.  [prev_word] tells whether the character in front is a word
    character; [skip] counts the characters of a match still to pass. *)
Fixpoint findall_from (prev_word : bool) (skip : nat) (s : string) : list string :=
  match s with
  | EmptyString => []
  | String c s' =>
      match skip with
      | S k => findall_from (PyStr.isword c) k s'
      | O =>
          match (if prev_word then None else tid_match s) with
          | Some m => m :: findall_from (PyStr.isword c) (String.length m - 1) s'
          | None => findall_from (PyStr.isword c) 0 s'
          end
      end
  end.

Definition TID_RX_findall (text : string) : list string :=
  findall_from false 0 text.

(** *** The functions of the module *)

Definition _normalize_tid (tid : string) : string :=
  PyStr.replace "." "_" (PyStr.upper (PyStr.strip tid)).

(** The nodes the generator yields, in order: every [dict] reachable
    through dictionary values and list items.  On a value nested deeper
    than the interpreter allows where the generator is run, Python raises
    [RecursionError]; that limit depends on the call and is not modelled:
    what is proved of the functions that run the generator is proved of
    the results they return. *)
Fixpoint _iter_json (obj : json) : list json :=
  match obj with
  | JDict entries =>
      obj :: List.flat_map (fun kv => match kv with (_, v) => _iter_json v end) entries
  | JList items => List.flat_map _iter_json items
  | _ => []
  end.

(** The input of [load_wazuh_alerts_any]: text, bytes, or an object. *)
Inductive payload : Type :=
| Text (s : string)
| Bytes (b : string)
| Object (v : json).

(** [str(b)] for [bytes]: the literal [b'...']. *)
Definition bytes_char (quote : ascii) (c : ascii) : string :=
  if (127 <=? PyStr.code c)%N then
    String Py.backslash
      (String "x" (String (Py.hex_digit (PyStr.code c / 16))
                          (String (Py.hex_digit (PyStr.code c mod 16)) "")))
  else Py.repr_char quote c.

Fixpoint bytes_chars (quote : ascii) (b : string) : string :=
  match b with
  | EmptyString => EmptyString
  | String c b' => bytes_char quote c +:+ bytes_chars quote b'
  end.

Definition bytes_str (b : string) : string :=
  let quote :=
    if PyStr.contains Py.squote b && negb (PyStr.contains Py.dquote b)
    then Py.dquote else Py.squote in
  String "b" (String quote (bytes_chars quote b +:+ String quote "")).

(** [isinstance(x, (str, bytes))], with [str(x)] when it holds. *)
Definition as_text (p : payload) : option string :=
  match p with
  | Text s => Some s
  | Bytes b => Some (bytes_str b)
  | Object (JStr s) => Some s
  | Object _ => None
  end.

Definition as_object (p : payload) : json :=
  match p with
  | Text s => JStr s
  | Bytes b => JStr (bytes_str b)
  | Object v => v
  end.

(** [str.splitlines]: the line boundaries among the ASCII characters. *)
Definition is_linebreak (c : ascii) : bool :=
  PyStr.between 10 13 c || PyStr.between 28 30 c.

Fixpoint splitlines (s : string) : list string :=
  match s with
  | EmptyString => []
  | String c s' =>
      if is_linebreak c then
        match s' with
        | String c' s'' =>
            if Ascii.eqb c "013" && Ascii.eqb c' "010"
            then EmptyString :: splitlines s''
            else EmptyString :: splitlines s'
        | EmptyString => [EmptyString]
        end
      else
        match splitlines s' with
        | l :: ls => String c l :: ls
        | [] => [String c EmptyString]
        end
  end.

(** The loop over the lines of a record stream, [decode] being
    [json.loads]: a line on which the decoder raises [JSONDecodeError] is
    skipped; any other exception propagates. *)
Fixpoint ndjson_items (decode : string -> result json) (lines : list string)
         (items : list json) : result (list json) :=
  match lines with
  | [] => Ok items
  | line :: lines' =>
      match decode line with
      | Ok v => ndjson_items decode lines' (items ++ [v])
      | Raise JSONDecodeError => ndjson_items decode lines' items
      | Raise e => Raise e
      end
  end.

(** [[hit.get("_source") for hit in hits
      if isinstance(hit, dict) and hit.get("_source")]] *)
Definition hit_sources (hits : list json) : list json :=
  List.flat_map
    (fun hit =>
       match hit with
       | JDict d => if Py.truthy (Py.get "_source" d) then [Py.get "_source" d] else []
       | _ => []
       end) hits.

(** The body of [load_wazuh_alerts_any], [decode] being [json.loads]. *)
Definition load_with (decode : string -> result json) (text_or_obj : payload)
  : result json :=
  match as_text text_or_obj with
  | None => Ok (as_object text_or_obj)
  | Some text =>
      let txt := PyStr.strip text in
      if String.eqb txt "" then Ok (JDict [])
      else
        let lines :=
          List.filter (fun line => negb (String.eqb (PyStr.strip line) ""))
                      (splitlines txt) in
        if (1 <? List.length lines)%nat
           && List.forallb (fun line => PyStr.startswith "{" (PyStr.strip line)) lines
        then
          items ← ndjson_items decode lines [];
          Ok (JDict [("_ndjson", JList items)])
        else
          data ← decode txt;
          match data with
          | JDict d =>
              match Py.get "hits" d with
              | JDict h =>
                  hits ← Py.iter (Py.get_default "hits" (JList []) h);
                  Ok (JDict [("_hits_sources", JList (hit_sources hits))])
              | _ => Ok data
              end
          | _ => Ok data
          end
  end.

Definition load_wazuh_alerts_any (text_or_obj : payload) : result json :=
  load_with PyJson.loads text_or_obj.

(** [for value in values: if isinstance(value, (str, int)):
      tids.add(_normalize_tid(str(value)))] *)
Definition add_guarded (values : list json) (tids : gset string) : gset string :=
  List.fold_left
    (fun tids value =>
       if Py.is_str_or_int value then {[ _normalize_tid (Py.str value) ]} ∪ tids
       else tids)
    values tids.

(** [for value in candidate: tids.add(_normalize_tid(str(value)))] *)
Definition add_unguarded (values : list json) (tids : gset string) : gset string :=
  List.fold_left
    (fun tids value => {[ _normalize_tid (Py.str value) ]} ∪ tids)
    values tids.

(** [ids = mitre.get("id")] and the two branches on its type. *)
Definition add_ids (ids : json) (tids : gset string) : gset string :=
  match ids with
  | JStr s => {[ _normalize_tid s ]} ∪ tids
  | JList values => add_guarded values tids
  | _ => tids
  end.

(** The loop over [mitre.get("technique")] and [mitre.get("techniques")]. *)
Definition add_techniques (arr : json) (tids : gset string) : gset string :=
  match arr with
  | JList techniques =>
      List.fold_left
        (fun tids technique =>
           let tid := match technique with
                      | JDict d => Py.get "id" d
                      | _ => technique
                      end in
           if Py.is_str_or_int tid then {[ _normalize_tid (Py.str tid) ]} ∪ tids
           else tids)
        techniques tids
  | _ => tids
  end.

(** The scan of one free-text field. *)
Definition add_text_matches (value : json) (tids : gset string) : gset string :=
  match value with
  | JStr text =>
      List.fold_left (fun tids m => {[ _normalize_tid m ]} ∪ tids)
                     (TID_RX_findall text) tids
  | _ => tids
  end.

(** The alias paths [fields.rule.mitre.id] and [data.mitre.id]. *)
Definition add_alias (sub : json) (tids : gset string) : result (gset string) :=
  match sub with
  | JDict _ =>
      r ← Py.attr_get_default "rule" (JDict []) sub;
      m ← Py.attr_get_default "mitre" (JDict []) r;
      first ← Py.attr_get "id" m;
      candidate ←
        (if Py.truthy first then Ok first
         else m' ← Py.attr_get_default "mitre" (JDict []) sub;
              Py.attr_get "id" m');
      match candidate with
      | JStr s => Ok ({[ _normalize_tid s ]} ∪ tids)
      | JList values => Ok (add_unguarded values tids)
      | _ => Ok tids
      end
  | _ => Ok tids
  end.

(** The body of the loop of [_collect_tids_from_any] for one node. *)
Definition visit (node : json) (tids : gset string) : result (gset string) :=
  match node with
  | JDict d =>
      let rule := Py.or_ (Py.get "rule" d) (JDict []) in
      m ← Py.attr_get "mitre" rule;
      let mitre := Py.or_ m (JDict []) in
      ids ← Py.attr_get "id" mitre;
      let tids := add_ids ids tids in
      tids ← rfold (fun key tids => arr ← Py.attr_get key mitre;
                                    Ok (add_techniques arr tids))
                   ["technique"; "techniques"] tids;
      let tids := List.fold_left (fun tids key => add_text_matches (Py.get key d) tids)
                                 ["message"; "description"; "full_log"] tids in
      rfold (fun key tids => add_alias (Py.get key d) tids) ["fields"; "data"] tids
  | _ => Ok tids
  end.

Definition _collect_tids_from_any (obj : json) : result (gset string) :=
  rfold visit (_iter_json obj) ∅.

(** The local function [extend_unique] of [extract_tech_ids_universal],
    the list [tids] it updates being passed and returned. *)
Definition extend_unique (new_items : gset string) (tids : list string) : list string :=
  List.fold_left
    (fun tids tid => if bool_decide (tid ∈ tids) then tids else (tids ++ [tid])%list)
    (elements new_items) tids.

(** [for item in items: if isinstance(item, dict):
      extend_unique(_collect_tids_from_any(item))] *)
Definition extend_from (items : list json) (tids : list string) : result (list string) :=
  rfold (fun item tids =>
           match item with
           | JDict _ => new_items ← _collect_tids_from_any item;
                        Ok (extend_unique new_items tids)
           | _ => Ok tids
           end)
        items tids.

Definition extract_tech_ids_universal (obj : json) : result (list string) :=
  tids ←
    match obj with
    | JDict d =>
        if Py.has_key "_hits_sources" d then
          srcs ← Py.iter (Py.or_ (Py.get "_hits_sources" d) (JList []));
          extend_from srcs []
        else if Py.has_key "_ndjson" d then
          lines ← Py.iter (Py.or_ (Py.get "_ndjson" d) (JList []));
          extend_from lines []
        else
          new_items ← _collect_tids_from_any obj;
          Ok (extend_unique new_items [])
    | JList items => extend_from items []
    | _ => Ok []
    end;
  Ok (PyStr.sorted tids).

(** *** Metadata *)

(** [isinstance(v, dict)] *)
Definition is_dict (v : json) : bool :=
  match v with
  | JDict _ => true
  | _ => false
  end.

(** [[item for item in v if isinstance(item, dict)]] *)
Definition dict_items (v : json) : result (list json) :=
  items ← Py.iter v; Ok (List.filter is_dict items).

Definition _first_alert_objects (obj : json) : result (list json) :=
  match obj with
  | JDict d =>
      if Py.has_key "_hits_sources" d then dict_items (Py.get "_hits_sources" d)
      else if Py.has_key "_ndjson" d then dict_items (Py.get "_ndjson" d)
      else Ok [obj]
  | JList _ => dict_items obj
  | _ => Ok []
  end.

(** The inner loop of [_pick_paths]: the value reached through the keys,
    [None] (the [break]) as soon as a key is missing or the current value
    is not a dictionary. *)
Fixpoint walk (keys : list string) (current : json) : option json :=
  match keys with
  | [] => Some current
  | key :: keys' =>
      match current with
      | JDict d =>
          match Py.lookup key d with
          | Some v => walk keys' v
          | None => None
          end
      | _ => None
      end
  end.

Fixpoint _pick_paths (data : json) (paths : list string) : json :=
  match paths with
  | [] => JNone
  | path :: paths' =>
      match walk (PyStr.split "." path) data with
      | Some v => v
      | None => _pick_paths data paths'
      end
  end.

(** The body of [extract_alert_metadata] once the first record is chosen. *)
Definition metadata_of (alert : json) : json :=
  let ts := _pick_paths alert ["@timestamp"; "timestamp"; "event.created"; "event.ingested"] in
  let rid := _pick_paths alert ["rule.id"] in
  let rdesc := _pick_paths alert ["rule.description"; "rule.full_log"; "message"] in
  let agt := _pick_paths alert ["agent.name"; "host.name"] in
  let mids := _pick_paths alert ["rule.mitre.id"; "mitre.id"] in
  let mids :=
    match mids with
    | JStr _ => [mids]
    | JList values => List.map (fun value => JStr (Py.str value)) values
    | _ => []
    end in
  JDict [("timestamp", ts); ("rule.id", rid); ("rule.description", rdesc);
         ("agent.name", agt); ("rule.mitre.id", JList mids)].

Definition extract_alert_metadata (obj : json) : result json :=
  items ← _first_alert_objects obj;
  match items with
  | [] => Ok (JDict [])
  | alert :: _ => Ok (metadata_of alert)
  end.

(** [[extract_alert_metadata(item) for item in _first_alert_objects(obj)]] *)
Fixpoint metadata_each (items : list json) : result (list json) :=
  match items with
  | [] => Ok []
  | item :: items' =>
      m ← extract_alert_metadata item;
      ms ← metadata_each items';
      Ok (m :: ms)
  end.

Definition extract_all_alerts_metadata (obj : json) : result (list json) :=
  items ← _first_alert_objects obj; metadata_each items.

End Alerts.

(** ** [modules/ontology.py] *)

Module Ontology.

(** *** The graph and its interface

    An [rdflib.Graph] is a set of triples of nodes; a node is an IRI or a
    literal (blank nodes are left out), and [str] gives its text.  [sparql] tells whether the
    backend evaluates queries: [g.query] raises when it does not.  Every
    call of the interface is recorded, so that what a function asks of
    the graph can be stated. *)

Inductive node : Type :=
| URIRef (iri : string)
| Literal (lexical : string).

#[global] Instance node_eq_dec : EqDecision node.
Proof. solve_decision. Defined.

Definition node_str (n : node) : string :=
  match n with
  | URIRef iri => iri
  | Literal lexical => lexical
  end.

Record Graph : Type := {
  triples : list (node * node * node);
  sparql : bool
}.

Inductive call : Type :=
| Query (values : list string)
| Subjects (predicate object : node)
| Objects (subject predicate : node).

Record M (A : Type) : Type := Done { value : A; calls : list call }.
Arguments Done {A} value calls.
Arguments value {A} _.
Arguments calls {A} _.

#[global] Instance M_ret : MRet M := fun _ a => Done a [].

#[global] Instance M_bind : MBind M := fun _ _ k m =>
  let r := k (value m) in Done (value r) (calls m ++ calls r).

(** [for x in xs: acc = step(x, acc)] over graph calls. *)
Fixpoint mfold {A S : Type} (step : A -> S -> M S) (xs : list A) (acc : S) : M S :=
  match xs with
  | [] => mret acc
  | x :: xs' => acc' ← step x acc; mfold step xs' acc'
  end.

Definition BRIDGE (name : string) : node := URIRef ("http://example.org/bridge#" +:+ name).
Definition VERIS (name : string) : node := URIRef ("http://example.org/veris#" +:+ name).
Definition RDF_type : node := URIRef "http://www.w3.org/1999/02/22-rdf-syntax-ns#type".

Definition match_objects (g : Graph) (s p : node) : list node :=
  List.flat_map
    (fun t => match t with
              | (s', p', o) => if bool_decide (s' = s /\ p' = p) then [o] else []
              end) (triples g).

Definition match_subjects (g : Graph) (p o : node) : list node :=
  List.flat_map
    (fun t => match t with
              | (s, p', o') => if bool_decide (p' = p /\ o' = o) then [s] else []
              end) (triples g).

(** [g.objects(s, p)] and [g.subjects(p, o)] *)
Definition objects (g : Graph) (s p : node) : M (list node) :=
  Done (match_objects g s p) [Objects s p].

Definition subjects (g : Graph) (p o : node) : M (list node) :=
  Done (match_subjects g p o) [Subjects p o].

(** *** Utilities *)

Definition lastfrag (iri : string) : string :=
  if PyStr.contains "#" iri then PyStr.last_part (PyStr.split "#" iri)
  else if PyStr.contains "/" iri then PyStr.last_part (PyStr.rsplit1 "/" iri)
  else iri.

Definition _normalize_tid (value : string) : string :=
  if String.eqb value "" then ""
  else
    let s := PyStr.strip value in
    let s := lastfrag s in
    PyStr.replace "." "_" (PyStr.upper s).

Definition add_normalized (ts : list node) (techs : gset string) : gset string :=
  List.fold_left (fun techs t => {[ _normalize_tid (node_str t) ]} ∪ techs) ts techs.

Definition _techs_from_incident (g : Graph) (incident : node) : M (gset string) :=
  direct ← objects g incident (BRIDGE "involvesTechnique");
  let techs := add_normalized direct ∅ in
  actions ← objects g incident (BRIDGE "hasAction");
  mfold (fun a techs => ts ← objects g a (BRIDGE "relatesToTechnique");
                        mret (add_normalized ts techs))
        actions techs.

(** *** The query of the primary path

    The text sent to [g.query] is fixed but for the [VALUES] it lists;
    it is evaluated here clause by clause, by the SPARQL 1.1 semantics:

      SELECT DISTINCT ?incident WHERE {
        ?incident a veris:Incident .
        OPTIONAL { ?incident bridge:involvesTechnique ?t1 . }
        OPTIONAL { ?incident bridge:hasAction/bridge:relatesToTechnique ?t2 . }
        BIND(COALESCE(?t1, ?t2) AS ?t)
        BIND(REPLACE(STRAFTER(STR(?t), "#"), "\\.", "_") AS ?h)
        BIND(REPLACE(STRAFTER(STR(?t), "/"), "\\.", "_") AS ?s)
        VALUES ?tid { ... }
        FILTER( LCASE(?h) = LCASE(?tid) || LCASE(?s) = LCASE(?tid) )
      }

    Each value is pasted between double quotes.  The text sent is the
    one above, with the values as its strings, when no value holds a
    double quote, a backslash or a line break, the characters that end
    or escape a string of the query language: when the values are
    [quotable].  Another value makes another text, which is not
    modelled; what is proved of the query is proved for quotable
    values. *)

Definition quotable (value : string) : bool :=
  negb (PyStr.contains Py.dquote value)
  && negb (PyStr.contains Py.backslash value)
  && negb (PyStr.contains "010" value)
  && negb (PyStr.contains "013" value).

(** [STRAFTER(s, c)]: what follows the first [c]; empty without one. *)
Fixpoint STRAFTER (c : ascii) (s : string) : string :=
  match s with
  | EmptyString => EmptyString
  | String x s' => if Ascii.eqb x c then s' else STRAFTER c s'
  end.

(** A left join: every solution is kept, with the variable unbound when
    the optional pattern has no match. *)
Definition OPTIONAL (matches : list node) : list (option node) :=
  match matches with
  | [] => [None]
  | _ => List.map Some matches
  end.

Definition COALESCE (a b : option node) : option node :=
  match a with
  | Some _ => a
  | None => b
  end.

(** [?incident bridge:hasAction/bridge:relatesToTechnique ?t2] *)
Definition path_objects (g : Graph) (incident : node) : list node :=
  List.flat_map (fun a => match_objects g a (BRIDGE "relatesToTechnique"))
                (match_objects g incident (BRIDGE "hasAction")).

(** The bindings of [?t] in the solutions of one incident. *)
Definition t_solutions (g : Graph) (incident : node) : list (option node) :=
  List.flat_map
    (fun t1 => List.map (fun t2 => COALESCE t1 t2) (OPTIONAL (path_objects g incident)))
    (OPTIONAL (match_objects g incident (BRIDGE "involvesTechnique"))).

(** The two [BIND]s of [?h] and [?s] and the [FILTER], for one solution
    and one value; with [?t] unbound the filter is an error and the
    solution is dropped. *)
Definition filter_holds (t : option node) (tid : string) : bool :=
  match t with
  | None => false
  | Some t =>
      let h := PyStr.replace "." "_" (STRAFTER "#" (node_str t)) in
      let s := PyStr.replace "." "_" (STRAFTER "/" (node_str t)) in
      String.eqb (PyStr.lower h) (PyStr.lower tid)
      || String.eqb (PyStr.lower s) (PyStr.lower tid)
  end.

Definition select_incidents (g : Graph) (values : list string) : list node :=
  remove_dups
    (List.filter
       (fun incident =>
          List.existsb (fun t => List.existsb (filter_holds t) values)
                       (t_solutions g incident))
       (match_subjects g RDF_type (VERIS "Incident"))).

(** [list(g.query(q))] *)
Definition query (g : Graph) (values : list string) : M (result (list node)) :=
  Done (if sparql g then Ok (select_incidents g values) else Raise QueryError)
       [Query values].

(** *** The function used by the interface *)

(** The body of the [try]: the rows of the query as strings. *)
Definition primary_path (g : Graph) (tids_norm : gset string) : M (result (list string)) :=
  rows ← query g (PyStr.sorted (elements tids_norm));
  mret (match rows with
        | Ok rows => Ok (List.map node_str rows)
        | Raise e => Raise e
        end).

(** The scan after the [try]. *)
Definition fallback_scan (g : Graph) (tids_norm : gset string) : M (list string) :=
  incs ← subjects g RDF_type (VERIS "Incident");
  incidents_set ←
    mfold (fun inc (acc : gset string) =>
             techs_inc ← _techs_from_incident g inc;
             mret (if bool_decide (techs_inc ∩ tids_norm ≠ ∅)
                   then {[ node_str inc ]} ∪ acc else acc))
          incs ∅;
  mret (PyStr.sorted (elements incidents_set)).

Definition get_incidents_by_tech (g : Graph) (tech_ids : list string) : M (list string) :=
  match tech_ids with
  | [] => mret []
  | _ =>
      let tids_norm : gset string :=
        list_to_set
          (List.map _normalize_tid
                    (List.filter (fun t => negb (String.eqb t "")) tech_ids)) in
      r ← primary_path g tids_norm;
      match r with
      | Ok (i :: incidents) => mret (i :: incidents)
      | _ => fallback_scan g tids_norm
      end
  end.

(** *** The supporting operations

    Each sends one query and, when the query raises, reads the same edges
    through [g.objects].  The queries are basic graph patterns:

      SELECT DISTINCT ?a WHERE { <incident> bridge:hasAction ?a . }
      SELECT DISTINCT ?t WHERE { <incident> bridge:involvesTechnique ?t . }
      SELECT DISTINCT ?t WHERE { <incident> bridge:hasAction/bridge:relatesToTechnique ?t . }
      SELECT DISTINCT ?a ?t WHERE { VALUES ?a { <a1> ... } ?a bridge:relatesToTechnique ?t . }

    The IRIs written into the text of a query are logged with it; they are
    taken to hold no character that would change the text of the query. *)

(** [g.query(q)] for a query whose solutions are [rows]. *)
Definition sparql_rows {A : Type} (g : Graph) (inserted : list string) (rows : list A)
  : M (result (list A)) :=
  Done (if sparql g then Ok rows else Raise QueryError) [Query inserted].





(** The order of tuples of two strings: by the first, then the second. *)
Definition pair_leb (p q : string * string) : bool :=
  match String.compare (fst p) (fst q) with
  | Lt => true
  | Eq => String.leb (snd p) (snd q)
  | Gt => false
  end.

Definition pair_le (p q : string * string) : Prop := pair_leb p q = true.

#[global] Instance pair_le_dec (p q : string * string) : Decision (pair_le p q).
Proof. unfold pair_le. apply _. Defined.

(** The solutions of the last query: one row per action of the [VALUES]
    and technique it relates to. *)
Definition pair_rows (g : Graph) (actions : list string) : list (node * node) :=
  List.flat_map
    (fun a => List.map (fun t => (URIRef a, t))
                       (match_objects g (URIRef a) (BRIDGE "relatesToTechnique")))
    actions.

Definition actions_to_tech_pairs (g : Graph) (actions : list string)
  : M (list (string * string)) :=
  match actions with
  | [] => mret []
  | _ =>
      r ← sparql_rows g actions (remove_dups (pair_rows g actions));
      match r with
      | Ok rows => mret (List.map (fun r => (node_str (fst r), node_str (snd r))) rows)
      | Raise _ =>
          pairs ← mfold (fun a pairs =>
                           ts ← objects g (URIRef a) (BRIDGE "relatesToTechnique");
                           mret (pairs ++ List.map (fun t => (a, node_str t)) ts)%list)
                        actions [];
          mret (merge_sort pair_le (elements (list_to_set pairs : gset (string * string))))
      end
  end.

End Ontology.

(** ** [modules/rag.py] *)

Module Rag.

(** [TOKEN_RX = re.compile(r"[\w-]+", re.UNICODE)] *)
Definition is_token_char (c : ascii) : bool := PyStr.isword c || Ascii.eqb c "-".

(** [TOKEN_RX.findall(text)]: the maximal runs of token characters. *)
Fixpoint TOKEN_RX_findall (text : string) : list string :=
  match text with
  | EmptyString => []
  | String c rest =>
      if is_token_char c then
        match rest with
        | String c' _ =>
            if is_token_char c' then
              match TOKEN_RX_findall rest with
              | tok :: toks => String c tok :: toks
              | [] => [String c EmptyString]
              end
            else String c EmptyString :: TOKEN_RX_findall rest
        | EmptyString => [String c EmptyString]
        end
      else TOKEN_RX_findall rest
  end.

Definition _tokenize (text : string) : list string :=
  if String.eqb text "" then []
  else List.map PyStr.lower (TOKEN_RX_findall text).

(** A [collections.Counter]: the counts of the tokens, in the order in
    which the tokens were first seen (its iteration order). *)
Definition Counter : Type := list (string * Z).

Fixpoint count_one (tok : string) (c : Counter) : Counter :=
  match c with
  | [] => [(tok, 1%Z)]
  | (k, n) :: c' =>
      if String.eqb k tok then (k, (n + 1)%Z) :: c' else (k, n) :: count_one tok c'
  end.

Definition count (toks : list string) : Counter :=
  List.fold_left (fun c tok => count_one tok c) toks [].

(** [token in vec] and [vec[token]] *)
Fixpoint counter_get (tok : string) (c : Counter) : option Z :=
  match c with
  | [] => None
  | (k, n) :: c' => if String.eqb k tok then Some n else counter_get tok c'
  end.

(** The conversion of an [int] to a [float], rounding to nearest-even (an
    [int] beyond the range of binary64, for which Python raises
    [OverflowError], becomes an infinity here; reaching it takes counts
    above [2^511]). *)
Definition float_of_int (n : Z) : float :=
  SF2Prim (binary_normalize 53 1024 n 0 false).

(** [bool(x)] for a float. *)
Definition float_truthy (x : float) : bool := negb (PrimFloat.eqb x 0%float).

Definition _norm (counter : Counter) : float :=
  let x := PrimFloat.sqrt
             (float_of_int (List.fold_left (fun acc kv => (acc + snd kv * snd kv)%Z)
                                           counter 0%Z)) in
  if float_truthy x then x else 1%float.

Definition _cosine (vec_a : Counter) (norm_a : float) (vec_b : Counter) (norm_b : float)
  : float :=
  match vec_a, vec_b with
  | [], _ | _, [] => 0%float
  | _, _ =>
      let score :=
        List.fold_left
          (fun score kv =>
             match counter_get (fst kv) vec_b with
             | Some n => PrimFloat.add score (float_of_int (snd kv * n))
             | None => score
             end)
          vec_a 0%float in
      if float_truthy score then PrimFloat.div score (PrimFloat.mul norm_a norm_b)
      else 0%float
  end.

(** The marker appended to a truncated text: one code point, U+2026
    (three bytes in the UTF-8 form). *)
Definition ellipsis : string := "…".

Definition _snippet (text : string) (limit : Z) : string :=
  if (PyStr.len text <=? limit)%Z then text
  else
    let cut := PyStr.first_part (PyStr.rsplit1 " " (PyStr.slice_to limit text)) in
    cut +:+ ellipsis.

Record RagResult : Type := {
  title : string;
  content : string;
  snippet : string;
  score : float
}.

(** A stored document: [{"title": title, "content": content}]. *)
Record Doc : Type := { doc_title : string; doc_content : string }.

Record SimpleRAG : Type := {
  docs : list Doc;
  vectors : list Counter;
  norms : list float
}.

(** [doc.get(key) or default] on a [Dict[str, str]]. *)
Fixpoint get_or (key default : string) (doc : list (string * string)) : string :=
  match doc with
  | [] => default
  | (k, v) :: doc' =>
      if String.eqb k key then (if String.eqb v "" then default else v)
      else get_or key default doc'
  end.

(** The document [__init__] stores for an input document. *)
Definition store (doc : list (string * string)) : Doc :=
  let title := PyStr.strip (get_or "title" "Section" doc) in
  let content := PyStr.strip (get_or "content" "" doc) in
  {| doc_title := title; doc_content := content |}.

(** [SimpleRAG.__init__] *)
Definition init (documents : list (list (string * string))) : SimpleRAG :=
  List.fold_left
    (fun self doc =>
       let stored := store doc in
       let vec := count (_tokenize (doc_content stored)) in
       {| docs := docs self ++ [stored];
          vectors := vectors self ++ [vec];
          norms := norms self ++ [_norm vec] |})
    documents {| docs := []; vectors := []; norms := [] |}.

(** [zip(docs, vectors, norms, strict=False)] *)
Fixpoint zip3 (ds : list Doc) (vs : list Counter) (ns : list float)
  : list (Doc * Counter * float) :=
  match ds, vs, ns with
  | d :: ds', v :: vs', n :: ns' => (d, v, n) :: zip3 ds' vs' ns'
  | _, _, _ => []
  end.

Definition result_of (doc : Doc) (sim : float) : RagResult :=
  {| title := doc_title doc;
     content := doc_content doc;
     snippet := _snippet (doc_content doc) 260;
     score := sim |}.

(** [scored.sort(key=lambda r: r.score, reverse=True)]: by decreasing
    score, results of equal score keeping their order. *)
Fixpoint insert_desc (r : RagResult) (rs : list RagResult) : list RagResult :=
  match rs with
  | [] => [r]
  | r' :: rs' =>
      if PrimFloat.ltb (score r) (score r') then r' :: insert_desc r rs'
      else r :: rs
  end.

Definition sort_desc (rs : list RagResult) : list RagResult :=
  List.fold_right insert_desc [] rs.

(** [xs[:k]] for an [int] bound. *)
Definition slice_to {A : Type} (k : Z) (xs : list A) : list A :=
  if (0 <=? k)%Z then List.firstn (Z.to_nat k) xs
  else List.firstn (List.length xs - Z.to_nat (- k)) xs.

(** The similarity of the query to every stored document. *)
Definition similarities (self : SimpleRAG) (query : string) : list (Doc * float) :=
  let q_vec := count (_tokenize query) in
  let q_norm := _norm q_vec in
  List.map (fun dvn => match dvn with
                       | (doc, vec, norm) => (doc, _cosine q_vec q_norm vec norm)
                       end)
           (zip3 (docs self) (vectors self) (norms self)).

(** [SimpleRAG.search] *)
Definition search (self : SimpleRAG) (query : string) (top_k : Z) : list RagResult :=
  match docs self with
  | [] => []
  | fallback_doc :: _ =>
      let scored :=
        List.flat_map
          (fun ds => if PrimFloat.ltb 0%float (snd ds)
                     then [result_of (fst ds) (snd ds)] else [])
          (similarities self query) in
      let scored :=
        match scored with
        | [] => [result_of fallback_doc 0%float]
        | _ => scored
        end in
      let scored := sort_desc scored in
      slice_to (if (top_k =? 0)%Z then 1%Z else top_k) scored
  end.

End Rag.

(** ** Helpers of [streamlit_app.py] and [modules/visuals.py] *)

Module App.

(** [first_alert_object]: the record shown in the preview; [None] is
    Python's [None]. *)
Definition first_dict (items : list json) : option json :=
  List.find Alerts.is_dict items.

Definition first_alert_object (obj : json) : option json :=
  match obj with
  | JDict d =>
      let in_hits :=
        if Py.has_key "_hits_sources" d then
          match Py.get "_hits_sources" d with
          | JList items => first_dict items
          | _ => None
          end
        else None in
      match in_hits with
      | Some candidate => Some candidate
      | None =>
          let in_lines :=
            if Py.has_key "_ndjson" d then
              match Py.get "_ndjson" d with
              | JList items => first_dict items
              | _ => None
              end
            else None in
          match in_lines with
          | Some candidate => Some candidate
          | None => Some obj
          end
      end
  | JList items => first_dict items
  | _ => None
  end.

Definition humanize_label (value : string) : string :=
  PyStr.strip (PyStr.replace "_" " " value).

Definition format_tid_display (fragment : string) : string :=
  let frag := PyStr.upper (PyStr.strip fragment) in
  match PyStr.split_first "_" frag with
  | None => frag
  | Some (head, tail) => head +:+ "." +:+ PyStr.replace "_" "." tail
  end.

Definition MITRE_IRI_PREFIX : string := "http://example.org/mitre#".

Definition tid_to_iri (tid : string) : string :=
  if String.eqb tid "" then ""
  else
    let normalized := PyStr.replace "." "_" (PyStr.upper (PyStr.strip tid)) in
    MITRE_IRI_PREFIX +:+ normalized.

End App.

Module Visuals.

(** [text.split("#", 1)[1]] is what follows the first [#]. *)
Definition _lastfrag (text : string) : string :=
  if PyStr.contains "#" text then
    match PyStr.split_first "#" text with
    | Some (_, after) => after
    | None => text
    end
  else if PyStr.contains "/" text then PyStr.last_part (PyStr.rsplit1 "/" text)
  else text.

Definition _to_mitre_iri (tid : string) : string :=
  "http://example.org/mitre#" +:+ PyStr.replace "." "_" (PyStr.upper (PyStr.strip tid)).

End Visuals.

(** * Notions used in the statements *)

(** What [lstrip] returns does not start with whitespace. *)
Definition starts_clean (s : string) : Prop :=
  match s with
  | EmptyString => True
  | String c _ => PyStr.isspace c = false
  end.

(** [s.split(c)[-1]]: the text after the last [c]. *)
Definition tail_after (c : ascii) (s : string) : string := PyStr.last_part (PyStr.split c s).

(** What [s.upper().replace(".", "_")] does to one character. *)
Definition canon_char (c : ascii) : ascii :=
  let u := PyStr.upper_char c in if Ascii.eqb u "." then "_"%char else u.

(** What [s.upper().replace(".", "_")] does to a string. *)
Definition canon (s : string) : string := PyStr.smap canon_char s.

(** Every member is a normalized identifier: the normalizer fixes it. *)
Definition all_normalized (tids : gset string) : Prop :=
  forall t, t ∈ tids -> Alerts._normalize_tid t = t.

(** No duplicates, and only normalized identifiers. *)
Definition clean_list (tids : list string) : Prop :=
  NoDup tids /\ forall t, t ∈ tids -> Alerts._normalize_tid t = t.

(** The values that [get_incidents_by_tech] pastes into the text of its
    query, the normalized identifiers, are quotable. *)
Definition ids_quotable (tech_ids : list string) : bool :=
  List.forallb (fun tid => Ontology.quotable (Ontology._normalize_tid tid)) tech_ids.

(** Two incidents that involve T1190, one through an IRI with a fragment,
    one through an IRI whose last segment follows a slash. *)
Definition graph_slash : Ontology.Graph :=
  {| Ontology.triples :=
       [ (Ontology.VERIS "inc1", Ontology.RDF_type, Ontology.VERIS "Incident");
         (Ontology.VERIS "inc1", Ontology.BRIDGE "involvesTechnique",
          Ontology.URIRef "http://example.org/mitre#T1190");
         (Ontology.VERIS "inc2", Ontology.RDF_type, Ontology.VERIS "Incident");
         (Ontology.VERIS "inc2", Ontology.BRIDGE "involvesTechnique",
          Ontology.URIRef "http://example.org/mitre/T1190") ];
     Ontology.sparql := true |}.

(** Two incidents that involve T1190, the second through one of its
    actions while a different technique is materialized on it. *)
Definition graph_stale : Ontology.Graph :=
  {| Ontology.triples :=
       [ (Ontology.VERIS "inc1", Ontology.RDF_type, Ontology.VERIS "Incident");
         (Ontology.VERIS "inc1", Ontology.BRIDGE "involvesTechnique",
          Ontology.URIRef "http://example.org/mitre#T1190");
         (Ontology.VERIS "inc2", Ontology.RDF_type, Ontology.VERIS "Incident");
         (Ontology.VERIS "inc2", Ontology.BRIDGE "involvesTechnique",
          Ontology.URIRef "http://example.org/mitre#T1059");
         (Ontology.VERIS "inc2", Ontology.BRIDGE "hasAction", Ontology.VERIS "action2");
         (Ontology.VERIS "action2", Ontology.BRIDGE "relatesToTechnique",
          Ontology.URIRef "http://example.org/mitre#T1190") ];
     Ontology.sparql := true |}.

(** What lowering after the replacement of the dot, as in the filter of
    the query, does to one character. *)
Definition lowrep (c : ascii) : ascii :=
  PyStr.lower_char (if Ascii.eqb c "." then "_"%char else c).

(** A technique node whose text the query and the scan read alike: no
    whitespace around it, one [#], and no [/] in the fragment after it. *)
Definition fragment_iri (s : string) : bool :=
  String.eqb (PyStr.strip s) s
  && PyStr.contains "#" s
  && negb (PyStr.contains "#" (Ontology.STRAFTER "#" s))
  && negb (PyStr.contains "/" (Ontology.STRAFTER "#" s)).

Definition technique_edge (p : Ontology.node) : bool :=
  bool_decide (p = Ontology.BRIDGE "involvesTechnique" \/
               p = Ontology.BRIDGE "relatesToTechnique").

(** Every technique of the graph is such a node. *)
Definition technique_fragment_iris (g : Ontology.Graph) : bool :=
  List.forallb
    (fun t => match t with
              | (_, p, o) => implb (technique_edge p) (fragment_iri (Ontology.node_str o))
              end)
    (Ontology.triples g).

(** The materialization is complete: an incident that has materialized
    techniques has among them, up to normalization, every technique
    reached through its actions. *)
Definition links_materialized (g : Ontology.Graph) : bool :=
  List.forallb
    (fun inc =>
       let direct := Ontology.match_objects g inc (Ontology.BRIDGE "involvesTechnique") in
       match direct with
       | [] => true
       | _ =>
           List.forallb
             (fun n =>
                List.existsb
                  (fun d => String.eqb (Ontology._normalize_tid (Ontology.node_str d))
                                       (Ontology._normalize_tid (Ontology.node_str n)))
                  direct)
             (Ontology.path_objects g inc)
       end)
    (Ontology.match_subjects g Ontology.RDF_type (Ontology.VERIS "Incident")).

(** No identifier of the list is normalized to the empty text, the empty
    identifiers apart, which the correlation drops. *)
Definition ids_nonblank (tech_ids : list string) : bool :=
  List.forallb
    (fun tid => String.eqb tid "" || negb (String.eqb (Ontology._normalize_tid tid) ""))
    tech_ids.

(** Three incidents that involve T1190: directly, through an action, and
    both ways. *)
Definition graph_fragments : Ontology.Graph :=
  {| Ontology.triples :=
       [ (Ontology.VERIS "inc1", Ontology.RDF_type, Ontology.VERIS "Incident");
         (Ontology.VERIS "inc1", Ontology.BRIDGE "involvesTechnique",
          Ontology.URIRef "http://example.org/mitre#T1190");
         (Ontology.VERIS "inc2", Ontology.RDF_type, Ontology.VERIS "Incident");
         (Ontology.VERIS "inc2", Ontology.BRIDGE "hasAction", Ontology.VERIS "action2");
         (Ontology.VERIS "action2", Ontology.BRIDGE "relatesToTechnique",
          Ontology.URIRef "http://example.org/mitre#T1190");
         (Ontology.VERIS "inc3", Ontology.RDF_type, Ontology.VERIS "Incident");
         (Ontology.VERIS "inc3", Ontology.BRIDGE "involvesTechnique",
          Ontology.URIRef "http://example.org/mitre#T1190");
         (Ontology.VERIS "inc3", Ontology.BRIDGE "hasAction", Ontology.VERIS "action2") ];
     Ontology.sparql := true |}.

(** A normalized technique identifier: [T] and four digits, then
    possibly [_] and three digits. *)
Definition canonical_tid (s : string) : bool :=
  match s with
  | String t (String d1 (String d2 (String d3 (String d4 rest)))) =>
      Ascii.eqb t "T" && PyStr.isdigit d1 && PyStr.isdigit d2
      && PyStr.isdigit d3 && PyStr.isdigit d4
      && match rest with
         | EmptyString => true
         | String u (String e1 (String e2 (String e3 EmptyString))) =>
             Ascii.eqb u "_" && PyStr.isdigit e1 && PyStr.isdigit e2 && PyStr.isdigit e3
         | _ => false
         end
  | _ => false
  end.

(** A record that is not itself a batch: a dictionary without the keys
    [_hits_sources] and [_ndjson]. *)
Definition plain_record (v : json) : bool :=
  match v with
  | JDict d => negb (Py.has_key "_hits_sources" d) && negb (Py.has_key "_ndjson" d)
  | _ => false
  end.

(** The alert of the test [test_extract_basic]. *)
Definition alert_basic : json :=
  JDict [("rule", JDict [("mitre", JDict [("id", JList [JStr "T1190"; JStr "T1059.001"])])])].

(** What [format_tid_display] does to one character of the stripped
    fragment: upper case, and a dot for an underscore. *)
Definition dotted (c : ascii) : ascii :=
  let u := PyStr.upper_char c in if Ascii.eqb u "_" then "."%char else u.

(** The order of the results of a search: a result is not followed by one
    of a strictly greater score. *)
Definition not_below (a b : Rag.RagResult) : Prop :=
  PrimFloat.ltb (Rag.score a) (Rag.score b) = false.

(** The characters on which the model of [str] is exact. *)
Definition is_ascii (s : string) : bool :=
  List.forallb (fun c => (PyStr.code c <? 128)%N) (list_ascii_of_string s).

(** The technique nodes of the graph, and the identifiers, are such
    texts: on them [upper] in the scan and [LCASE] in the query are the
    maps of the model. *)
Definition techniques_ascii (g : Ontology.Graph) : bool :=
  List.forallb
    (fun t => match t with
              | (_, p, o) => implb (technique_edge p) (is_ascii (Ontology.node_str o))
              end)
    (Ontology.triples g).

Definition ids_ascii (tech_ids : list string) : bool := List.forallb is_ascii tech_ids.

(** A record stream of three lines, the second of which is not JSON. *)
Definition stream_text : string :=
  "{}" +:+ String "010" ("{oops" +:+ String "010" "{}").

(** A cut splits a word of the text when the cut ends with a character
    other than a space and the text goes on with another one. *)
Definition splits_word (text cut : string) : Prop :=
  exists pre c d rest,
    cut = pre +:+ String c "" /\ text = cut +:+ String d rest /\
    c <> " "%char /\ d <> " "%char.

(** The text of [n] times the character [c]. *)
Fixpoint repeat_char (c : ascii) (n : nat) : string :=
  match n with
  | O => EmptyString
  | S n' => String c (repeat_char c n')
  end.

(** * Properties *)

(** ** Facts about the string builtins *)

Section StringFacts.

Import PyStr.

Ltac by_cases_on c := destruct c as [[] [] [] [] [] [] [] []]; reflexivity.

Lemma smap_smap (f g : ascii -> ascii) (s : string) :
  smap f (smap g s) = smap (fun c => f (g c)) s.
Proof. induction s as [|c s IH]; simpl; [reflexivity | now rewrite IH]. Qed.

Lemma smap_ext (f g : ascii -> ascii) (s : string) :
  (forall c, f c = g c) -> smap f s = smap g s.
Proof. intros E. induction s as [|c s IH]; simpl; [reflexivity | now rewrite E, IH]. Qed.

Lemma smap_length (f : ascii -> ascii) (s : string) :
  String.length (smap f s) = String.length s.
Proof. induction s as [|c s IH]; simpl; [reflexivity | now rewrite IH]. Qed.

Lemma smap_empty (f : ascii -> ascii) (s : string) :
  smap f s = EmptyString -> s = EmptyString.
Proof. destruct s; simpl; [reflexivity | discriminate]. Qed.

(** A character map that keeps whitespace whitespace, and nothing else,
    commutes with the three strips. *)
Section SpacePreserving.

Variable f : ascii -> ascii.
Hypothesis f_space : forall c, isspace (f c) = isspace c.

Lemma lstrip_smap (s : string) : lstrip (smap f s) = smap f (lstrip s).
Proof.
  induction s as [|c s IH]; simpl; [reflexivity|].
  rewrite f_space. destruct (isspace c); [exact IH | reflexivity].
Qed.

Lemma rstrip_smap (s : string) : rstrip (smap f s) = smap f (rstrip s).
Proof.
  induction s as [|c s IH]; simpl; [reflexivity|].
  rewrite IH, f_space.
  destruct (rstrip s) as [|r rs]; simpl; [|reflexivity].
  destruct (isspace c); reflexivity.
Qed.

Lemma strip_smap (s : string) : strip (smap f s) = smap f (strip s).
Proof. unfold strip. now rewrite lstrip_smap, rstrip_smap. Qed.

End SpacePreserving.

Lemma rstrip_rstrip (s : string) : rstrip (rstrip s) = rstrip s.
Proof.
  induction s as [|c s IH]; simpl; [reflexivity|].
  destruct (rstrip s) as [|r rs] eqn:E.
  - destruct (isspace c) eqn:Ec; simpl; [reflexivity | now rewrite Ec].
  - simpl in *. now rewrite IH.
Qed.

Lemma lstrip_starts_clean (s : string) : starts_clean (lstrip s).
Proof.
  induction s as [|c s IH]; simpl; [exact I|].
  destruct (isspace c) eqn:E; [exact IH | exact E].
Qed.

Lemma lstrip_clean (s : string) : starts_clean s -> lstrip s = s.
Proof. destruct s as [|c s]; simpl; [reflexivity | now intros ->]. Qed.

Lemma rstrip_starts_clean (s : string) : starts_clean s -> starts_clean (rstrip s).
Proof.
  destruct s as [|c s]; simpl; [trivial|]. intros E.
  destruct (rstrip s); simpl; [now rewrite E | exact E].
Qed.

Lemma strip_strip (s : string) : strip (strip s) = strip s.
Proof.
  unfold strip.
  rewrite (lstrip_clean (rstrip (lstrip s))).
  - apply rstrip_rstrip.
  - apply rstrip_starts_clean, lstrip_starts_clean.
Qed.

Lemma lstrip_length (s : string) : String.length (lstrip s) <= String.length s.
Proof. induction s as [|c s IH]; simpl; [lia|]. destruct (isspace c); simpl; lia. Qed.

Lemma rstrip_length (s : string) : String.length (rstrip s) <= String.length s.
Proof.
  induction s as [|c s IH]; simpl; [lia|].
  destruct (rstrip s); [destruct (isspace c)|]; simpl in *; lia.
Qed.

Lemma strip_length (s : string) : String.length (strip s) <= String.length s.
Proof. unfold strip. pose proof (rstrip_length (lstrip s)). pose proof (lstrip_length s). lia. Qed.

Lemma lstrip_same_length (s : string) :
  String.length (lstrip s) = String.length s -> lstrip s = s.
Proof.
  destruct s as [|c s]; simpl; [reflexivity|].
  destruct (isspace c); [|reflexivity].
  pose proof (lstrip_length s). simpl. lia.
Qed.

Lemma rstrip_same_length (s : string) :
  String.length (rstrip s) = String.length s -> rstrip s = s.
Proof.
  induction s as [|c s IH]; simpl; [reflexivity|].
  pose proof (rstrip_length s) as L.
  destruct (rstrip s) as [|r rs] eqn:E.
  - destruct (isspace c); simpl in *; intros H.
    + lia.
    + destruct s; [reflexivity | simpl in H; lia].
  - simpl in *. intros H. rewrite IH; [reflexivity | lia].
Qed.

Lemma strip_same_length (s : string) :
  String.length (strip s) = String.length s -> strip s = s.
Proof.
  unfold strip. intros H.
  pose proof (rstrip_length (lstrip s)). pose proof (lstrip_length s).
  assert (E : lstrip s = s) by (apply lstrip_same_length; lia).
  rewrite E in *. now apply rstrip_same_length.
Qed.

(** *** Splitting *)

Lemma split_cases (c : ascii) (s : string) :
  (contains c s = false /\ split c s = [s]) \/
  (contains c s = true /\ exists p q ps, split c s = p :: q :: ps).
Proof.
  induction s as [|x s IH]; simpl; [now left|].
  destruct (Ascii.eqb x c) eqn:E; simpl.
  - right. split; [reflexivity|].
    destruct IH as [[_ ->] | [_ (p & q & ps & ->)]]; eauto.
  - destruct IH as [[-> ->] | [-> (p & q & ps & ->)]]; [now left | right; eauto].
Qed.

Lemma split_without (c : ascii) (s : string) :
  contains c s = false -> split c s = [s].
Proof. intros H. destruct (split_cases c s) as [[_ E] | [E _]]; congruence. Qed.

Lemma tail_after_cons (c x : ascii) (s : string) :
  tail_after c (String x s) =
  if Ascii.eqb x c || contains c s then tail_after c s else String x s.
Proof.
  unfold tail_after, last_part. simpl.
  destruct (Ascii.eqb x c) eqn:E; simpl.
  - destruct (split_cases c s) as [[_ ->] | [_ (p & q & ps & ->)]]; reflexivity.
  - destruct (split_cases c s) as [[-> ->] | [-> (p & q & ps & ->)]]; reflexivity.
Qed.

Lemma tail_after_without (c : ascii) (s : string) :
  contains c s = false -> tail_after c s = s.
Proof. intros H. unfold tail_after. now rewrite split_without. Qed.

Lemma tail_after_clean (c : ascii) (s : string) : contains c (tail_after c s) = false.
Proof.
  induction s as [|x s IH]; [reflexivity|].
  rewrite tail_after_cons.
  destruct (Ascii.eqb x c) eqn:E; simpl; [exact IH|].
  destruct (contains c s) eqn:C; [exact IH | simpl; now rewrite E, C].
Qed.

(** The tail is a suffix: it holds no character that the text lacks. *)
Lemma tail_after_contains (c d : ascii) (s : string) :
  contains d s = false -> contains d (tail_after c s) = false.
Proof.
  induction s as [|x s IH]; [reflexivity|].
  rewrite tail_after_cons. simpl. intros [H1 H2]%orb_false_elim.
  destruct (Ascii.eqb x c || contains c s); [now apply IH | simpl; now rewrite H1, H2].
Qed.

Lemma tail_after_length (c : ascii) (s : string) :
  String.length (tail_after c s) <= String.length s.
Proof.
  induction s as [|x s IH]; [simpl; lia|].
  rewrite tail_after_cons. destruct (Ascii.eqb x c || contains c s); simpl; lia.
Qed.

Lemma tail_after_shorter (c : ascii) (s : string) :
  contains c s = true -> String.length (tail_after c s) < String.length s.
Proof.
  destruct s as [|x s]; [discriminate|]. intros H.
  rewrite tail_after_cons. simpl in H. rewrite H.
  pose proof (tail_after_length c s). simpl. lia.
Qed.

Lemma contains_smap (f : ascii -> ascii) (c : ascii) (s : string) :
  (forall x, Ascii.eqb (f x) c = Ascii.eqb x c) ->
  contains c (smap f s) = contains c s.
Proof. intros F. induction s as [|x s IH]; simpl; [reflexivity | now rewrite F, IH]. Qed.

Lemma tail_after_smap (f : ascii -> ascii) (c : ascii) (s : string) :
  (forall x, Ascii.eqb (f x) c = Ascii.eqb x c) ->
  tail_after c (smap f s) = smap f (tail_after c s).
Proof.
  intros F. induction s as [|x s IH]; [reflexivity|].
  simpl smap. rewrite !tail_after_cons, F, contains_smap, IH by exact F.
  destruct (Ascii.eqb x c || contains c s); reflexivity.
Qed.

Lemma join_split (c : ascii) (s : string) : join c (split c s) = s.
Proof.
  induction s as [|x s IH]; [reflexivity|]. simpl.
  destruct (Ascii.eqb x c) eqn:E.
  - apply Ascii.eqb_eq in E. subst x.
    destruct (split_cases c s) as [[_ S] | [_ (p & q & ps & S)]];
      rewrite S in IH; rewrite S; simpl in *; [reflexivity | now rewrite IH].
  - destruct (split_cases c s) as [[_ S] | [_ (p & q & ps & S)]];
      rewrite S in IH; rewrite S; simpl in *; [reflexivity | now rewrite <- IH].
Qed.

(** [s.rsplit(c, 1)[-1]] is [s.split(c)[-1]]. *)
Lemma rsplit1_last (c : ascii) (s : string) :
  last_part (rsplit1 c s) = tail_after c s.
Proof.
  unfold rsplit1, tail_after.
  destruct (split_cases c s) as [[_ ->] | [_ (p & q & ps & ->)]]; reflexivity.
Qed.

End StringFacts.

(** ** The two normalizers *)

Section Normalizers.

Import PyStr.

Ltac by_cases_on c := destruct c as [[] [] [] [] [] [] [] []]; reflexivity.

Lemma canon_char_idem (c : ascii) : canon_char (canon_char c) = canon_char c.
Proof. by_cases_on c. Qed.

Lemma canon_char_space (c : ascii) : isspace (canon_char c) = isspace c.
Proof. by_cases_on c. Qed.

Lemma canon_char_hash (c : ascii) : Ascii.eqb (canon_char c) "#" = Ascii.eqb c "#".
Proof. by_cases_on c. Qed.

Lemma canon_char_slash (c : ascii) : Ascii.eqb (canon_char c) "/" = Ascii.eqb c "/".
Proof. by_cases_on c. Qed.

Lemma canon_canon (s : string) : canon (canon s) = canon s.
Proof. unfold canon. rewrite smap_smap. apply smap_ext, canon_char_idem. Qed.

Lemma canon_spec (s : string) : replace "." "_" (upper s) = canon s.
Proof. unfold replace, upper, canon. now rewrite smap_smap. Qed.

Lemma strip_canon (s : string) : strip (canon s) = canon (strip s).
Proof. apply strip_smap, canon_char_space. Qed.

Lemma alerts_normalize_eq (x : string) : Alerts._normalize_tid x = canon (strip x).
Proof. apply canon_spec. Qed.

Lemma lastfrag_eq (s : string) :
  Ontology.lastfrag s = if contains "#" s then tail_after "#" s else tail_after "/" s.
Proof.
  unfold Ontology.lastfrag. destruct (contains "#" s); [reflexivity|].
  rewrite rsplit1_last.
  destruct (contains "/" s) eqn:E; [reflexivity | now rewrite tail_after_without].
Qed.

Lemma ontology_normalize_eq (x : string) :
  Ontology._normalize_tid x = canon (Ontology.lastfrag (strip x)).
Proof.
  unfold Ontology._normalize_tid.
  destruct (String.eqb_spec x "") as [-> | _]; [reflexivity | apply canon_spec].
Qed.

Lemma lastfrag_canon (s : string) :
  Ontology.lastfrag (canon s) = canon (Ontology.lastfrag s).
Proof.
  rewrite !lastfrag_eq. unfold canon.
  rewrite (contains_smap _ _ _ canon_char_hash).
  destruct (contains "#" s); apply tail_after_smap;
    [apply canon_char_hash | apply canon_char_slash].
Qed.

Lemma lastfrag_no_hash (s : string) : contains "#" (Ontology.lastfrag s) = false.
Proof.
  rewrite lastfrag_eq. destruct (contains "#" s) eqn:E.
  - apply tail_after_clean.
  - now apply tail_after_contains.
Qed.

Lemma lastfrag_plain (s : string) :
  contains "#" s = false -> contains "/" s = false -> Ontology.lastfrag s = s.
Proof. intros H1 H2. rewrite lastfrag_eq, H1. now apply tail_after_without. Qed.

Lemma lastfrag_length (s : string) :
  String.length (Ontology.lastfrag s) <= String.length s.
Proof. rewrite lastfrag_eq. destruct (contains "#" s); apply tail_after_length. Qed.

Lemma lastfrag_shorter (s : string) :
  contains "#" s || contains "/" s = true ->
  String.length (Ontology.lastfrag s) < String.length s.
Proof.
  rewrite lastfrag_eq. destruct (contains "#" s) eqn:E; simpl; intros H;
    now apply tail_after_shorter.
Qed.

Lemma canon_length (s : string) : String.length (canon s) = String.length s.
Proof. apply smap_length. Qed.

Lemma alerts_normalize_idem (x : string) :
  Alerts._normalize_tid (Alerts._normalize_tid x) = Alerts._normalize_tid x.
Proof. now rewrite !alerts_normalize_eq, strip_canon, strip_strip, canon_canon. Qed.

Lemma ontology_normalize_no_hash (x : string) :
  contains "#" (Ontology._normalize_tid x) = false.
Proof.
  rewrite ontology_normalize_eq. unfold canon.
  rewrite (contains_smap _ _ _ canon_char_hash). apply lastfrag_no_hash.
Qed.

(** The graph-side normalizer fixes exactly the strings without [#] and
    [/] that are already trimmed and in canonical case. *)
Lemma ontology_normalize_fixed (y : string) :
  Ontology._normalize_tid y = y <->
  contains "#" y = false /\ contains "/" y = false /\ strip y = y /\ canon y = y.
Proof.
  rewrite ontology_normalize_eq. split.
  - intros H.
    pose proof (strip_length y) as L1.
    pose proof (lastfrag_length (strip y)) as L2.
    pose proof (canon_length (Ontology.lastfrag (strip y))) as L3.
    rewrite H in L3.
    assert (S : strip y = y) by (apply strip_same_length; lia).
    rewrite S in *.
    destruct (contains "#" y || contains "/" y) eqn:C.
    + apply lastfrag_shorter in C. lia.
    + apply orb_false_elim in C as [C1 C2].
      rewrite lastfrag_plain in H by assumption. auto.
  - intros (C1 & C2 & S & K). now rewrite S, lastfrag_plain.
Qed.

End Normalizers.

(** C3, the claim as stated: the alert-side normalizer keeps the whole IRI
    where the graph-side normalizer reduces it to its fragment. *)
Lemma normalizers_differ_on_iri :
  Alerts._normalize_tid "http://x/ns#t1190" = "HTTP://X/NS#T1190" /\
  Ontology._normalize_tid "http://x/ns#t1190" = "T1190".
Proof. split; reflexivity. Qed.

(** C3, amended: the alert-side and the graph-side normalizer agree on a
    string exactly when its trimmed form holds neither [#] nor [/]; the
    graph-side normalizer absorbs the alert-side one; both send
    ["t1059.001"] to ["T1059_001"], and the graph-side one sends
    ["http://x/ns#t1190"] to ["T1190"]. *)
Theorem normalizers_agree_off_iris :
  (forall x : string,
      Alerts._normalize_tid x = Ontology._normalize_tid x <->
      PyStr.contains "#" (PyStr.strip x) = false /\
      PyStr.contains "/" (PyStr.strip x) = false) /\
  (forall x : string,
      Ontology._normalize_tid (Alerts._normalize_tid x) = Ontology._normalize_tid x) /\
  Alerts._normalize_tid "t1059.001" = "T1059_001" /\
  Ontology._normalize_tid "t1059.001" = "T1059_001" /\
  Ontology._normalize_tid "http://x/ns#t1190" = "T1190".
Proof.
  split; [|split; [|repeat split; reflexivity]].
  - intros x. rewrite alerts_normalize_eq, ontology_normalize_eq. split.
    + intros H.
      destruct (PyStr.contains "#" (PyStr.strip x) || PyStr.contains "/" (PyStr.strip x)) eqn:C.
      * apply lastfrag_shorter in C.
        apply (f_equal String.length) in H. rewrite !canon_length in H. lia.
      * now apply orb_false_elim in C.
    + intros [C1 C2]. now rewrite lastfrag_plain.
  - intros x.
    rewrite (ontology_normalize_eq (Alerts._normalize_tid x)), alerts_normalize_eq.
    rewrite strip_canon, strip_strip, lastfrag_canon, canon_canon.
    symmetry. apply ontology_normalize_eq.
Qed.

Lemma normalizers_agree_off_iris_witness :
  Alerts._normalize_tid " t1059.001 " = Ontology._normalize_tid " t1059.001 ".
Proof.
  apply (proj1 normalizers_agree_off_iris " t1059.001 "). split; reflexivity.
Defined.

(** C4, the claim as stated: a second pass of the graph-side normalizer
    reduces what the first pass left after the [#]. *)
Lemma normalize_twice_differs :
  Ontology._normalize_tid "http://x/ns#mitre/t1190" = "MITRE/T1190" /\
  Ontology._normalize_tid (Ontology._normalize_tid "http://x/ns#mitre/t1190") = "T1190".
Proof. split; reflexivity. Qed.

(** C4, amended: the alert-side normalizer is idempotent on every string;
    the graph-side normalizer is idempotent on [x] exactly when
    [normalize(x)] holds no [/] and neither starts nor ends with
    whitespace, which is the case whenever the trimmed [x] holds neither
    [#] nor [/]. *)
Theorem normalize_idempotent_on_fragments :
  (forall x : string,
      Alerts._normalize_tid (Alerts._normalize_tid x) = Alerts._normalize_tid x) /\
  (forall x : string,
      Ontology._normalize_tid (Ontology._normalize_tid x) = Ontology._normalize_tid x <->
      PyStr.contains "/" (Ontology._normalize_tid x) = false /\
      PyStr.strip (Ontology._normalize_tid x) = Ontology._normalize_tid x) /\
  (forall x : string,
      PyStr.contains "#" (PyStr.strip x) = false ->
      PyStr.contains "/" (PyStr.strip x) = false ->
      Ontology._normalize_tid (Ontology._normalize_tid x) = Ontology._normalize_tid x).
Proof.
  split; [exact alerts_normalize_idem | split].
  - intros x. rewrite ontology_normalize_fixed. split.
    + tauto.
    + intros [C S]. repeat split; try assumption.
      * apply ontology_normalize_no_hash.
      * rewrite ontology_normalize_eq. apply canon_canon.
  - intros x C1 C2. apply ontology_normalize_fixed.
    rewrite ontology_normalize_eq, lastfrag_plain by assumption.
    unfold canon at 1 2.
    rewrite !contains_smap.
    all: try solve [apply canon_char_hash | apply canon_char_slash].
    repeat split; try assumption.
    + fold (canon (PyStr.strip x)). now rewrite strip_canon, strip_strip.
    + fold (canon (PyStr.strip x)). apply canon_canon.
Qed.

Lemma normalize_idempotent_on_fragments_witness :
  Ontology._normalize_tid (Ontology._normalize_tid " t1059.001 ") =
  Ontology._normalize_tid " t1059.001 ".
Proof.
  apply (proj2 (proj2 normalize_idempotent_on_fragments) " t1059.001 "); reflexivity.
Defined.

(** ** Loading an alert payload *)

(** A text of whitespace only is the empty batch. *)
Lemma load_blank_text (s : string) :
  PyStr.strip s = "" -> Alerts.load_wazuh_alerts_any (Alerts.Text s) = Ok (JDict []).
Proof.
  intros H. unfold Alerts.load_wazuh_alerts_any, Alerts.load_with. simpl. now rewrite H.
Qed.

Lemma load_blank_text_witness :
  Alerts.load_wazuh_alerts_any (Alerts.Text "  ") = Ok (JDict []).
Proof. apply (load_blank_text "  "). reflexivity. Defined.

(** C2: the empty text yields the empty batch, but a text that is not JSON
    makes [load_wazuh_alerts_any] raise the decoder's error, which only the
    record-stream branch catches. *)
Theorem load_raises_on_unparseable_text :
  Alerts.load_wazuh_alerts_any (Alerts.Text "") = Ok (JDict []) /\
  Alerts.load_wazuh_alerts_any (Alerts.Text "not json") = Raise JSONDecodeError /\
  Alerts.load_wazuh_alerts_any (Alerts.Text "{") = Raise JSONDecodeError.
Proof. repeat split; vm_compute; reflexivity. Qed.

(** ** Correlation *)

(** C6: on an empty list of identifiers [get_incidents_by_tech] returns the
    empty list, and makes no call to the graph. *)
Theorem get_incidents_by_tech_empty (g : Ontology.Graph) :
  Ontology.value (Ontology.get_incidents_by_tech g []) = [] /\
  Ontology.calls (Ontology.get_incidents_by_tech g []) = [].
Proof. split; reflexivity. Qed.

(** C1: on both graphs the query and the scan are computable and differ:
    the query finds the first incident only, the scan finds both, and
    [get_incidents_by_tech] returns the answer of the query. *)
Theorem primary_and_fallback_differ :
  (Ontology.value (Ontology.primary_path graph_slash {[ "T1190" ]})
     = Ok ["http://example.org/veris#inc1"] /\
   Ontology.value (Ontology.fallback_scan graph_slash {[ "T1190" ]})
     = ["http://example.org/veris#inc1"; "http://example.org/veris#inc2"] /\
   Ontology.value (Ontology.get_incidents_by_tech graph_slash ["T1190"])
     = ["http://example.org/veris#inc1"]) /\
  (Ontology.value (Ontology.primary_path graph_stale {[ "T1190" ]})
     = Ok ["http://example.org/veris#inc1"] /\
   Ontology.value (Ontology.fallback_scan graph_stale {[ "T1190" ]})
     = ["http://example.org/veris#inc1"; "http://example.org/veris#inc2"] /\
   Ontology.value (Ontology.get_incidents_by_tech graph_stale ["T1190"])
     = ["http://example.org/veris#inc1"]).
Proof. repeat split; vm_compute; reflexivity. Qed.

(** When the query raises or finds nothing, the answer is that of the scan. *)
Lemma get_incidents_by_tech_falls_back (g : Ontology.Graph) (t : string) (ts : list string) :
  let tids_norm : gset string :=
    list_to_set (List.map Ontology._normalize_tid
                          (List.filter (fun t => negb (String.eqb t "")) (t :: ts))) in
  (Ontology.value (Ontology.primary_path g tids_norm) = Ok [] \/
   exists e, Ontology.value (Ontology.primary_path g tids_norm) = Raise e) ->
  Ontology.value (Ontology.get_incidents_by_tech g (t :: ts)) =
  Ontology.value (Ontology.fallback_scan g tids_norm).
Proof.
  intros tids_norm H. unfold Ontology.get_incidents_by_tech. fold tids_norm.
  unfold mbind, Ontology.M_bind. simpl.
  destruct H as [H | [e H]]; simpl in H; rewrite H; reflexivity.
Qed.

Lemma get_incidents_by_tech_falls_back_witness :
  Ontology.value
    (Ontology.get_incidents_by_tech
       {| Ontology.triples := Ontology.triples graph_slash; Ontology.sparql := false |}
       ["T1190"]) =
  Ontology.value
    (Ontology.fallback_scan
       {| Ontology.triples := Ontology.triples graph_slash; Ontology.sparql := false |}
       (list_to_set [Ontology._normalize_tid "T1190"])).
Proof.
  apply (get_incidents_by_tech_falls_back
           {| Ontology.triples := Ontology.triples graph_slash; Ontology.sparql := false |}
           "T1190" []).
  right. exists QueryError. reflexivity.
Defined.

(** On a graph without triples no incident is found, by the query or by
    the scan. *)
Lemma get_incidents_by_tech_empty_graph (tech_ids : list string) (sparql : bool) :
  Ontology.value
    (Ontology.get_incidents_by_tech
       {| Ontology.triples := []; Ontology.sparql := sparql |} tech_ids) = [].
Proof. destruct tech_ids, sparql; reflexivity. Qed.

(** ** Identifier extraction: values that are not text *)

(** On the list under [rule.mitre.id], a value that is neither a string
    nor an integer is skipped. *)
Lemma add_guarded_skips (values : list json) (tids : gset string) :
  List.forallb (fun v => negb (Py.is_str_or_int v)) values = true ->
  Alerts.add_guarded values tids = tids.
Proof.
  revert tids. induction values as [|v vs IH]; intros tids; simpl; [reflexivity|].
  intros [Hv Hvs]%andb_prop. apply negb_true_iff in Hv.
  unfold Alerts.add_guarded in *. simpl. rewrite Hv. now apply IH.
Qed.

Lemma add_guarded_skips_witness :
  Alerts.add_guarded [JNone; JFloat "1.5"; JList []] ∅ = ∅.
Proof. apply (add_guarded_skips [JNone; JFloat "1.5"; JList []] ∅). reflexivity. Defined.

(** C9: under the alias paths [fields.rule.mitre.id] and [data.mitre.id] a
    value that is neither a string nor an integer is converted with [str]
    and normalized into the output; under [rule.mitre.id] it is skipped. *)
Theorem alias_paths_normalize_non_text :
  Alerts.extract_tech_ids_universal
    (JDict [("fields", JDict [("rule", JDict [("mitre", JDict [("id", JList [JNone])])])])])
    = Ok ["NONE"] /\
  Alerts.extract_tech_ids_universal
    (JDict [("data", JDict [("mitre", JDict [("id", JList [JFloat "1.5"])])])])
    = Ok ["1_5"] /\
  Alerts.extract_tech_ids_universal
    (JDict [("rule", JDict [("mitre", JDict [("id", JList [JNone; JFloat "1.5"])])])])
    = Ok [].
Proof. repeat split; vm_compute; reflexivity. Qed.

(** ** Retrieval *)

(** C10: a search in the index of the empty corpus returns the empty list,
    whatever the query and [top_k]. *)
Theorem search_empty_corpus (query : string) (top_k : Z) :
  Rag.search (Rag.init []) query top_k = [].
Proof. reflexivity. Qed.

(** ** Identifier extraction: the result *)

Section Extraction.

Lemma bind_ok {A B : Type} (m : result A) (k : A -> result B) (r : B) :
  (a ← m; k a) = Ok r -> exists a, m = Ok a /\ k a = Ok r.
Proof. destruct m as [a|e]; simpl; [eauto | discriminate]. Qed.

Lemma rfold_invariant {A S : Type} (P : S -> Prop) (step : A -> S -> result S)
      (xs : list A) (acc r : S) :
  (forall x s s', P s -> step x s = Ok s' -> P s') ->
  P acc -> rfold step xs acc = Ok r -> P r.
Proof.
  intros Hstep. revert acc. induction xs as [|x xs IH]; intros acc Hacc; simpl.
  - now intros [= <-].
  - intros (s' & Hs & Hr)%bind_ok. eauto.
Qed.

Lemma fold_left_invariant {A S : Type} (P : S -> Prop) (f : S -> A -> S)
      (xs : list A) (acc : S) :
  (forall s x, P s -> P (f s x)) -> P acc -> P (List.fold_left f xs acc).
Proof.
  intros Hf. revert acc. induction xs as [|x xs IH]; intros acc Hacc; simpl; auto.
Qed.

(** *** The order of the result *)

Lemma sorted_strongly_sorted (xs : list string) :
  StronglySorted String.le (PyStr.sorted xs).
Proof. apply StronglySorted_merge_sort; apply _. Qed.

Lemma sorted_permutation (xs : list string) : PyStr.sorted xs ≡ₚ xs.
Proof. apply merge_sort_Permutation. Qed.

(** *** What the collection holds *)

Lemma all_normalized_add (x : string) (tids : gset string) :
  all_normalized tids -> all_normalized ({[ Alerts._normalize_tid x ]} ∪ tids).
Proof.
  intros H t [->%elem_of_singleton | Ht]%elem_of_union.
  - apply alerts_normalize_idem.
  - now apply H.
Qed.

Lemma add_guarded_normalized (values : list json) (tids : gset string) :
  all_normalized tids -> all_normalized (Alerts.add_guarded values tids).
Proof.
  apply fold_left_invariant. intros acc v Hs.
  destruct (Py.is_str_or_int v); [now apply all_normalized_add | exact Hs].
Qed.

Lemma add_unguarded_normalized (values : list json) (tids : gset string) :
  all_normalized tids -> all_normalized (Alerts.add_unguarded values tids).
Proof. apply fold_left_invariant. intros acc v Hs. now apply all_normalized_add. Qed.

Lemma add_ids_normalized (ids : json) (tids : gset string) :
  all_normalized tids -> all_normalized (Alerts.add_ids ids tids).
Proof.
  intros H. destruct ids; simpl; try exact H.
  - now apply all_normalized_add.
  - now apply add_guarded_normalized.
Qed.

Lemma add_techniques_normalized (arr : json) (tids : gset string) :
  all_normalized tids -> all_normalized (Alerts.add_techniques arr tids).
Proof.
  intros H. destruct arr; simpl; try exact H.
  revert H. apply fold_left_invariant. intros acc v Hs.
  match goal with |- context [Py.is_str_or_int ?t] => destruct (Py.is_str_or_int t) end;
    [now apply all_normalized_add | exact Hs].
Qed.

Lemma add_text_matches_normalized (value : json) (tids : gset string) :
  all_normalized tids -> all_normalized (Alerts.add_text_matches value tids).
Proof.
  intros H. destruct value; simpl; try exact H.
  revert H. apply fold_left_invariant. intros acc m Hs. now apply all_normalized_add.
Qed.

Lemma add_alias_normalized (sub : json) (tids r : gset string) :
  all_normalized tids -> Alerts.add_alias sub tids = Ok r -> all_normalized r.
Proof.
  intros H. destruct sub; try (now intros [= <-]).
  unfold Alerts.add_alias.
  intros (r0 & _ & (m & _ & (first & _ & (candidate & _ & Hc)%bind_ok)%bind_ok)%bind_ok)%bind_ok.
  destruct candidate; injection Hc as <-; try exact H.
  - now apply all_normalized_add.
  - now apply add_unguarded_normalized.
Qed.

Lemma visit_normalized (node : json) (tids r : gset string) :
  all_normalized tids -> Alerts.visit node tids = Ok r -> all_normalized r.
Proof.
  intros H. destruct node; try (now intros [= <-]).
  unfold Alerts.visit.
  intros (m & _ & (ids & _ & (t1 & Ht1 & Hr)%bind_ok)%bind_ok)%bind_ok.
  assert (H1 : all_normalized t1).
  { revert Ht1. apply rfold_invariant; [|now apply add_ids_normalized].
    intros key acc acc' Hs (arr & _ & [= <-])%bind_ok. now apply add_techniques_normalized. }
  revert Hr. apply rfold_invariant.
  - intros key acc acc' Hs. now apply add_alias_normalized.
  - do 3 (try apply add_text_matches_normalized). exact H1.
Qed.

Lemma collect_normalized (obj : json) (r : gset string) :
  Alerts._collect_tids_from_any obj = Ok r -> all_normalized r.
Proof.
  apply rfold_invariant.
  - intros node acc acc' Hs. now apply visit_normalized.
  - intros t Ht. now apply not_elem_of_empty in Ht.
Qed.

(** *** The list built by [extend_unique] *)

Lemma extend_unique_clean (new_items : gset string) (tids : list string) :
  all_normalized new_items -> clean_list tids ->
  clean_list (Alerts.extend_unique new_items tids).
Proof.
  intros Hnew. unfold Alerts.extend_unique.
  assert (Hel : forall t, t ∈ elements new_items -> Alerts._normalize_tid t = t).
  { intros t Ht. apply Hnew. now apply elem_of_elements. }
  revert tids Hel. induction (elements new_items) as [|x xs IH]; intros tids Hel Hc; simpl.
  - exact Hc.
  - apply IH.
    + intros t Ht. apply Hel. now right.
    + destruct Hc as [Hnd Hn]. case_bool_decide as Hin.
      * now split.
      * split.
        -- apply NoDup_app. repeat split; [exact Hnd | | apply NoDup_singleton].
           intros t Ht ->%list_elem_of_singleton. contradiction.
        -- intros t [Ht | ->%list_elem_of_singleton]%elem_of_app; [now apply Hn|].
           apply Hel. now left.
Qed.

Lemma extend_from_clean (items : list json) (tids r : list string) :
  clean_list tids -> Alerts.extend_from items tids = Ok r -> clean_list r.
Proof.
  intros H. apply rfold_invariant; [|exact H].
  intros item acc acc' Hs. destruct item; try (now intros [= <-]).
  intros (new_items & Hnew & [= <-])%bind_ok.
  apply extend_unique_clean; [|exact Hs]. now apply collect_normalized in Hnew.
Qed.

Lemma clean_nil : clean_list [].
Proof. split; [apply NoDup_nil_2 | intros t Ht; now apply not_elem_of_nil in Ht]. Qed.

Lemma extract_unsorted_clean (obj : json) (l : list string) :
  Alerts.extract_tech_ids_universal obj = Ok l ->
  exists tids, clean_list tids /\ l = PyStr.sorted tids.
Proof.
  unfold Alerts.extract_tech_ids_universal.
  intros (tids & Ht & [= <-])%bind_ok. exists tids. split; [|reflexivity].
  destruct obj; try (injection Ht as <-; apply clean_nil).
  - revert Ht. apply extend_from_clean, clean_nil.
  - destruct (Py.has_key "_hits_sources" entries).
    { apply bind_ok in Ht as (srcs & _ & Ht). revert Ht. apply extend_from_clean, clean_nil. }
    destruct (Py.has_key "_ndjson" entries).
    { apply bind_ok in Ht as (srcs & _ & Ht). revert Ht. apply extend_from_clean, clean_nil. }
    apply bind_ok in Ht as (new_items & Hnew & [= <-]).
    apply extend_unique_clean; [|apply clean_nil]. now apply collect_normalized in Hnew.
Qed.

(** *** Loops in which no step raises *)

Lemma rfold_total {A S : Type} (step : A -> S -> result S) (xs : list A) (acc : S) :
  (forall x, In x xs -> forall s, exists s', step x s = Ok s') ->
  exists r, rfold step xs acc = Ok r.
Proof.
  revert acc. induction xs as [|x xs IH]; intros acc H; simpl; [eauto|].
  destruct (H x (or_introl eq_refl) acc) as [s' ->]. simpl.
  apply IH. intros y Hy. apply H. now right.
Qed.

End Extraction.

(** C5: whatever [extract_tech_ids_universal] returns is sorted by the
    order of strings, has no duplicates and holds only normalized
    identifiers, and on [{"rule":{"mitre":{"id":["T1190","T1059.001"]}}}]
    it returns [["T1059_001", "T1190"]]; but it does not return on every
    batch.  Where [rule], [rule.mitre], or [rule] under [data], holds a
    value that is not a mapping, the function raises: these reads are
    guarded by [or {}] or by a default only, which let a text or, under
    [data], a [null] through, while the reads of [fields] and [data]
    themselves test the type of the value. *)
Theorem extract_raises_without_guard :
  (forall (obj : json) (l : list string),
      Alerts.extract_tech_ids_universal obj = Ok l ->
      StronglySorted String.le l /\ NoDup l /\
      forall t, t ∈ l -> Alerts._normalize_tid t = t) /\
  Alerts.extract_tech_ids_universal
    (JDict [("rule", JDict [("mitre", JDict [("id", JList [JStr "T1190"; JStr "T1059.001"])])])])
    = Ok ["T1059_001"; "T1190"] /\
  Alerts.extract_tech_ids_universal (JDict [("rule", JStr "x")]) = Raise AttributeError /\
  Alerts.extract_tech_ids_universal (JDict [("rule", JDict [("mitre", JStr "x")])])
    = Raise AttributeError /\
  Alerts.extract_tech_ids_universal (JDict [("data", JDict [("rule", JNone)])])
    = Raise AttributeError /\
  Alerts.extract_tech_ids_universal (JDict [("rule", JNone)]) = Ok [] /\
  Alerts.extract_tech_ids_universal (JDict [("fields", JStr "x")]) = Ok [].
Proof.
  split; [|repeat split; vm_compute; reflexivity].
  intros obj l (tids & [Hnd Hn] & ->)%extract_unsorted_clean.
  split; [apply sorted_strongly_sorted|].
  split.
  - now rewrite sorted_permutation.
  - intros t Ht. apply Hn. now rewrite <- (sorted_permutation tids).
Qed.

(** ** Retrieval: the results of a search *)

Section Retrieval.

Import Rag.

Lemma init_from (documents : list (list (string * string))) (self : SimpleRAG) :
  List.fold_left
    (fun self doc =>
       let stored := store doc in
       let vec := count (_tokenize (doc_content stored)) in
       {| docs := docs self ++ [stored];
          vectors := vectors self ++ [vec];
          norms := norms self ++ [_norm vec] |})
    documents self =
  {| docs := docs self ++ List.map store documents;
     vectors := vectors self
                ++ List.map (fun doc => count (_tokenize (doc_content (store doc)))) documents;
     norms := norms self
              ++ List.map (fun doc => _norm (count (_tokenize (doc_content (store doc)))))
                          documents |}.
Proof.
  revert self. induction documents as [|doc documents IH]; intros self; simpl.
  - destruct self. simpl. now rewrite !app_nil_r.
  - rewrite IH. simpl. now rewrite <- !app_assoc.
Qed.

Lemma init_docs (documents : list (list (string * string))) :
  docs (init documents) = List.map store documents.
Proof. unfold init. now rewrite init_from. Qed.

(** Every document of the corpus is scored, in the order of the corpus. *)
Lemma similarities_cover (documents : list (list (string * string))) (query : string) :
  List.map fst (similarities (init documents) query) = List.map store documents.
Proof.
  unfold similarities, init. rewrite init_from. simpl.
  induction documents as [|doc documents IH]; simpl; [reflexivity | now rewrite IH].
Qed.

Lemma insert_desc_length (r : RagResult) (rs : list RagResult) :
  List.length (insert_desc r rs) = S (List.length rs).
Proof.
  induction rs as [|r' rs IH]; simpl; [reflexivity|].
  destruct (PrimFloat.ltb (score r) (score r')); simpl; [now rewrite IH | reflexivity].
Qed.

Lemma sort_desc_length (rs : list RagResult) :
  List.length (sort_desc rs) = List.length rs.
Proof.
  induction rs as [|r rs IH]; simpl; [reflexivity|].
  now rewrite insert_desc_length, IH.
Qed.

Lemma none_positive (sims : list (Doc * float)) :
  Forall (fun ds => PrimFloat.ltb 0%float (snd ds) = false) sims ->
  List.flat_map (fun ds => if PrimFloat.ltb 0%float (snd ds)
                           then [result_of (fst ds) (snd ds)] else []) sims = [].
Proof.
  induction 1 as [|ds sims Hds _ IH]; simpl; [reflexivity|]. now rewrite Hds, IH.
Qed.

Lemma slice_to_nonempty {A : Type} (k : Z) (xs : list A) :
  (0 < k)%Z -> xs <> [] -> slice_to k xs <> [].
Proof.
  intros Hk Hxs. unfold slice_to.
  destruct (Z.leb_spec 0 k) as [_|]; [|lia].
  destruct (Z.to_nat k) as [|n] eqn:E; [lia|].
  destruct xs; [contradiction | discriminate].
Qed.

Lemma slice_to_singleton {A : Type} (k : Z) (x : A) :
  (0 < k)%Z -> slice_to k [x] = [x].
Proof.
  intros Hk. unfold slice_to.
  destruct (Z.leb_spec 0 k) as [_|]; [|lia].
  destruct (Z.to_nat k) as [|n] eqn:E; [lia|]. simpl. now destruct n.
Qed.

Lemma bound_positive (top_k : Z) :
  (0 <= top_k)%Z -> (0 < (if (top_k =? 0)%Z then 1 else top_k))%Z.
Proof. intros H. destruct (Z.eqb_spec top_k 0); lia. Qed.

End Retrieval.

(** C7: a search in the index of a non-empty corpus returns at least one
    result; when no document has a positive similarity to the query, it
    returns the first document of the corpus alone, with score [0.0].
    This holds with [top_k] left at its default, 3, and with every
    [top_k] from zero up. *)
Theorem search_never_empty (documents : list (list (string * string))) (query : string) :
  documents <> [] ->
  (Rag.search (Rag.init documents) query 3 <> [] /\
   (Forall (fun ds => PrimFloat.ltb 0%float (snd ds) = false)
           (Rag.similarities (Rag.init documents) query) ->
    exists first, List.head documents = Some first /\
      Rag.search (Rag.init documents) query 3 =
      [Rag.result_of (Rag.store first) 0%float])) /\
  (forall top_k : Z,
      (0 <= top_k)%Z ->
      Rag.search (Rag.init documents) query top_k <> [] /\
      (Forall (fun ds => PrimFloat.ltb 0%float (snd ds) = false)
              (Rag.similarities (Rag.init documents) query) ->
       exists first, List.head documents = Some first /\
         Rag.search (Rag.init documents) query top_k =
         [Rag.result_of (Rag.store first) 0%float])).
Proof.
  intros Hne.
  assert (G : forall top_k : Z,
             (0 <= top_k)%Z ->
             Rag.search (Rag.init documents) query top_k <> [] /\
             (Forall (fun ds => PrimFloat.ltb 0%float (snd ds) = false)
                     (Rag.similarities (Rag.init documents) query) ->
              exists first, List.head documents = Some first /\
                Rag.search (Rag.init documents) query top_k =
                [Rag.result_of (Rag.store first) 0%float])).
  { intros top_k Hk. destruct documents as [|first documents]; [contradiction|].
    unfold Rag.search. rewrite init_docs. simpl List.map. cbv iota.
    apply bound_positive in Hk. split.
    - apply slice_to_nonempty; [exact Hk|].
      intros E. apply (f_equal List.length) in E. rewrite sort_desc_length in E.
      match type of E with
      | List.length (match ?s with _ => _ end) = _ => destruct s; discriminate
      end.
    - intros Hnone. exists first. split; [reflexivity|].
      rewrite none_positive by exact Hnone. simpl.
      now apply slice_to_singleton. }
  split; [apply G; lia | exact G].
Qed.

Lemma search_never_empty_witness :
  Rag.search (Rag.init [[("title", "Intro"); ("content", "alpha beta")]]) "gamma" 3 =
  [ {| Rag.title := "Intro"; Rag.content := "alpha beta";
       Rag.snippet := "alpha beta"; Rag.score := 0%float |} ].
Proof.
  destruct (search_never_empty [[("title", "Intro"); ("content", "alpha beta")]] "gamma")
    as [[_ H] _]; [discriminate|].
  destruct H as (first & Hf & E).
  - constructor; [vm_compute; reflexivity | constructor].
  - injection Hf as <-. exact E.
Defined.

(** A negative [top_k] cuts from the end of the results: one result less
    than found, none when there is only one. *)
Lemma search_negative_top_k :
  Rag.search (Rag.init [[("title", "Intro"); ("content", "alpha beta")]]) "gamma" (-1) = [].
Proof. vm_compute. reflexivity. Qed.

(** ** Retrieval: the snippet *)

Section Snippet.

Import PyStr.

Lemma append_length (a b : string) :
  String.length (a +:+ b) = String.length a + String.length b.
Proof. induction a as [|c a IH]; simpl; [reflexivity | now rewrite IH]. Qed.

Lemma append_assoc (a b c : string) : (a +:+ b) +:+ c = a +:+ (b +:+ c).
Proof.
  induction a as [|x a IH]; [reflexivity|].
  change (String x ((a +:+ b) +:+ c) = String x (a +:+ (b +:+ c))). now rewrite IH.
Qed.

Lemma contains_append (c : ascii) (a b : string) :
  contains c (a +:+ b) = contains c a || contains c b.
Proof. induction a as [|x a IH]; simpl; [reflexivity | now rewrite IH, orb_assoc]. Qed.

Lemma count_points_append (a b : string) :
  count_points (a +:+ b) = count_points a + count_points b.
Proof.
  induction a as [|c a IH]; [reflexivity|].
  change (count_points (String c (a +:+ b)) = count_points (String c a) + count_points b).
  simpl. rewrite IH. now destruct (is_continuation c).
Qed.

(** [s[:n]] is a prefix of [s], of [n] code points when [s] has as many. *)
Lemma take_points_prefix (n : nat) (s : string) :
  exists rest, s = take_points n s +:+ rest /\
               count_points (take_points n s) = Nat.min n (count_points s).
Proof.
  revert n. induction s as [|c s IH]; intros n; simpl; [exists EmptyString; split; [reflexivity | lia]|].
  destruct (is_continuation c) eqn:C.
  - destruct (IH n) as (rest & E & L). exists rest. simpl. rewrite C. split; [|exact L].
    change (String c s = String c (take_points n s +:+ rest)). now rewrite <- E.
  - destruct n as [|n]; [exists (String c s); split; reflexivity|].
    destruct (IH n) as (rest & E & L). exists rest. simpl. rewrite C. split; [|now rewrite L].
    change (String c s = String c (take_points n s +:+ rest)). now rewrite <- E.
Qed.

Lemma join_snoc (c : ascii) (parts : list string) (x : string) :
  parts <> [] -> join c (parts ++ [x]) = join c parts +:+ String c x.
Proof.
  induction parts as [|p parts IH]; [contradiction|]. intros _.
  destruct parts as [|q parts]; [reflexivity|].
  change (join c ((p :: q :: parts) ++ [x])) with (p +:+ String c (join c ((q :: parts) ++ [x]))).
  rewrite IH by discriminate.
  change (join c (p :: q :: parts)) with (p +:+ String c (join c (q :: parts))).
  now rewrite append_assoc.
Qed.

(** [s.rsplit(c, 1)]: the text itself without a [c]; otherwise what
    precedes and what follows the last [c]. *)
Lemma rsplit1_cases (c : ascii) (s : string) :
  (contains c s = false /\ rsplit1 c s = [s]) \/
  (contains c s = true /\
   exists h t, rsplit1 c s = [h; t] /\ s = h +:+ String c t /\ contains c t = false).
Proof.
  unfold rsplit1.
  destruct (split_cases c s) as [[C S] | [C (p & q & ps & S)]].
  - left. now rewrite S.
  - right. split; [exact C|]. rewrite S.
    exists (join c (removelast (p :: q :: ps))), (List.last (p :: q :: ps) EmptyString).
    split; [reflexivity|]. split.
    + rewrite <- join_snoc by (simpl; destruct ps; discriminate).
      rewrite <- app_removelast_last by discriminate.
      rewrite <- S. symmetry. apply join_split.
    + pose proof (tail_after_clean c s) as T.
      unfold tail_after, last_part in T. now rewrite S in T.
Qed.

End Snippet.

(** C8, the claim as stated: a word of 261 letters is split after its
    260th letter. *)
Lemma snippet_splits_long_word :
  Rag._snippet (repeat_char "a" 261) 260 = repeat_char "a" 260 +:+ Rag.ellipsis /\
  splits_word (repeat_char "a" 261) (repeat_char "a" 260).
Proof.
  split; [vm_compute; reflexivity|].
  exists (repeat_char "a" 259), "a"%char, "a"%char, EmptyString.
  repeat split; try discriminate; vm_compute; reflexivity.
Qed.

(** C8, amended: the ellipsis is one character, and a snippet is never
    longer than 260 characters plus the ellipsis, characters being code
    points; a text of at most 260 characters is its own snippet; and when
    the first 260 characters of a longer text hold a space, the snippet is
    what precedes the last such space, followed by the ellipsis, so that no
    word is split. *)
Theorem snippet_bounded_and_cut_at_space (text : string) :
  PyStr.len Rag.ellipsis = 1%Z /\
  (PyStr.len (Rag._snippet text 260) <= 260 + PyStr.len Rag.ellipsis)%Z /\
  ((PyStr.len text <= 260)%Z -> Rag._snippet text 260 = text) /\
  ((260 < PyStr.len text)%Z ->
   PyStr.contains " " (PyStr.slice_to 260 text) = true ->
   exists cut tail rest,
     Rag._snippet text 260 = cut +:+ Rag.ellipsis /\
     text = cut +:+ String " " (tail +:+ rest) /\
     (PyStr.len cut + 1 + PyStr.len tail = 260)%Z /\
     PyStr.contains " " tail = false /\
     ~ splits_word text cut).
Proof.
  split; [reflexivity|].
  unfold Rag._snippet, PyStr.len.
  change (PyStr.count_points Rag.ellipsis) with 1.
  destruct (Z.leb_spec (Z.of_nat (PyStr.count_points text)) 260) as [Hle | Hgt].
  - split; [lia|]. split; [reflexivity | lia].
  - unfold PyStr.slice_to. change (0 <=? 260)%Z with true. cbv iota.
    change (Z.to_nat 260) with 260.
    destruct (take_points_prefix 260 text) as (rest & Etext & Hlen).
    rewrite Nat.min_l in Hlen by lia.
    set (sl := PyStr.take_points 260 text) in *.
    split; [|split; [lia|]].
    + rewrite count_points_append. change (PyStr.count_points Rag.ellipsis) with 1.
      destruct (rsplit1_cases " " sl) as [[_ ->] | [_ (h & t & -> & E & _)]];
        unfold PyStr.first_part; simpl List.hd.
      * lia.
      * rewrite E, count_points_append in Hlen. simpl in Hlen. lia.
    + intros _ Hsp.
      destruct (rsplit1_cases " " sl) as [[C _] | [_ (h & t & -> & E & Ct)]];
        [congruence|].
      exists h, t, rest. unfold PyStr.first_part. simpl List.hd.
      split; [reflexivity|]. split.
      { rewrite Etext, E, append_assoc. reflexivity. }
      split.
      { rewrite E, count_points_append in Hlen. simpl in Hlen. lia. }
      split; [exact Ct|].
      intros (pre & c & d & rest' & _ & Etext' & _ & Hd).
      rewrite Etext, E, append_assoc in Etext'.
      apply String.app_inj in Etext'.
      change (String " " (t +:+ rest) = String d rest') in Etext'. congruence.
Qed.

Lemma snippet_bounded_and_cut_at_space_witness :
  exists cut tail rest,
    Rag._snippet ("é" +:+ repeat_char "a" 199 +:+ String " " (repeat_char "b" 100)) 260
      = cut +:+ Rag.ellipsis /\
    "é" +:+ repeat_char "a" 199 +:+ String " " (repeat_char "b" 100)
      = cut +:+ String " " (tail +:+ rest) /\
    (PyStr.len cut + 1 + PyStr.len tail = 260)%Z /\
    PyStr.contains " " tail = false /\
    ~ splits_word ("é" +:+ repeat_char "a" 199 +:+ String " " (repeat_char "b" 100)) cut.
Proof.
  apply (proj2 (proj2 (proj2 (snippet_bounded_and_cut_at_space
                         ("é" +:+ repeat_char "a" 199 +:+ String " " (repeat_char "b" 100)))))).
  - vm_compute. reflexivity.
  - vm_compute. reflexivity.
Defined.

(** * Further properties of the code *)

(** ** Correlation: what the scan and the function return *)

Section Correlation.

Import Ontology.

Lemma mfold_value {A S : Type} (step : A -> S -> M S) (xs : list A) (acc : S) :
  value (mfold step xs acc) = List.fold_left (fun acc x => value (step x acc)) xs acc.
Proof.
  revert acc. induction xs as [|x xs IH]; intros acc; [reflexivity|].
  simpl. apply IH.
Qed.

Lemma in_match_objects (g : Graph) (s p o : node) :
  In o (match_objects g s p) <-> In (s, p, o) (triples g).
Proof.
  unfold match_objects. rewrite in_flat_map. split.
  - intros ([[s' p'] o'] & Hin & Ho). case_bool_decide as E; [|destruct Ho].
    destruct E as [-> ->]. destruct Ho as [<- | []]. exact Hin.
  - intros Hin. exists (s, p, o). split; [exact Hin|].
    rewrite bool_decide_true by auto. now left.
Qed.

Lemma in_match_subjects (g : Graph) (s p o : node) :
  In s (match_subjects g p o) <-> In (s, p, o) (triples g).
Proof.
  unfold match_subjects. rewrite in_flat_map. split.
  - intros ([[s' p'] o'] & Hin & Hs). case_bool_decide as E; [|destruct Hs].
    destruct E as [-> ->]. destruct Hs as [<- | []]. exact Hin.
  - intros Hin. exists (s, p, o). split; [exact Hin|].
    rewrite bool_decide_true by auto. now left.
Qed.

Lemma in_path_objects (g : Graph) (s t : node) :
  In t (path_objects g s) <->
  exists a, In (s, BRIDGE "hasAction", a) (triples g) /\
            In (a, BRIDGE "relatesToTechnique", t) (triples g).
Proof.
  unfold path_objects. rewrite in_flat_map. split.
  - intros (a & Ha & Ht). exists a. now rewrite <- !in_match_objects.
  - intros (a & Ha & Ht). exists a. now rewrite !in_match_objects.
Qed.

Lemma add_normalized_spec (ts : list node) (techs : gset string) (t : string) :
  t ∈ add_normalized ts techs <->
  t ∈ techs \/ exists n, In n ts /\ t = _normalize_tid (node_str n).
Proof.
  unfold add_normalized. revert techs.
  induction ts as [|n ts IH]; intros techs; simpl.
  - split; [auto | intros [H | (n & [] & _)]; exact H].
  - rewrite IH, elem_of_union, elem_of_singleton. split.
    + intros [[-> | H] | (m & Hm & ->)]; eauto.
    + intros [H | (m & [<- | Hm] & ->)]; eauto.
Qed.

Lemma techs_from_incident_value (g : Graph) (incident : node) :
  value (_techs_from_incident g incident) =
  List.fold_left
    (fun acc x => add_normalized (match_objects g x (BRIDGE "relatesToTechnique")) acc)
    (match_objects g incident (BRIDGE "hasAction"))
    (add_normalized (match_objects g incident (BRIDGE "involvesTechnique")) ∅).
Proof.
  exact (mfold_value
           (fun a techs => ts ← objects g a (BRIDGE "relatesToTechnique");
                           mret (add_normalized ts techs))
           (match_objects g incident (BRIDGE "hasAction"))
           (add_normalized (match_objects g incident (BRIDGE "involvesTechnique")) ∅)).
Qed.

(** The technique set of an incident in the scan: the normalized texts of
    the techniques it involves directly or through one of its actions. *)
Lemma techs_from_incident_spec (g : Graph) (incident : node) (t : string) :
  t ∈ value (_techs_from_incident g incident) <->
  exists n, (In (incident, BRIDGE "involvesTechnique", n) (triples g) \/
             exists a, In (incident, BRIDGE "hasAction", a) (triples g) /\
                       In (a, BRIDGE "relatesToTechnique", n) (triples g)) /\
            t = _normalize_tid (node_str n).
Proof.
  rewrite techs_from_incident_value.
  assert (G : forall (actions : list node) (acc : gset string),
             t ∈ List.fold_left
                   (fun acc x => add_normalized (match_objects g x (BRIDGE "relatesToTechnique")) acc)
                   actions acc <->
             t ∈ acc \/
             exists a n, In a actions /\
                         In n (match_objects g a (BRIDGE "relatesToTechnique")) /\
                         t = _normalize_tid (node_str n)).
  { induction actions as [|a actions IH]; intros acc; simpl.
    - split; [auto | intros [H | (a & n & [] & _)]; exact H].
    - rewrite IH, add_normalized_spec. split.
      + intros [[H | (n & Hn & ->)] | (b & n & Hb & Hn & ->)]; eauto 8.
      + intros [H | (b & n & [<- | Hb] & Hn & ->)]; eauto 8. }
  rewrite G, add_normalized_spec. split.
  - intros [[H | (n & Hn & ->)] | (a & n & Ha & Hn & ->)].
    + now apply not_elem_of_empty in H.
    + exists n. split; [left; now apply in_match_objects | reflexivity].
    + exists n. split; [right; exists a; now rewrite <- !in_match_objects | reflexivity].
  - intros (n & [Hn | (a & Ha & Hn)] & ->).
    + left. right. exists n. now rewrite in_match_objects.
    + right. exists a, n. now rewrite !in_match_objects.
Qed.

Lemma nonempty_intersection (X Y : gset string) :
  X ∩ Y ≠ ∅ <-> exists t, t ∈ X /\ t ∈ Y.
Proof.
  split.
  - intros (t & Ht)%set_choose_L. exists t. set_solver.
  - intros (t & HX & HY) E. set_solver.
Qed.

Lemma fallback_scan_value (g : Graph) (tids_norm : gset string) :
  value (fallback_scan g tids_norm) =
  PyStr.sorted
    (elements
       (List.fold_left
          (fun (acc : gset string) inc =>
             if bool_decide (value (_techs_from_incident g inc) ∩ tids_norm ≠ ∅)
             then {[ node_str inc ]} ∪ acc else acc)
          (match_subjects g RDF_type (VERIS "Incident")) ∅)).
Proof.
  exact (f_equal (fun S : gset string => PyStr.sorted (elements S))
           (mfold_value
              (fun inc (acc : gset string) =>
                 techs_inc ← _techs_from_incident g inc;
                 mret (if bool_decide (techs_inc ∩ tids_norm ≠ ∅)
                       then {[ node_str inc ]} ∪ acc else acc))
              (match_subjects g RDF_type (VERIS "Incident")) ∅)).
Qed.

Lemma scan_set_spec (g : Graph) (tids_norm : gset string) (incs : list node)
      (acc : gset string) (x : string) :
  x ∈ List.fold_left
        (fun (acc : gset string) inc =>
           if bool_decide (value (_techs_from_incident g inc) ∩ tids_norm ≠ ∅)
           then {[ node_str inc ]} ∪ acc else acc)
        incs acc <->
  x ∈ acc \/
  exists inc, In inc incs /\ x = node_str inc /\
              value (_techs_from_incident g inc) ∩ tids_norm ≠ ∅.
Proof.
  revert acc. induction incs as [|inc incs IH]; intros acc; simpl.
  - split; [auto | intros [H | (inc & [] & _)]; exact H].
  - rewrite IH. case_bool_decide as E.
    + rewrite elem_of_union, elem_of_singleton. split.
      * intros [[-> | H] | (i & Hi & -> & Hn)]; eauto 8.
      * intros [H | (i & [<- | Hi] & -> & Hn)]; eauto 8.
    + split.
      * intros [H | (i & Hi & -> & Hn)]; eauto 8.
      * intros [H | (i & [<- | Hi] & -> & Hn)]; eauto 8. contradiction.
Qed.

Lemma fallback_scan_members (g : Graph) (tids_norm : gset string) (x : string) :
  x ∈ value (fallback_scan g tids_norm) <->
  exists inc n,
    In (inc, RDF_type, VERIS "Incident") (triples g) /\
    x = node_str inc /\
    (In (inc, BRIDGE "involvesTechnique", n) (triples g) \/
     exists a, In (inc, BRIDGE "hasAction", a) (triples g) /\
               In (a, BRIDGE "relatesToTechnique", n) (triples g)) /\
    _normalize_tid (node_str n) ∈ tids_norm.
Proof.
  rewrite fallback_scan_value, sorted_permutation, elem_of_elements, scan_set_spec. split.
  - intros [H | (inc & Hinc & -> & Hn)]; [now apply not_elem_of_empty in H|].
    apply nonempty_intersection in Hn as (t & Ht & Htid).
    apply techs_from_incident_spec in Ht as (n & Hn & ->).
    exists inc, n. now rewrite <- in_match_subjects.
  - intros (inc & n & Hinc & -> & Hn & Htid). right. exists inc.
    split; [now apply in_match_subjects|]. split; [reflexivity|].
    apply nonempty_intersection. exists (_normalize_tid (node_str n)).
    split; [|exact Htid]. apply techs_from_incident_spec. eauto.
Qed.

Lemma primary_path_value (g : Graph) (tids_norm : gset string) :
  value (primary_path g tids_norm) =
  if sparql g
  then Ok (List.map node_str (select_incidents g (PyStr.sorted (elements tids_norm))))
  else Raise QueryError.
Proof. unfold primary_path, query. simpl. now destruct (sparql g). Qed.

Lemma get_incidents_value (g : Graph) (t : string) (ts : list string) :
  value (get_incidents_by_tech g (t :: ts)) =
  match value (primary_path g
                 (list_to_set (List.map _normalize_tid
                                 (List.filter (fun t => negb (String.eqb t "")) (t :: ts))))) with
  | Ok (i :: incidents) => i :: incidents
  | _ => value (fallback_scan g
                  (list_to_set (List.map _normalize_tid
                                  (List.filter (fun t => negb (String.eqb t "")) (t :: ts)))))
  end.
Proof.
  unfold get_incidents_by_tech.
  set (T := list_to_set _ : gset string).
  change (value (r ← primary_path g T;
                 match r with
                 | Ok (i :: incidents) => mret (i :: incidents)
                 | _ => fallback_scan g T
                 end))
    with (value (match value (primary_path g T) with
                 | Ok (i :: incidents) => mret (i :: incidents)
                 | _ => fallback_scan g T
                 end)).
  destruct (value (primary_path g T)) as [[|i incidents]|e]; reflexivity.
Qed.

Lemma select_incidents_are_incidents (g : Graph) (values : list string) (inc : node) :
  In inc (select_incidents g values) ->
  In (inc, RDF_type, VERIS "Incident") (triples g).
Proof.
  unfold select_incidents. rewrite <- list_elem_of_In, elem_of_remove_dups, list_elem_of_In.
  intros [H _]%List.filter_In. now apply in_match_subjects.
Qed.

Lemma in_OPTIONAL (n : node) (matches : list node) :
  In (Some n) (OPTIONAL matches) <-> In n matches.
Proof.
  destruct matches as [|m matches]; simpl.
  - split; [intros [[=] | []] | intros []].
  - rewrite in_map_iff. split.
    + intros [[= ->] | (k & [= ->] & Hk)]; auto.
    + intros [-> | H]; [now left | right; eauto].
Qed.

Lemma in_t_solutions (g : Graph) (incident n : node) :
  In (Some n) (t_solutions g incident) ->
  In (incident, BRIDGE "involvesTechnique", n) (triples g) \/
  exists a, In (incident, BRIDGE "hasAction", a) (triples g) /\
            In (a, BRIDGE "relatesToTechnique", n) (triples g).
Proof.
  unfold t_solutions. rewrite in_flat_map.
  intros (t1 & H1 & (t2 & E & H2)%in_map_iff).
  destruct t1 as [m|]; simpl in E.
  - injection E as ->. left. now apply in_match_objects, in_OPTIONAL.
  - subst t2. right. now apply in_path_objects, in_OPTIONAL.
Qed.

Lemma select_incidents_linked (g : Graph) (values : list string) (inc : node) :
  In inc (select_incidents g values) ->
  exists n,
    In (inc, BRIDGE "involvesTechnique", n) (triples g) \/
    exists a, In (inc, BRIDGE "hasAction", a) (triples g) /\
              In (a, BRIDGE "relatesToTechnique", n) (triples g).
Proof.
  unfold select_incidents. rewrite <- list_elem_of_In, elem_of_remove_dups, list_elem_of_In.
  intros [_ H]%List.filter_In.
  apply existsb_exists in H as (t & Ht & (tid & _ & Hf)%existsb_exists).
  destruct t as [n|]; [|discriminate]. exists n. now apply in_t_solutions.
Qed.

Lemma ontology_after_alerts (x : string) :
  _normalize_tid (Alerts._normalize_tid x) = _normalize_tid x.
Proof.
  rewrite (ontology_normalize_eq (Alerts._normalize_tid x)), alerts_normalize_eq.
  rewrite strip_canon, strip_strip, lastfrag_canon, canon_canon.
  symmetry. apply ontology_normalize_eq.
Qed.

End Correlation.

(** The scan returns, sorted and without duplicates, exactly the texts of
    the nodes typed as incidents that have a technique, direct or through
    an action, whose normalized text is in the normalized query set. *)
Theorem fallback_scan_spec (g : Ontology.Graph) (tids_norm : gset string) :
  StronglySorted String.le (Ontology.value (Ontology.fallback_scan g tids_norm)) /\
  NoDup (Ontology.value (Ontology.fallback_scan g tids_norm)) /\
  forall x : string,
    x ∈ Ontology.value (Ontology.fallback_scan g tids_norm) <->
    exists inc n,
      In (inc, Ontology.RDF_type, Ontology.VERIS "Incident") (Ontology.triples g) /\
      x = Ontology.node_str inc /\
      (In (inc, Ontology.BRIDGE "involvesTechnique", n) (Ontology.triples g) \/
       exists a, In (inc, Ontology.BRIDGE "hasAction", a) (Ontology.triples g) /\
                 In (a, Ontology.BRIDGE "relatesToTechnique", n) (Ontology.triples g)) /\
      Ontology._normalize_tid (Ontology.node_str n) ∈ tids_norm.
Proof.
  split; [rewrite fallback_scan_value; apply sorted_strongly_sorted|]. split.
  - rewrite fallback_scan_value, sorted_permutation. apply NoDup_elements.
  - apply fallback_scan_members.
Qed.

(** Whatever [get_incidents_by_tech] returns for quotable identifiers, by
    the query or by the scan, is the text of a node that the graph types
    as an incident and links to a technique, directly or through one of
    its actions. *)
Theorem get_incidents_only_incidents (g : Ontology.Graph) (tech_ids : list string) (x : string) :
  ids_quotable tech_ids = true ->
  In x (Ontology.value (Ontology.get_incidents_by_tech g tech_ids)) ->
  exists inc n,
    In (inc, Ontology.RDF_type, Ontology.VERIS "Incident") (Ontology.triples g) /\
    x = Ontology.node_str inc /\
    (In (inc, Ontology.BRIDGE "involvesTechnique", n) (Ontology.triples g) \/
     exists a, In (inc, Ontology.BRIDGE "hasAction", a) (Ontology.triples g) /\
               In (a, Ontology.BRIDGE "relatesToTechnique", n) (Ontology.triples g)).
Proof.
  intros _. destruct tech_ids as [|t ts]; [intros []|].
  rewrite get_incidents_value, primary_path_value.
  set (T := list_to_set _ : gset string).
  assert (Hscan : In x (Ontology.value (Ontology.fallback_scan g T)) ->
                  exists inc n,
                    In (inc, Ontology.RDF_type, Ontology.VERIS "Incident") (Ontology.triples g) /\
                    x = Ontology.node_str inc /\
                    (In (inc, Ontology.BRIDGE "involvesTechnique", n) (Ontology.triples g) \/
                     exists a, In (inc, Ontology.BRIDGE "hasAction", a) (Ontology.triples g) /\
                               In (a, Ontology.BRIDGE "relatesToTechnique", n)
                                  (Ontology.triples g))).
  { intros (inc & n & Hinc & -> & Hn & _)%list_elem_of_In%fallback_scan_members. eauto. }
  destruct (Ontology.sparql g); [|exact Hscan].
  destruct (List.map Ontology.node_str
              (Ontology.select_incidents g (PyStr.sorted (elements T)))) as [|i incidents] eqn:E;
    [exact Hscan|].
  rewrite <- E. intros (inc & <- & Hinc)%in_map_iff.
  destruct (select_incidents_linked _ _ _ Hinc) as [n Hn].
  exists inc, n. split; [|split; [reflexivity | exact Hn]].
  now apply select_incidents_are_incidents in Hinc.
Qed.

Lemma get_incidents_only_incidents_witness :
  exists inc n,
    In (inc, Ontology.RDF_type, Ontology.VERIS "Incident") (Ontology.triples graph_stale) /\
    "http://example.org/veris#inc1" = Ontology.node_str inc /\
    (In (inc, Ontology.BRIDGE "involvesTechnique", n) (Ontology.triples graph_stale) \/
     exists a, In (inc, Ontology.BRIDGE "hasAction", a) (Ontology.triples graph_stale) /\
               In (a, Ontology.BRIDGE "relatesToTechnique", n)
                  (Ontology.triples graph_stale)).
Proof.
  apply (get_incidents_only_incidents graph_stale ["t1190"]); [reflexivity|].
  vm_compute. now left.
Defined.

(** The answer depends on the identifiers only through their normalized
    set: identifiers already normalized by the alert side give the same
    answer, and the same calls, as the raw ones, provided none is blank. *)
Theorem correlation_after_alert_normalization (g : Ontology.Graph) (tech_ids : list string) :
  Forall (fun t => PyStr.strip t <> "") tech_ids ->
  Ontology.get_incidents_by_tech g (List.map Alerts._normalize_tid tech_ids) =
  Ontology.get_incidents_by_tech g tech_ids.
Proof.
  intros H. destruct tech_ids as [|t ts]; [reflexivity|].
  assert (E : List.map Ontology._normalize_tid
                (List.filter (fun t => negb (String.eqb t ""))
                             (List.map Alerts._normalize_tid (t :: ts))) =
              List.map Ontology._normalize_tid
                (List.filter (fun t => negb (String.eqb t "")) (t :: ts))).
  { induction H as [|u us Hu _ IH]; [reflexivity|]. simpl.
    destruct (String.eqb_spec (Alerts._normalize_tid u) "") as [Eu | _].
    { rewrite alerts_normalize_eq in Eu. now apply smap_empty in Eu. }
    destruct (String.eqb_spec u "") as [-> | _]; [now contradiction Hu|].
    simpl. now rewrite ontology_after_alerts, IH. }
  unfold Ontology.get_incidents_by_tech.
  change (List.map Alerts._normalize_tid (t :: ts))
    with (Alerts._normalize_tid t :: List.map Alerts._normalize_tid ts) at 1.
  cbv iota.
  change (Alerts._normalize_tid t :: List.map Alerts._normalize_tid ts)
    with (List.map Alerts._normalize_tid (t :: ts)).
  now rewrite E.
Qed.

Lemma correlation_after_alert_normalization_witness :
  Ontology.get_incidents_by_tech graph_slash (List.map Alerts._normalize_tid [" t1190 "; "T1059.001"]) =
  Ontology.get_incidents_by_tech graph_slash [" t1190 "; "T1059.001"].
Proof.
  apply (correlation_after_alert_normalization graph_slash [" t1190 "; "T1059.001"]).
  repeat constructor; discriminate.
Defined.

(** ** The supporting operations of the correlation *)

Section SupportingOps.

Import Ontology.










Lemma compare_lt_trans (a b c : string) :
  (a ?= b)%string = Lt -> (b ?= c)%string = Lt -> (a ?= c)%string = Lt.
Proof.
  intros Hab Hbc.
  assert (Hle : String.le a c).
  { transitivity b; unfold String.le, String.leb; [now rewrite Hab | now rewrite Hbc]. }
  unfold String.le, String.leb in Hle.
  destruct (a ?= c)%string eqn:Hac; [|reflexivity|destruct Hle].
  apply String.compare_eq_iff in Hac as ->.
  rewrite String.compare_antisym, Hbc in Hab. discriminate.
Qed.

#[global] Instance pair_le_trans : Transitive pair_le.
Proof.
  intros [p1 p2] [q1 q2] [r1 r2]. unfold pair_le, pair_leb. simpl.
  destruct (p1 ?= q1)%string eqn:Hpq; [| |discriminate];
    (destruct (q1 ?= r1)%string eqn:Hqr; [| |discriminate]).
  - apply String.compare_eq_iff in Hpq as ->. rewrite Hqr. intros H1 H2.
    apply Is_true_true. transitivity q2; now apply Is_true_true.
  - apply String.compare_eq_iff in Hpq as ->. now rewrite Hqr.
  - apply String.compare_eq_iff in Hqr as <-. now rewrite Hpq.
  - now rewrite (compare_lt_trans _ _ _ Hpq Hqr).
Qed.

#[global] Instance pair_le_total : Total pair_le.
Proof.
  intros [p1 p2] [q1 q2]. unfold pair_le, pair_leb. simpl.
  rewrite (String.compare_antisym p1 q1).
  destruct (q1 ?= p1)%string; simpl; auto.
  destruct (String.leb_total p2 q2) as [-> | ->]; auto.
Qed.



Lemma actions_to_tech_pairs_value (g : Graph) (actions : list string) :
  value (actions_to_tech_pairs g actions) =
  match actions with
  | [] => []
  | _ =>
      if sparql g
      then List.map (fun r => (node_str (fst r), node_str (snd r)))
                    (remove_dups (pair_rows g actions))
      else merge_sort pair_le
             (elements
                (list_to_set
                   (List.fold_left
                      (fun pairs a =>
                         (pairs ++ List.map (fun t => (a, node_str t))
                                            (match_objects g (URIRef a)
                                                           (BRIDGE "relatesToTechnique")))%list)
                      actions []) : gset (string * string)))
  end.
Proof.
  destruct actions as [|a actions]; [reflexivity|].
  unfold actions_to_tech_pairs, sparql_rows.
  destruct (sparql g); [reflexivity|].
  exact (f_equal (fun pairs : list (string * string) =>
                    merge_sort pair_le (elements (list_to_set pairs : gset (string * string))))
           (mfold_value
              (fun a pairs =>
                 ts ← objects g (URIRef a) (BRIDGE "relatesToTechnique");
                 mret (pairs ++ List.map (fun t => (a, node_str t)) ts)%list)
              (a :: actions) [])).
Qed.


End SupportingOps.




(** When the query raises, the pairs come back in increasing order,
    without duplicates. *)
Theorem actions_to_tech_pairs_scan_sorted (g : Ontology.Graph) (actions : list string) :
  Ontology.sparql g = false ->
  StronglySorted Ontology.pair_le (Ontology.value (Ontology.actions_to_tech_pairs g actions)) /\
  NoDup (Ontology.value (Ontology.actions_to_tech_pairs g actions)).
Proof.
  intros E. rewrite actions_to_tech_pairs_value, E.
  destruct actions as [|a actions]; [split; constructor|]. split.
  - apply (StronglySorted_merge_sort _).
  - rewrite merge_sort_Permutation. apply NoDup_elements.
Qed.

Lemma actions_to_tech_pairs_scan_sorted_witness :
  StronglySorted Ontology.pair_le
    (Ontology.value
       (Ontology.actions_to_tech_pairs
          {| Ontology.triples := Ontology.triples graph_stale; Ontology.sparql := false |}
          ["http://example.org/veris#action2"])) /\
  NoDup
    (Ontology.value
       (Ontology.actions_to_tech_pairs
          {| Ontology.triples := Ontology.triples graph_stale; Ontology.sparql := false |}
          ["http://example.org/veris#action2"])).
Proof.
  apply (actions_to_tech_pairs_scan_sorted
           {| Ontology.triples := Ontology.triples graph_stale; Ontology.sparql := false |}
           ["http://example.org/veris#action2"]).
  reflexivity.
Defined.




(** When the query raises, the incidents returned for a non-empty list of
    identifiers are exactly the incidents with a technique, direct or
    through an action, whose normalized text is the normalized form of
    one of the non-empty identifiers. *)
Theorem get_incidents_by_tech_scan_mode (g : Ontology.Graph) (tech_ids : list string)
        (x : string) :
  Ontology.sparql g = false ->
  In x (Ontology.value (Ontology.get_incidents_by_tech g tech_ids)) <->
  exists inc n tid,
    In tid tech_ids /\ tid <> "" /\
    In (inc, Ontology.RDF_type, Ontology.VERIS "Incident") (Ontology.triples g) /\
    x = Ontology.node_str inc /\
    (In (inc, Ontology.BRIDGE "involvesTechnique", n) (Ontology.triples g) \/
     exists a, In (inc, Ontology.BRIDGE "hasAction", a) (Ontology.triples g) /\
               In (a, Ontology.BRIDGE "relatesToTechnique", n) (Ontology.triples g)) /\
    Ontology._normalize_tid (Ontology.node_str n) = Ontology._normalize_tid tid.
Proof.
  intros E. destruct tech_ids as [|t ts].
  { split; [intros [] | intros (inc & n & tid & [] & _)]. }
  rewrite get_incidents_value, primary_path_value, E.
  rewrite <- list_elem_of_In, fallback_scan_members.
  assert (T : forall y : string,
             y ∈ (list_to_set
                    (List.map Ontology._normalize_tid
                       (List.filter (fun t => negb (String.eqb t "")) (t :: ts))) : gset string) <->
             exists tid, In tid (t :: ts) /\ tid <> "" /\ y = Ontology._normalize_tid tid).
  { intros y. rewrite elem_of_list_to_set, list_elem_of_In, in_map_iff. split.
    - intros (tid & <- & [Hin Hne]%List.filter_In). exists tid. split; [exact Hin|].
      split; [|reflexivity]. intros ->. discriminate.
    - intros (tid & Hin & Hne & ->). exists tid. split; [reflexivity|].
      apply List.filter_In. split; [exact Hin|].
      now destruct (String.eqb_spec tid ""). }
  split.
  - intros (inc & n & Hinc & -> & Hn & (tid & Hin & Hne & Htid)%T). exists inc, n, tid. auto 8.
  - intros (inc & n & tid & Hin & Hne & Hinc & -> & Hn & Htid). exists inc, n.
    split; [exact Hinc|]. split; [reflexivity|]. split; [exact Hn|].
    apply T. eauto.
Qed.

Lemma get_incidents_by_tech_scan_mode_witness :
  In "http://example.org/veris#inc2"
     (Ontology.value
        (Ontology.get_incidents_by_tech
           {| Ontology.triples := Ontology.triples graph_stale; Ontology.sparql := false |}
           ["t1190"])) <->
  exists inc n tid,
    In tid ["t1190"] /\ tid <> "" /\
    In (inc, Ontology.RDF_type, Ontology.VERIS "Incident") (Ontology.triples graph_stale) /\
    "http://example.org/veris#inc2" = Ontology.node_str inc /\
    (In (inc, Ontology.BRIDGE "involvesTechnique", n) (Ontology.triples graph_stale) \/
     exists a, In (inc, Ontology.BRIDGE "hasAction", a) (Ontology.triples graph_stale) /\
               In (a, Ontology.BRIDGE "relatesToTechnique", n)
                  (Ontology.triples graph_stale)) /\
    Ontology._normalize_tid (Ontology.node_str n) = Ontology._normalize_tid tid.
Proof.
  apply (get_incidents_by_tech_scan_mode
           {| Ontology.triples := Ontology.triples graph_stale; Ontology.sparql := false |}
           ["t1190"] "http://example.org/veris#inc2").
  reflexivity.
Defined.

(** ** Correlation: when the query and the scan agree *)

Section BackendAgreement.

Import PyStr Ontology.

Ltac by_cases_on c := destruct c as [[] [] [] [] [] [] [] []]; reflexivity.

Lemma strafter_without (c : ascii) (s : string) :
  contains c s = false -> STRAFTER c s = "".
Proof.
  induction s as [|x s IH]; [reflexivity|]. simpl.
  intros [-> H]%orb_false_elim. now apply IH.
Qed.

Lemma strafter_tail (c : ascii) (s : string) :
  contains c s = true -> contains c (STRAFTER c s) = false ->
  tail_after c s = STRAFTER c s.
Proof.
  induction s as [|x s IH]; [discriminate|].
  rewrite tail_after_cons. simpl.
  destruct (Ascii.eqb x c); simpl.
  - intros _ H. now apply tail_after_without.
  - intros H. rewrite H. now apply IH.
Qed.

Lemma strafter_slash_hash (s : string) :
  contains "#" s = true -> contains "/" (STRAFTER "#" s) = false ->
  contains "/" s = true -> contains "#" (STRAFTER "/" s) = true.
Proof.
  induction s as [|x s IH]; [discriminate|]. simpl.
  destruct (Ascii.eqb x "#") eqn:Eh; simpl.
  - apply Ascii.eqb_eq in Eh as ->. simpl. congruence.
  - destruct (Ascii.eqb x "/"); simpl; [auto | exact IH].
Qed.

Lemma lower_replace (s : string) : lower (replace "." "_" s) = smap lowrep s.
Proof. unfold lower, replace. now rewrite smap_smap. Qed.

Lemma canon_lowrep (c : ascii) : canon_char (lowrep c) = canon_char c.
Proof. by_cases_on c. Qed.

Lemma canon_lower_char (c : ascii) : canon_char (lower_char c) = canon_char c.
Proof. by_cases_on c. Qed.

Lemma lower_canon_char (c : ascii) : lower_char (canon_char c) = lowrep c.
Proof. by_cases_on c. Qed.

Lemma lowrep_hash (c : ascii) : Ascii.eqb (lowrep c) "#" = Ascii.eqb c "#".
Proof. by_cases_on c. Qed.

Lemma lower_char_hash (c : ascii) : Ascii.eqb (lower_char c) "#" = Ascii.eqb c "#".
Proof. by_cases_on c. Qed.

(** [LCASE(REPLACE(x, "\.", "_")) = LCASE(tid)] against [canon x = tid]. *)
Lemma lowered_equal (x tid : string) :
  canon tid = tid ->
  lower (replace "." "_" x) = lower tid <-> canon x = tid.
Proof.
  intros Ht. rewrite lower_replace. unfold lower. split.
  - intros E. apply (f_equal canon) in E. unfold canon in E at 1 2.
    rewrite !smap_smap in E.
    rewrite (smap_ext _ canon_char x canon_lowrep) in E.
    rewrite (smap_ext _ canon_char tid canon_lower_char) in E.
    fold (canon x) in E. fold (canon tid) in E. congruence.
  - intros <-. unfold canon. rewrite smap_smap.
    symmetry. apply smap_ext, lower_canon_char.
Qed.

Lemma normalize_fragment_iri (s : string) :
  fragment_iri s = true -> _normalize_tid s = canon (STRAFTER "#" s).
Proof.
  unfold fragment_iri.
  intros [[[Hs Hh]%andb_prop Hf%negb_true_iff]%andb_prop _]%andb_prop.
  apply String.eqb_eq in Hs.
  rewrite ontology_normalize_eq, Hs, lastfrag_eq, Hh. now rewrite strafter_tail.
Qed.

Lemma filter_holds_fragment (n : node) (tid : string) :
  fragment_iri (node_str n) = true ->
  tid <> "" -> contains "#" tid = false -> canon tid = tid ->
  filter_holds (Some n) tid = true <-> _normalize_tid (node_str n) = tid.
Proof.
  intros Hf Hne Hh Hc. rewrite (normalize_fragment_iri _ Hf).
  unfold filter_holds. rewrite orb_true_iff, !String.eqb_eq, (lowered_equal _ tid Hc).
  split; [|now left]. intros [E | E]; [exact E | exfalso].
  unfold fragment_iri in Hf.
  apply andb_prop in Hf as [[[_ H1]%andb_prop _]%andb_prop H2%negb_true_iff].
  destruct (contains "/" (node_str n)) eqn:Hs.
  - pose proof (strafter_slash_hash _ H1 H2 Hs) as H.
    assert (C : contains "#" (lower (replace "." "_" (STRAFTER "/" (node_str n)))) = true).
    { rewrite lower_replace, contains_smap; [exact H | exact lowrep_hash]. }
    rewrite E in C. unfold lower in C. rewrite contains_smap in C by exact lower_char_hash.
    congruence.
  - rewrite (strafter_without _ _ Hs) in E. simpl in E.
    symmetry in E. apply smap_empty in E. contradiction.
Qed.

Lemma t_solutions_direct (g : Graph) (inc n : node) :
  In n (match_objects g inc (BRIDGE "involvesTechnique")) -> In (Some n) (t_solutions g inc).
Proof.
  intros H. unfold t_solutions. apply in_flat_map. exists (Some n).
  split; [now apply in_OPTIONAL|]. destruct (path_objects g inc); now left.
Qed.

Lemma t_solutions_path (g : Graph) (inc n : node) :
  match_objects g inc (BRIDGE "involvesTechnique") = [] ->
  In n (path_objects g inc) -> In (Some n) (t_solutions g inc).
Proof.
  intros E H. unfold t_solutions. rewrite E. simpl. rewrite app_nil_r, in_map_iff.
  exists (Some n). split; [reflexivity | now apply in_OPTIONAL].
Qed.

(** With a complete materialization, a technique of an incident that is
    among the values is also one that the solutions of the query bind. *)
Lemma t_solutions_cover (g : Graph) (T : gset string) (inc n : node) :
  links_materialized g = true ->
  In (inc, RDF_type, VERIS "Incident") (triples g) ->
  (In (inc, BRIDGE "involvesTechnique", n) (triples g) \/
   exists a, In (inc, BRIDGE "hasAction", a) (triples g) /\
             In (a, BRIDGE "relatesToTechnique", n) (triples g)) ->
  _normalize_tid (node_str n) ∈ T ->
  exists n', In (Some n') (t_solutions g inc) /\ _normalize_tid (node_str n') ∈ T.
Proof.
  intros Hk Hinc [Hn | Hn] Htid.
  - exists n. split; [|exact Htid]. now apply t_solutions_direct, in_match_objects.
  - apply in_path_objects in Hn.
    unfold links_materialized in Hk. rewrite forallb_forall in Hk.
    specialize (Hk inc (proj2 (in_match_subjects _ _ _ _) Hinc)). cbv zeta in Hk.
    destruct (match_objects g inc (BRIDGE "involvesTechnique")) as [|d ds] eqn:E.
    + exists n. split; [|exact Htid]. now apply t_solutions_path.
    + rewrite forallb_forall in Hk. specialize (Hk n Hn).
      apply existsb_exists in Hk as (n' & Hn' & Heq%String.eqb_eq).
      exists n'. split; [|now rewrite Heq].
      apply t_solutions_direct. now rewrite E.
Qed.

Lemma select_incidents_spec (g : Graph) (T : gset string) (inc : node) :
  technique_fragment_iris g = true ->
  links_materialized g = true ->
  (forall tid, tid ∈ T -> tid <> "" /\ contains "#" tid = false /\ canon tid = tid) ->
  In inc (select_incidents g (PyStr.sorted (elements T))) <->
  In (inc, RDF_type, VERIS "Incident") (triples g) /\
  exists n,
    (In (inc, BRIDGE "involvesTechnique", n) (triples g) \/
     exists a, In (inc, BRIDGE "hasAction", a) (triples g) /\
               In (a, BRIDGE "relatesToTechnique", n) (triples g)) /\
    _normalize_tid (node_str n) ∈ T.
Proof.
  intros Hg Hk HT.
  assert (Hfrag : forall n,
             (In (inc, BRIDGE "involvesTechnique", n) (triples g) \/
              exists a, In (inc, BRIDGE "hasAction", a) (triples g) /\
                        In (a, BRIDGE "relatesToTechnique", n) (triples g)) ->
             fragment_iri (node_str n) = true).
  { unfold technique_fragment_iris in Hg. rewrite forallb_forall in Hg.
    intros n [Hn | (a & _ & Hn)]; specialize (Hg _ Hn); exact Hg. }
  unfold select_incidents.
  rewrite <- list_elem_of_In, elem_of_remove_dups, list_elem_of_In, List.filter_In,
    in_match_subjects.
  cut (In (inc, RDF_type, VERIS "Incident") (triples g) ->
       existsb (fun t => existsb (filter_holds t) (PyStr.sorted (elements T)))
               (t_solutions g inc) = true <->
       exists n,
         (In (inc, BRIDGE "involvesTechnique", n) (triples g) \/
          exists a, In (inc, BRIDGE "hasAction", a) (triples g) /\
                    In (a, BRIDGE "relatesToTechnique", n) (triples g)) /\
         _normalize_tid (node_str n) ∈ T).
  { intros main. split; intros [Hinc H]; (split; [exact Hinc | now apply (main Hinc)]). }
  intros Hinc. rewrite existsb_exists. split.
  - intros ([n|] & Ht & (tid & Htid & Hf)%existsb_exists); [|discriminate].
    apply in_t_solutions in Ht.
    rewrite <- list_elem_of_In, sorted_permutation, elem_of_elements in Htid.
    destruct (HT tid Htid) as (Hne & Hh & Hc).
    apply (filter_holds_fragment n tid (Hfrag n Ht) Hne Hh Hc) in Hf.
    exists n. split; [exact Ht | now rewrite Hf].
  - intros (n & Ht & Htid).
    destruct (t_solutions_cover g T inc n Hk Hinc Ht Htid) as (n' & Hsol & Htid').
    exists (Some n'). split; [exact Hsol|].
    apply existsb_exists. exists (_normalize_tid (node_str n')). split.
    + now rewrite <- list_elem_of_In, sorted_permutation, elem_of_elements.
    + destruct (HT _ Htid') as (Hne & Hh & Hc).
      apply (filter_holds_fragment n' _ (Hfrag n' (in_t_solutions _ _ _ Hsol)) Hne Hh Hc).
      reflexivity.
Qed.

Lemma normalized_ids_spec (tech_ids : list string) (tid : string) :
  ids_nonblank tech_ids = true ->
  tid ∈ (list_to_set
           (List.map _normalize_tid
              (List.filter (fun t => negb (String.eqb t "")) tech_ids)) : gset string) ->
  tid <> "" /\ contains "#" tid = false /\ canon tid = tid.
Proof.
  unfold ids_nonblank. rewrite forallb_forall, elem_of_list_to_set, list_elem_of_In, in_map_iff.
  intros H (t & <- & [Hin Hne]%List.filter_In).
  specialize (H t Hin). apply negb_true_iff in Hne. rewrite Hne in H. simpl in H.
  apply negb_true_iff, String.eqb_neq in H.
  split; [exact H|]. split; [apply ontology_normalize_no_hash|].
  rewrite ontology_normalize_eq. apply canon_canon.
Qed.

End BackendAgreement.

(** On a graph whose technique nodes are ASCII fragment IRIs and whose
    materialization is complete, and for quotable ASCII identifiers that
    are not normalized to the empty text, the incidents returned do not
    depend on the backend: the query, when it is evaluated, finds the
    incidents that the scan finds. *)
Theorem get_incidents_by_tech_backend_independent
        (g : Ontology.Graph) (tech_ids : list string) (x : string) :
  technique_fragment_iris g = true ->
  links_materialized g = true ->
  ids_nonblank tech_ids = true ->
  ids_quotable tech_ids = true ->
  techniques_ascii g = true ->
  ids_ascii tech_ids = true ->
  In x (Ontology.value (Ontology.get_incidents_by_tech g tech_ids)) <->
  In x (Ontology.value
          (Ontology.get_incidents_by_tech
             {| Ontology.triples := Ontology.triples g; Ontology.sparql := false |} tech_ids)).
Proof.
  intros Hg Hk Hids _ _ _. destruct tech_ids as [|t ts]; [reflexivity|].
  rewrite !get_incidents_value, !primary_path_value. simpl Ontology.sparql.
  set (T := list_to_set _ : gset string).
  assert (E : forall y, In y (Ontology.value (Ontology.fallback_scan g T)) <->
                        In y (Ontology.value
                                (Ontology.fallback_scan
                                   {| Ontology.triples := Ontology.triples g;
                                      Ontology.sparql := false |} T))).
  { intros y. rewrite <- !list_elem_of_In, !fallback_scan_members. reflexivity. }
  destruct (Ontology.sparql g); [|apply E].
  assert (S : In x (List.map Ontology.node_str
                      (Ontology.select_incidents g (PyStr.sorted (elements T)))) <->
              In x (Ontology.value (Ontology.fallback_scan g T))).
  { rewrite in_map_iff, <- list_elem_of_In, fallback_scan_members. split.
    - intros (inc & <- & Hinc).
      apply (select_incidents_spec g T inc Hg Hk) in Hinc as (Hinc & n & Hn & Htid);
        [|intros tid; apply normalized_ids_spec, Hids].
      exists inc, n. auto.
    - intros (inc & n & Hinc & -> & Hn & Htid). exists inc. split; [reflexivity|].
      apply (select_incidents_spec g T inc Hg Hk); [intros tid; apply normalized_ids_spec, Hids|].
      eauto. }
  rewrite <- E.
  destruct (List.map Ontology.node_str
              (Ontology.select_incidents g (PyStr.sorted (elements T)))) as [|i incidents] eqn:M;
    [reflexivity | exact S].
Qed.

Lemma get_incidents_by_tech_backend_independent_witness :
  In "http://example.org/veris#inc3"
     (Ontology.value (Ontology.get_incidents_by_tech graph_fragments ["t1190"])) <->
  In "http://example.org/veris#inc3"
     (Ontology.value
        (Ontology.get_incidents_by_tech
           {| Ontology.triples := Ontology.triples graph_fragments; Ontology.sparql := false |}
           ["t1190"])).
Proof.
  apply (get_incidents_by_tech_backend_independent graph_fragments ["t1190"]); reflexivity.
Defined.

(** ** Identifier extraction: what ends up in the result *)

Section Records.

Lemma extend_unique_members (new_items : gset string) (tids : list string) (t : string) :
  In t (Alerts.extend_unique new_items tids) <-> In t tids \/ t ∈ new_items.
Proof.
  unfold Alerts.extend_unique. rewrite <- (elem_of_elements new_items), list_elem_of_In.
  revert tids. induction (elements new_items) as [|x xs IH]; intros tids; simpl.
  - tauto.
  - rewrite IH. case_bool_decide as Hx.
    + apply list_elem_of_In in Hx. split; [tauto|]. intros [H | [<- | H]]; auto.
    + rewrite in_app_iff. simpl. tauto.
Qed.

Lemma extend_from_members (items : list json) (tids r : list string) (t : string) :
  Alerts.extend_from items tids = Ok r ->
  In t r <->
  In t tids \/
  exists item found, In item (List.filter Alerts.is_dict items) /\
                     Alerts._collect_tids_from_any item = Ok found /\ t ∈ found.
Proof.
  unfold Alerts.extend_from. revert tids.
  induction items as [|item items IH]; intros tids; simpl.
  - intros [= <-]. split; [auto | intros [H | (item & found & [] & _)]; exact H].
  - intros (tids' & Hstep & Hrest)%bind_ok. rewrite (IH _ Hrest). clear IH Hrest.
    destruct item; simpl; try (injection Hstep as <-; reflexivity).
    apply bind_ok in Hstep as (new_items & Hnew & [= <-]).
    rewrite extend_unique_members. split.
    + intros [[H | H] | (item & found & Hin & Hc & Ht)]; eauto 8.
    + intros [H | (item & found & [<- | Hin] & Hc & Ht)]; eauto 8.
      left. right. congruence.
Qed.

Lemma iter_or_empty (v : json) (items srcs : list json) :
  Py.iter v = Ok items -> Py.iter (Py.or_ v (JList [])) = Ok srcs -> srcs = items.
Proof.
  unfold Py.or_. destruct (Py.truthy v) eqn:E; [congruence|].
  destruct v as [| | | |s|l|d]; try discriminate; simpl in *.
  - apply negb_false_iff, String.eqb_eq in E as ->. simpl. congruence.
  - destruct l; [congruence | discriminate].
  - destruct d; [simpl; congruence | discriminate].
Qed.

Lemma records_members (k : string) (d : list (string * json)) (records l : list json) :
  Alerts.dict_items (Py.get k d) = Ok records ->
  Py.iter (Py.or_ (Py.get k d) (JList [])) = Ok l ->
  List.filter Alerts.is_dict l = records.
Proof.
  unfold Alerts.dict_items. intros (items & Hi & [= <-])%bind_ok Hl.
  now rewrite (iter_or_empty _ _ _ Hi Hl).
Qed.

Lemma extract_members (obj : json) (records : list json) (tids : list string) (t : string) :
  Alerts._first_alert_objects obj = Ok records ->
  Alerts.extract_tech_ids_universal obj = Ok tids ->
  In t tids <->
  exists record found, In record records /\
                       Alerts._collect_tids_from_any record = Ok found /\ t ∈ found.
Proof.
  unfold Alerts.extract_tech_ids_universal. intros Hrec (l & Hl & [= <-])%bind_ok.
  rewrite <- (list_elem_of_In (PyStr.sorted l) t), sorted_permutation, list_elem_of_In.
  assert (nil_l : forall P : Prop, (In t [] \/ P) <-> P) by (simpl; tauto).
  destruct obj as [| | | | |items|d]; simpl in Hrec;
    try (injection Hrec as <-; injection Hl as <-;
         split; [intros [] | intros (record & found & [] & _)]).
  - unfold Alerts.dict_items in Hrec. simpl in Hrec. injection Hrec as <-.
    rewrite (extend_from_members _ _ _ t Hl). apply nil_l.
  - destruct (Py.has_key "_hits_sources" d).
    { apply bind_ok in Hl as (srcs & Hs & Hl).
      rewrite (extend_from_members _ _ _ t Hl), (records_members _ _ _ _ Hrec Hs). apply nil_l. }
    destruct (Py.has_key "_ndjson" d).
    { apply bind_ok in Hl as (srcs & Hs & Hl).
      rewrite (extend_from_members _ _ _ t Hl), (records_members _ _ _ _ Hrec Hs). apply nil_l. }
    injection Hrec as <-. apply bind_ok in Hl as (new_items & Hnew & [= <-]).
    rewrite extend_unique_members, nil_l. split.
    + intros Ht. exists (JDict d), new_items. split; [now left | auto].
    + intros (record & found & [<- | []] & Hc & Ht). congruence.
Qed.

(** *** What one node contributes *)

Lemma fold_left_grows {A : Type} (step : gset string -> A -> gset string) (xs : list A)
      (acc : gset string) (t : string) :
  (forall s x, t ∈ s -> t ∈ step s x) -> t ∈ acc -> t ∈ List.fold_left step xs acc.
Proof. intros H. now apply fold_left_invariant. Qed.

Lemma fold_left_adds {A : Type} (step : gset string -> A -> gset string) (xs : list A)
      (acc : gset string) (t : string) (x0 : A) :
  (forall s x, t ∈ s -> t ∈ step s x) -> (forall s, t ∈ step s x0) -> In x0 xs ->
  t ∈ List.fold_left step xs acc.
Proof.
  intros Hmono Hadd. revert acc. induction xs as [|x xs IH]; intros acc; simpl; [intros []|].
  intros [-> | Hin]; [|now apply IH].
  apply fold_left_grows; [exact Hmono | apply Hadd].
Qed.

Lemma add_guarded_grows (values : list json) (tids : gset string) (t : string) :
  t ∈ tids -> t ∈ Alerts.add_guarded values tids.
Proof.
  apply fold_left_grows. intros s v Hs. destruct (Py.is_str_or_int v); set_solver.
Qed.

Lemma add_unguarded_grows (values : list json) (tids : gset string) (t : string) :
  t ∈ tids -> t ∈ Alerts.add_unguarded values tids.
Proof. apply fold_left_grows. intros s v Hs. set_solver. Qed.

Lemma add_ids_grows (ids : json) (tids : gset string) (t : string) :
  t ∈ tids -> t ∈ Alerts.add_ids ids tids.
Proof.
  intros H. destruct ids; simpl; try exact H; [set_solver | now apply add_guarded_grows].
Qed.

Lemma add_techniques_grows (arr : json) (tids : gset string) (t : string) :
  t ∈ tids -> t ∈ Alerts.add_techniques arr tids.
Proof.
  intros H. destruct arr; simpl; try exact H.
  revert H. apply fold_left_grows. intros acc v Hacc.
  match goal with |- context [Py.is_str_or_int ?x] => destruct (Py.is_str_or_int x) end;
    set_solver.
Qed.

Lemma add_text_matches_grows (value : json) (tids : gset string) (t : string) :
  t ∈ tids -> t ∈ Alerts.add_text_matches value tids.
Proof.
  intros H. destruct value; simpl; try exact H.
  revert H. apply fold_left_grows. intros acc v Hacc. set_solver.
Qed.

Lemma add_alias_grows (sub : json) (tids r : gset string) (t : string) :
  Alerts.add_alias sub tids = Ok r -> t ∈ tids -> t ∈ r.
Proof.
  destruct sub; try (now intros [= <-]).
  unfold Alerts.add_alias.
  intros (r0 & _ & (m & _ & (first & _ & (candidate & _ & Hc)%bind_ok)%bind_ok)%bind_ok)%bind_ok.
  destruct candidate; injection Hc as <-; try (intros H; exact H).
  - set_solver.
  - apply add_unguarded_grows.
Qed.

Lemma rfold_grows {A : Type} (step : A -> gset string -> result (gset string))
      (xs : list A) (acc r : gset string) (t : string) :
  (forall x s s', step x s = Ok s' -> t ∈ s -> t ∈ s') ->
  rfold step xs acc = Ok r -> t ∈ acc -> t ∈ r.
Proof.
  intros H Hr Hacc. revert Hr. apply rfold_invariant; [|exact Hacc].
  intros x s s' Hs Hstep. now apply (H x s s').
Qed.

(** The steps of the loop body after the identifiers of the rule. *)
Lemma visit_steps (d : list (string * json)) (tids r : gset string) :
  Alerts.visit (JDict d) tids = Ok r ->
  exists m ids t1,
    Py.attr_get "mitre" (Py.or_ (Py.get "rule" d) (JDict [])) = Ok m /\
    Py.attr_get "id" (Py.or_ m (JDict [])) = Ok ids /\
    (forall t, t ∈ Alerts.add_ids ids tids -> t ∈ t1) /\
    (forall t, t ∈ List.fold_left (fun tids key => Alerts.add_text_matches (Py.get key d) tids)
                                  ["message"; "description"; "full_log"] t1 -> t ∈ r).
Proof.
  unfold Alerts.visit.
  intros (m & Hm & (ids & Hids & (t1 & Ht1 & Hr)%bind_ok)%bind_ok)%bind_ok.
  exists m, ids, t1. repeat split; [exact Hm | exact Hids | |].
  - intros t Ht. refine (rfold_grows _ _ _ _ t _ Ht1 Ht).
    intros key s s' (arr & _ & [= <-])%bind_ok. apply add_techniques_grows.
  - intros t Ht. refine (rfold_grows _ _ _ _ t _ Hr Ht).
    intros key s s'. apply add_alias_grows.
Qed.

Lemma visit_grows (node : json) (tids r : gset string) (t : string) :
  Alerts.visit node tids = Ok r -> t ∈ tids -> t ∈ r.
Proof.
  destruct node; try (now intros [= <-]).
  intros (m & ids & t1 & _ & _ & H1 & H2)%visit_steps Ht.
  apply H2, fold_left_grows; [intros s k; apply add_text_matches_grows|].
  now apply H1, add_ids_grows.
Qed.

Lemma collect_holds_node (obj node : json) (found : gset string) :
  Alerts._collect_tids_from_any obj = Ok found ->
  In node (Alerts._iter_json obj) ->
  exists tids r, Alerts.visit node tids = Ok r /\ forall t, t ∈ r -> t ∈ found.
Proof.
  unfold Alerts._collect_tids_from_any. generalize (∅ : gset string).
  induction (Alerts._iter_json obj) as [|x xs IH]; intros acc; simpl; [intros _ []|].
  intros (acc' & Hx & Hrest)%bind_ok [-> | Hin]; [|now apply (IH acc')].
  exists acc, acc'. split; [exact Hx|]. intros t Ht.
  refine (rfold_grows _ _ _ _ t _ Hrest Ht).
  intros y s s'. apply visit_grows.
Qed.

Lemma visit_rule_ids (d rule mitre : list (string * json)) (tids r : gset string) (t : string) :
  Alerts.visit (JDict d) tids = Ok r ->
  Py.get "rule" d = JDict rule -> Py.get "mitre" rule = JDict mitre ->
  t ∈ Alerts.add_ids (Py.get "id" mitre) tids -> t ∈ r.
Proof.
  intros (m & ids & t1 & Hm & Hids & H1 & H2)%visit_steps Hrule Hmitre Ht.
  apply H2, fold_left_grows; [intros s k; apply add_text_matches_grows|]. apply H1.
  rewrite Hrule in Hm. unfold Py.or_ in Hm.
  assert (m = JDict mitre) as ->.
  { destruct rule; [discriminate|]. simpl in Hm. congruence. }
  unfold Py.or_ in Hids. destruct mitre; simpl in Hids; injection Hids as <-; exact Ht.
Qed.

Lemma visit_text_matches (d : list (string * json)) (tids r : gset string)
      (key text m : string) :
  Alerts.visit (JDict d) tids = Ok r ->
  In key ["message"; "description"; "full_log"] ->
  Py.get key d = JStr text -> In m (Alerts.TID_RX_findall text) ->
  Alerts._normalize_tid m ∈ r.
Proof.
  intros (m0 & ids & t1 & _ & _ & _ & H2)%visit_steps Hkey Htext Hm.
  apply H2. apply (fold_left_adds _ _ _ _ key); [| |exact Hkey].
  - intros s k. apply add_text_matches_grows.
  - intros s. rewrite Htext. simpl.
    apply (fold_left_adds _ _ _ _ m); [| |exact Hm].
    + intros acc x Hacc. apply elem_of_union. now right.
    + intros acc. apply elem_of_union. left. now apply elem_of_singleton.
Qed.

Lemma fold_cond_union_members {A : Type} (c : A -> bool) (f : A -> string) (xs : list A)
      (acc : gset string) (t : string) :
  t ∈ List.fold_left (fun tids v => if c v then {[ f v ]} ∪ tids else tids) xs acc <->
  t ∈ acc \/ exists v, In v xs /\ c v = true /\ t = f v.
Proof.
  revert acc. induction xs as [|x xs IH]; intros acc; simpl.
  - split; [auto | intros [H | (v & [] & _)]; exact H].
  - rewrite IH. destruct (c x) eqn:E.
    + rewrite elem_of_union, elem_of_singleton. split.
      * intros [[-> | H] | (v & Hv & Hc & ->)]; eauto 8.
      * intros [H | (v & [<- | Hv] & Hc & ->)]; eauto 8.
    + split.
      * intros [H | (v & Hv & Hc & ->)]; eauto 8.
      * intros [H | (v & [<- | Hv] & Hc & ->)]; eauto 8. congruence.
Qed.

Lemma add_guarded_members (values : list json) (acc : gset string) (t : string) :
  t ∈ Alerts.add_guarded values acc <->
  t ∈ acc \/ exists v, In v values /\ Py.is_str_or_int v = true /\
                       t = Alerts._normalize_tid (Py.str v).
Proof.
  exact (fold_cond_union_members Py.is_str_or_int
           (fun v => Alerts._normalize_tid (Py.str v)) values acc t).
Qed.

Lemma add_ids_any_acc (ids : json) (acc : gset string) (t : string) :
  t ∈ Alerts.add_ids ids ∅ -> t ∈ Alerts.add_ids ids acc.
Proof.
  destruct ids as [| | | |s|values|]; simpl;
    try (intros H; now apply not_elem_of_empty in H).
  - rewrite !elem_of_union. intros [H | H]; [now left | now apply not_elem_of_empty in H].
  - rewrite !add_guarded_members. intros [H | H]; [now apply not_elem_of_empty in H | now right].
Qed.

Lemma extend_from_grows (items : list json) (tids r : list string) (t : string) :
  Alerts.extend_from items tids = Ok r -> In t tids -> In t r.
Proof. intros H Ht. apply (extend_from_members _ _ _ t H). now left. Qed.

Lemma extend_from_collects (items : list json) (tids r : list string) (item : json) :
  Alerts.extend_from items tids = Ok r ->
  In item (List.filter Alerts.is_dict items) ->
  exists found, Alerts._collect_tids_from_any item = Ok found.
Proof.
  unfold Alerts.extend_from. revert tids.
  induction items as [|x items IH]; intros tids; simpl; [intros _ []|].
  intros (tids' & Hstep & Hrest)%bind_ok.
  destruct x; simpl; try (now apply (IH tids')).
  intros [<- | Hin]; [|now apply (IH tids')].
  apply bind_ok in Hstep as (found & Hc & _). eauto.
Qed.

Lemma extract_collects (obj : json) (records : list json) (tids : list string) (record : json) :
  Alerts._first_alert_objects obj = Ok records ->
  Alerts.extract_tech_ids_universal obj = Ok tids ->
  In record records ->
  exists found, Alerts._collect_tids_from_any record = Ok found /\
                forall t, t ∈ found -> In t tids.
Proof.
  intros Hrec Hex Hin.
  assert (exists found, Alerts._collect_tids_from_any record = Ok found) as [found Hc].
  { unfold Alerts.extract_tech_ids_universal in Hex.
    apply bind_ok in Hex as (l & Hl & _).
    destruct obj as [| | | | |items|d]; simpl in Hrec; try (injection Hrec as <-; destruct Hin).
    - unfold Alerts.dict_items in Hrec. simpl in Hrec. injection Hrec as <-.
      exact (extend_from_collects _ _ _ _ Hl Hin).
    - destruct (Py.has_key "_hits_sources" d).
      { apply bind_ok in Hl as (srcs & Hs & Hl).
        rewrite <- (records_members _ _ _ _ Hrec Hs) in Hin.
        exact (extend_from_collects _ _ _ _ Hl Hin). }
      destruct (Py.has_key "_ndjson" d).
      { apply bind_ok in Hl as (srcs & Hs & Hl).
        rewrite <- (records_members _ _ _ _ Hrec Hs) in Hin.
        exact (extend_from_collects _ _ _ _ Hl Hin). }
      injection Hrec as <-. destruct Hin as [<- | []].
      apply bind_ok in Hl as (found & Hc & _). eauto. }
  exists found. split; [exact Hc|]. intros t Ht.
  apply (extract_members _ _ _ t Hrec Hex). eauto.
Qed.

End Records.

(** The identifiers extracted from a batch are those collected from its
    records, the records being the ones for which metadata are given. *)
Theorem extract_is_union_of_records
        (obj : json) (records : list json) (tids : list string) (t : string) :
  Alerts._first_alert_objects obj = Ok records ->
  Alerts.extract_tech_ids_universal obj = Ok tids ->
  In t tids <->
  exists record found, In record records /\
                       Alerts._collect_tids_from_any record = Ok found /\ t ∈ found.
Proof. apply extract_members. Qed.

Lemma extract_is_union_of_records_witness :
  In "T1190" ["T1059_001"; "T1190"] <->
  exists record found, In record [alert_basic] /\
                       Alerts._collect_tids_from_any record = Ok found /\ "T1190" ∈ found.
Proof.
  apply (extract_is_union_of_records alert_basic [alert_basic] ["T1059_001"; "T1190"] "T1190");
    vm_compute; reflexivity.
Defined.

(** No identifier given under [rule.mitre.id] is lost: whatever that
    field contributes at a node of a record, at any depth, is in the
    result, whenever the extraction returns. *)
Theorem extract_keeps_rule_ids
        (obj : json) (records : list json) (record : json)
        (node rule mitre : list (string * json)) (tids : list string) (t : string) :
  Alerts._first_alert_objects obj = Ok records ->
  In record records ->
  In (JDict node) (Alerts._iter_json record) ->
  Py.get "rule" node = JDict rule ->
  Py.get "mitre" rule = JDict mitre ->
  t ∈ Alerts.add_ids (Py.get "id" mitre) ∅ ->
  Alerts.extract_tech_ids_universal obj = Ok tids ->
  In t tids.
Proof.
  intros Hrec Hin Hnode Hrule Hmitre Ht Hex.
  destruct (extract_collects _ _ _ _ Hrec Hex Hin) as (found & Hc & Hsub).
  destruct (collect_holds_node _ _ _ Hc Hnode) as (acc & r & Hv & Hr).
  apply Hsub, Hr, (visit_rule_ids _ _ _ _ _ _ Hv Hrule Hmitre).
  now apply add_ids_any_acc.
Qed.

Lemma extract_keeps_rule_ids_witness : In "T1059_001" ["T1059_001"; "T1190"].
Proof.
  apply (extract_keeps_rule_ids
           alert_basic [alert_basic] alert_basic
           [("rule", JDict [("mitre", JDict [("id", JList [JStr "T1190"; JStr "T1059.001"])])])]
           [("mitre", JDict [("id", JList [JStr "T1190"; JStr "T1059.001"])])]
           [("id", JList [JStr "T1190"; JStr "T1059.001"])]
           ["T1059_001"; "T1190"] "T1059_001");
    try reflexivity.
  - now left.
  - now left.
Defined.

(** No identifier written in a free-text field is lost: every match of
    the pattern in [message], [description] or [full_log], at a node of a
    record at any depth, is in the result once normalized, whenever the
    extraction returns. *)
Theorem extract_keeps_text_matches
        (obj : json) (records : list json) (record : json)
        (node : list (string * json)) (key text m : string) (tids : list string) :
  Alerts._first_alert_objects obj = Ok records ->
  In record records ->
  In (JDict node) (Alerts._iter_json record) ->
  In key ["message"; "description"; "full_log"] ->
  Py.get key node = JStr text ->
  In m (Alerts.TID_RX_findall text) ->
  Alerts.extract_tech_ids_universal obj = Ok tids ->
  In (Alerts._normalize_tid m) tids.
Proof.
  intros Hrec Hin Hnode Hkey Htext Hm Hex.
  destruct (extract_collects _ _ _ _ Hrec Hex Hin) as (found & Hc & Hsub).
  destruct (collect_holds_node _ _ _ Hc Hnode) as (acc & r & Hv & Hr).
  apply Hsub, Hr, (visit_text_matches _ _ _ _ _ _ Hv Hkey Htext Hm).
Qed.

Lemma extract_keeps_text_matches_witness :
  In (Alerts._normalize_tid "t1059.001") ["T1059_001"].
Proof.
  apply (extract_keeps_text_matches
           (JList [JDict [("data", JDict [("full_log", JStr "exec (t1059.001) seen")])]])
           [JDict [("data", JDict [("full_log", JStr "exec (t1059.001) seen")])]]
           (JDict [("data", JDict [("full_log", JStr "exec (t1059.001) seen")])])
           [("full_log", JStr "exec (t1059.001) seen")]
           "full_log" "exec (t1059.001) seen" "t1059.001" ["T1059_001"]);
    try reflexivity.
  - now left.
  - right. now left.
  - right. right. now left.
  - now left.
Defined.

(** ** Identifier extraction: the matches of the pattern *)

Section Pattern.

Import PyStr.

Lemma isdigit_facts (d : ascii) :
  isdigit d = true -> isspace d = false /\ canon_char d = d.
Proof.
  destruct d as [[] [] [] [] [] [] [] []]; intros H;
    try (vm_compute in H; discriminate H); split; reflexivity.
Qed.

Lemma strip_no_space (s : string) :
  Forall (fun c => isspace c = false) (list_ascii_of_string s) -> strip s = s.
Proof.
  intros H. unfold strip.
  assert (L : lstrip s = s).
  { destruct s as [|c s]; [reflexivity|]. simpl in *. inversion H as [|? ? Hc _]. now rewrite Hc. }
  rewrite L. induction s as [|c s IH]; [reflexivity|].
  simpl in *. inversion H as [|? ? Hc Hs]. subst.
  rewrite IH; [destruct s; [now rewrite Hc | reflexivity] | exact Hs |].
  destruct s as [|c' s]; [reflexivity|]. simpl. inversion Hs as [|? ? Hc' _]. now rewrite Hc'.
Qed.

Lemma findall_from_matches (prev_word : bool) (skip : nat) (s m : string) :
  In m (Alerts.findall_from prev_word skip s) -> exists s', Alerts.tid_match s' = Some m.
Proof.
  revert prev_word skip. induction s as [|c s IH]; intros prev_word skip; [intros []|].
  cbn [Alerts.findall_from]. destruct skip as [|k]; [|apply IH].
  destruct prev_word; [apply IH|].
  destruct (Alerts.tid_match (String c s)) as [m0|] eqn:E; [|apply IH].
  intros [<- | H]; [eauto | now apply IH in H].
Qed.

Lemma base_canonical (t d1 d2 d3 d4 : ascii) :
  Ascii.eqb t "T" || Ascii.eqb t "t" = true ->
  isdigit d1 = true -> isdigit d2 = true -> isdigit d3 = true -> isdigit d4 = true ->
  canonical_tid
    (Alerts._normalize_tid (String t (String d1 (String d2 (String d3 (String d4 ""))))))
  = true.
Proof.
  intros Ht H1 H2 H3 H4.
  destruct (isdigit_facts _ H1) as [S1 C1], (isdigit_facts _ H2) as [S2 C2],
           (isdigit_facts _ H3) as [S3 C3], (isdigit_facts _ H4) as [S4 C4].
  assert (St : isspace t = false /\ canon_char t = "T"%char).
  { apply orb_prop in Ht as [->%Ascii.eqb_eq | ->%Ascii.eqb_eq]; split; reflexivity. }
  destruct St as [St Ct].
  rewrite alerts_normalize_eq, strip_no_space by (simpl; repeat constructor; assumption).
  unfold canon. cbn [smap]. rewrite Ct, C1, C2, C3, C4.
  cbn [canonical_tid]. now rewrite H1, H2, H3, H4.
Qed.

Lemma long_canonical (t d1 d2 d3 d4 e1 e2 e3 : ascii) :
  Ascii.eqb t "T" || Ascii.eqb t "t" = true ->
  isdigit d1 = true -> isdigit d2 = true -> isdigit d3 = true -> isdigit d4 = true ->
  isdigit e1 = true -> isdigit e2 = true -> isdigit e3 = true ->
  canonical_tid
    (Alerts._normalize_tid
       (String t (String d1 (String d2 (String d3 (String d4 ""))))
        +:+ String "." (String e1 (String e2 (String e3 "")))))
  = true.
Proof.
  intros Ht H1 H2 H3 H4 G1 G2 G3.
  destruct (isdigit_facts _ H1) as [S1 C1], (isdigit_facts _ H2) as [S2 C2],
           (isdigit_facts _ H3) as [S3 C3], (isdigit_facts _ H4) as [S4 C4],
           (isdigit_facts _ G1) as [T1 D1], (isdigit_facts _ G2) as [T2 D2],
           (isdigit_facts _ G3) as [T3 D3].
  assert (St : isspace t = false /\ canon_char t = "T"%char).
  { apply orb_prop in Ht as [->%Ascii.eqb_eq | ->%Ascii.eqb_eq]; split; reflexivity. }
  destruct St as [St Ct].
  change (String t (String d1 (String d2 (String d3 (String d4 ""))))
          +:+ String "." (String e1 (String e2 (String e3 ""))))
    with (String t (String d1 (String d2 (String d3 (String d4
            (String "." (String e1 (String e2 (String e3 ""))))))))).
  rewrite alerts_normalize_eq, strip_no_space
    by (simpl; repeat constructor; first [assumption | reflexivity]).
  unfold canon. cbn [smap]. rewrite Ct, C1, C2, C3, C4, D1, D2, D3.
  change (canon_char ".") with "_"%char.
  cbn [canonical_tid]. now rewrite H1, H2, H3, H4, G1, G2, G3.
Qed.

Lemma tid_match_canonical (s m : string) :
  Alerts.tid_match s = Some m -> canonical_tid (Alerts._normalize_tid m) = true.
Proof.
  destruct s as [|t [|d1 [|d2 [|d3 [|d4 rest]]]]]; try discriminate.
  unfold Alerts.tid_match.
  destruct ((Ascii.eqb t "T" || Ascii.eqb t "t") && isdigit d1 && isdigit d2
            && isdigit d3 && isdigit d4) eqn:C; [|discriminate].
  apply andb_prop in C as [[[[Ht H1]%andb_prop H2]%andb_prop H3]%andb_prop H4].
  assert (B : (if Alerts.boundary rest
               then Some (String t (String d1 (String d2 (String d3 (String d4 "")))))
               else None) = Some m ->
              canonical_tid (Alerts._normalize_tid m) = true).
  { destruct (Alerts.boundary rest); [|discriminate]. intros [= <-].
    now apply base_canonical. }
  destruct rest as [|dot [|e1 [|e2 [|e3 rest']]]]; try exact B.
  destruct (Ascii.eqb dot "." && isdigit e1 && isdigit e2 && isdigit e3
            && Alerts.boundary rest') eqn:L; [|exact B].
  apply andb_prop in L as [[[[->%Ascii.eqb_eq G1]%andb_prop G2]%andb_prop G3]%andb_prop _].
  intros [= <-]. now apply long_canonical.
Qed.

End Pattern.

(** Every match of the pattern in a text written in ASCII is, once
    normalized, an identifier of the form [T] and four digits, possibly
    followed by [_] and three digits. *)
Theorem text_matches_canonical (text m : string) :
  is_ascii text = true ->
  In m (Alerts.TID_RX_findall text) ->
  canonical_tid (Alerts._normalize_tid m) = true.
Proof.
  intros _ (s & Hs)%findall_from_matches. exact (tid_match_canonical _ _ Hs).
Qed.

Lemma text_matches_canonical_witness :
  canonical_tid (Alerts._normalize_tid "t1059.001") = true.
Proof.
  apply (text_matches_canonical "exec (t1059.001) seen, then T1190x" "t1059.001").
  - reflexivity.
  - now left.
Defined.

(** ** Alert metadata *)

Section Metadata.

Lemma plain_record_first (r : json) :
  plain_record r = true -> Alerts._first_alert_objects r = Ok [r].
Proof.
  destruct r as [| | | | | |d]; try discriminate. simpl.
  intros [H1%negb_true_iff H2%negb_true_iff]%andb_prop. now rewrite H1, H2.
Qed.

Lemma metadata_each_plain (records : list json) :
  List.forallb plain_record records = true ->
  Alerts.metadata_each records = Ok (List.map Alerts.metadata_of records).
Proof.
  induction records as [|r records IH]; [reflexivity|]. simpl.
  intros [Hr Hrs]%andb_prop. unfold Alerts.extract_alert_metadata.
  rewrite (plain_record_first r Hr). simpl. now rewrite (IH Hrs).
Qed.

Lemma get_is_dict (k : string) (d entries : list (string * json)) :
  Py.get k d = JDict entries -> Py.lookup k d = Some (JDict entries).
Proof. unfold Py.get. destruct (Py.lookup k d); [now intros -> | discriminate]. Qed.

(** With [rule.mitre.id] present, the identifiers of the metadata are
    read there. *)
Lemma pick_rule_mitre_id (d rule mitre : list (string * json)) :
  Py.get "rule" d = JDict rule -> Py.get "mitre" rule = JDict mitre ->
  Py.has_key "id" mitre = true ->
  Alerts._pick_paths (JDict d) ["rule.mitre.id"; "mitre.id"] = Py.get "id" mitre.
Proof.
  intros Hrule%get_is_dict Hmitre%get_is_dict Hid.
  change (Alerts._pick_paths (JDict d) ["rule.mitre.id"; "mitre.id"])
    with (match Alerts.walk ["rule"; "mitre"; "id"] (JDict d) with
          | Some v => v
          | None => Alerts._pick_paths (JDict d) ["mitre.id"]
          end).
  simpl Alerts.walk. rewrite Hrule, Hmitre.
  unfold Py.has_key in Hid. unfold Py.get.
  destruct (Py.lookup "id" mitre); [reflexivity | discriminate].
Qed.

End Metadata.

(** The identifiers that the metadata of a batch show are among the
    extracted ones: when the first record holds [rule.mitre.id], a text
    or a list of texts and integers, the metadata are returned with the
    five keys [timestamp], [rule.id], [rule.description], [agent.name]
    and [rule.mitre.id], the last a list of texts, each of which is,
    once normalized, in the result of the extraction. *)
Theorem metadata_ids_are_extracted
        (obj : json) (d : list (string * json)) (rest : list json)
        (rule mitre : list (string * json)) (tids : list string) :
  Alerts._first_alert_objects obj = Ok (JDict d :: rest) ->
  Py.get "rule" d = JDict rule ->
  Py.get "mitre" rule = JDict mitre ->
  Py.has_key "id" mitre = true ->
  match Py.get "id" mitre with
  | JList values => List.forallb Py.is_str_or_int values
  | _ => true
  end = true ->
  Alerts.extract_tech_ids_universal obj = Ok tids ->
  exists ts rid rdesc agt mids,
    Alerts.extract_alert_metadata obj =
    Ok (JDict [("timestamp", ts); ("rule.id", rid); ("rule.description", rdesc);
               ("agent.name", agt); ("rule.mitre.id", JList mids)]) /\
    forall v, In v mids -> exists s, v = JStr s /\ In (Alerts._normalize_tid s) tids.
Proof.
  intros Hrec Hrule Hmitre Hid Hvalues Hex.
  assert (Hadd : forall t, t ∈ Alerts.add_ids (Py.get "id" mitre) ∅ -> In t tids).
  { intros t Ht.
    destruct (extract_collects _ _ _ (JDict d) Hrec Hex) as (found & Hc & Hsub); [now left|].
    destruct (collect_holds_node _ (JDict d) _ Hc) as (acc & r & Hv & Hr); [now left|].
    apply Hsub, Hr, (visit_rule_ids _ _ _ _ _ _ Hv Hrule Hmitre).
    now apply add_ids_any_acc. }
  unfold Alerts.extract_alert_metadata. rewrite Hrec. simpl.
  unfold Alerts.metadata_of. cbv zeta.
  rewrite (pick_rule_mitre_id d rule mitre Hrule Hmitre Hid).
  do 5 eexists. split; [reflexivity|].
  destruct (Py.get "id" mitre) as [| | | |s0|values|]; intros v Hv;
    try (now destruct Hv).
  - destruct Hv as [<- | []]. exists s0. split; [reflexivity|].
    apply Hadd. simpl. apply elem_of_union. left. now apply elem_of_singleton.
  - apply in_map_iff in Hv as (x & <- & Hx). exists (Py.str x). split; [reflexivity|].
    apply Hadd. simpl. apply add_guarded_members. right. exists x.
    split; [exact Hx|]. split; [|reflexivity].
    rewrite forallb_forall in Hvalues. now apply Hvalues.
Qed.

Lemma metadata_ids_are_extracted_witness :
  exists ts rid rdesc agt mids,
    Alerts.extract_alert_metadata alert_basic =
    Ok (JDict [("timestamp", ts); ("rule.id", rid); ("rule.description", rdesc);
               ("agent.name", agt); ("rule.mitre.id", JList mids)]) /\
    forall v, In v mids ->
              exists s, v = JStr s /\ In (Alerts._normalize_tid s) ["T1059_001"; "T1190"].
Proof.
  apply (metadata_ids_are_extracted
           alert_basic
           [("rule", JDict [("mitre", JDict [("id", JList [JStr "T1190"; JStr "T1059.001"])])])]
           []
           [("mitre", JDict [("id", JList [JStr "T1190"; JStr "T1059.001"])])]
           [("id", JList [JStr "T1190"; JStr "T1059.001"])]
           ["T1059_001"; "T1190"]); reflexivity.
Defined.

(** When no record of a batch is itself a batch, the list of metadata has
    one entry per record, in order: the metadata of that record. *)
Theorem all_metadata_plain_records (obj : json) (records : list json) :
  Alerts._first_alert_objects obj = Ok records ->
  List.forallb plain_record records = true ->
  Alerts.extract_all_alerts_metadata obj = Ok (List.map Alerts.metadata_of records).
Proof.
  intros Hrec Hplain. unfold Alerts.extract_all_alerts_metadata. rewrite Hrec.
  now apply metadata_each_plain.
Qed.

Lemma all_metadata_plain_records_witness :
  Alerts.extract_all_alerts_metadata (JList [alert_basic; JStr "x"; JDict []]) =
  Ok (List.map Alerts.metadata_of [alert_basic; JDict []]).
Proof.
  apply (all_metadata_plain_records (JList [alert_basic; JStr "x"; JDict []])
                                    [alert_basic; JDict []]); reflexivity.
Defined.

(** A batch whose records are [null] is read as empty by the extraction
    of identifiers and makes the extraction of metadata raise. *)
Theorem metadata_raises_on_null_records (d : list (string * json)) :
  Py.lookup "_hits_sources" d = Some JNone \/
  (Py.lookup "_hits_sources" d = None /\ Py.lookup "_ndjson" d = Some JNone) ->
  Alerts.extract_tech_ids_universal (JDict d) = Ok [] /\
  Alerts.extract_alert_metadata (JDict d) = Raise TypeError /\
  Alerts.extract_all_alerts_metadata (JDict d) = Raise TypeError.
Proof.
  unfold Alerts.extract_tech_ids_universal, Alerts.extract_alert_metadata,
    Alerts.extract_all_alerts_metadata, Alerts._first_alert_objects, Py.has_key, Py.get.
  intros [H | [H1 H2]].
  - rewrite H. repeat split; reflexivity.
  - rewrite H1, H2. repeat split; reflexivity.
Qed.

Lemma metadata_raises_on_null_records_witness :
  Alerts.extract_tech_ids_universal (JDict [("_ndjson", JNone)]) = Ok [] /\
  Alerts.extract_alert_metadata (JDict [("_ndjson", JNone)]) = Raise TypeError /\
  Alerts.extract_all_alerts_metadata (JDict [("_ndjson", JNone)]) = Raise TypeError.
Proof.
  apply (metadata_raises_on_null_records [("_ndjson", JNone)]). right. split; reflexivity.
Defined.

(** The record shown in the preview is the first record of the batch, the
    one whose metadata [extract_alert_metadata] returns. *)
Theorem preview_is_first_record (obj r : json) (rs : list json) :
  Alerts._first_alert_objects obj = Ok (r :: rs) ->
  App.first_alert_object obj = Some r /\
  Alerts.extract_alert_metadata obj = Ok (Alerts.metadata_of r).
Proof.
  intros H. split; [|unfold Alerts.extract_alert_metadata; now rewrite H].
  assert (F : forall items, List.filter Alerts.is_dict items = r :: rs ->
                            App.first_dict items = Some r).
  { unfold App.first_dict. induction items as [|x items IH]; [discriminate|]. simpl.
    destruct (Alerts.is_dict x); [now intros [= -> _] | exact IH]. }
  assert (D : forall v, Alerts.dict_items v = Ok (r :: rs) ->
                        match v with JList items => App.first_dict items | _ => None end
                        = Some r).
  { unfold Alerts.dict_items. intros v (items & Hi & [= Hf])%bind_ok.
    destruct v as [| | | |s|l|e]; try discriminate; simpl in Hi; injection Hi as <-.
    - exfalso. clear -Hf. induction s as [|c s IH]; [discriminate | exact (IH Hf)].
    - now apply F.
    - exfalso. clear -Hf. induction e as [|kv e IH]; [discriminate | exact (IH Hf)]. }
  destruct obj as [| | | | |items|d]; simpl in H; try discriminate.
  - now apply (D (JList items)).
  - unfold App.first_alert_object.
    destruct (Py.has_key "_hits_sources" d); [now rewrite (D _ H)|].
    destruct (Py.has_key "_ndjson" d); [now rewrite (D _ H)|].
    congruence.
Qed.

Lemma preview_is_first_record_witness :
  App.first_alert_object (JDict [("_ndjson", JList [JInt 1; alert_basic; JDict []])])
  = Some alert_basic /\
  Alerts.extract_alert_metadata (JDict [("_ndjson", JList [JInt 1; alert_basic; JDict []])])
  = Ok (Alerts.metadata_of alert_basic).
Proof.
  apply (preview_is_first_record
           (JDict [("_ndjson", JList [JInt 1; alert_basic; JDict []])]) alert_basic [JDict []]).
  reflexivity.
Defined.

(** ** The helpers of the interface *)

Section Helpers.

Import PyStr.

Ltac by_cases_on c := destruct c as [[] [] [] [] [] [] [] []]; reflexivity.

(** [head + new + tail.replace(old, new)] after a split at the first
    [old] is the replacement of every [old]. *)
Lemma split_first_replace (old new : ascii) (s : string) :
  match split_first old s with
  | None => s
  | Some (head, tail) => head +:+ String new (replace old new tail)
  end = replace old new s.
Proof.
  unfold replace. induction s as [|x s IH]; [reflexivity|]. simpl.
  destruct (Ascii.eqb x old); [reflexivity|].
  destruct (split_first old s) as [[h t]|].
  - change (String x (h +:+ String new (smap (fun c => if Ascii.eqb c old then new else c) t))
            = String x (smap (fun c => if Ascii.eqb c old then new else c) s)).
    now rewrite IH.
  - now rewrite <- IH at 1.
Qed.

Lemma format_tid_display_eq (fragment : string) :
  App.format_tid_display fragment = replace "_" "." (upper (strip fragment)).
Proof.
  unfold App.format_tid_display. rewrite <- (split_first_replace "_" "." (upper (strip fragment))).
  destruct (split_first "_" (upper (strip fragment))) as [[h t]|]; reflexivity.
Qed.

Lemma dotted_spec (s : string) : replace "_" "." (upper s) = smap dotted s.
Proof. unfold replace, upper. now rewrite smap_smap. Qed.

Lemma dotted_space (c : ascii) : isspace (dotted c) = isspace c.
Proof. by_cases_on c. Qed.

Lemma canon_dotted (c : ascii) : canon_char (dotted c) = canon_char c.
Proof. by_cases_on c. Qed.

Lemma dotted_canon (c : ascii) :
  Ascii.eqb c "_" = false -> dotted (canon_char c) = upper_char c.
Proof.
  destruct c as [[] [] [] [] [] [] [] []]; intros H;
    try (vm_compute in H; discriminate H); reflexivity.
Qed.

Lemma smap_ext_in (f g : ascii -> ascii) (s : string) :
  (forall c, contains c s = true -> f c = g c) -> smap f s = smap g s.
Proof.
  induction s as [|x s IH]; [reflexivity|]. intros H. simpl. f_equal.
  - apply H. simpl. now rewrite Ascii.eqb_refl.
  - apply IH. intros c Hc. apply H. simpl. now rewrite Hc, orb_true_r.
Qed.

Lemma contains_lstrip (c : ascii) (s : string) :
  contains c s = false -> contains c (lstrip s) = false.
Proof.
  induction s as [|x s IH]; [reflexivity|]. simpl.
  intros [H1 H2]%orb_false_elim. destruct (isspace x); [now apply IH | simpl; now rewrite H1, H2].
Qed.

Lemma contains_rstrip (c : ascii) (s : string) :
  contains c s = false -> contains c (rstrip s) = false.
Proof.
  induction s as [|x s IH]; [reflexivity|]. simpl.
  intros [H1 H2]%orb_false_elim. specialize (IH H2).
  destruct (rstrip s) as [|y r].
  - destruct (isspace x); simpl; [reflexivity | now rewrite H1].
  - simpl in *. now rewrite H1, IH.
Qed.

Lemma contains_strip (c : ascii) (s : string) :
  contains c s = false -> contains c (strip s) = false.
Proof. intros H. unfold strip. now apply contains_rstrip, contains_lstrip. Qed.

(** *** The IRI of an identifier *)

Lemma rstrip_append (p c : string) :
  rstrip (p +:+ c) = match rstrip c with
                     | EmptyString => rstrip p
                     | r => p +:+ r
                     end.
Proof.
  induction p as [|x p IH].
  - change (EmptyString +:+ c) with c. destruct (rstrip c); reflexivity.
  - change (String x p +:+ c) with (String x (p +:+ c)). simpl rstrip. rewrite IH.
    destruct (rstrip c) as [|y r]; [reflexivity|].
    destruct p; reflexivity.
Qed.

Lemma tail_after_append (ch : ascii) (p c : string) :
  tail_after ch (p +:+ String ch c) = tail_after ch c.
Proof.
  induction p as [|x p IH].
  - change (EmptyString +:+ String ch c) with (String ch c).
    now rewrite tail_after_cons, Ascii.eqb_refl.
  - change (String x p +:+ String ch c) with (String x (p +:+ String ch c)).
    rewrite tail_after_cons, contains_append. simpl contains.
    now rewrite Ascii.eqb_refl, !orb_true_r.
Qed.

Lemma lastfrag_slashless (s : string) :
  contains "/" s = false -> Ontology.lastfrag s = tail_after "#" s.
Proof.
  intros H. rewrite lastfrag_eq. destruct (contains "#" s) eqn:E; [reflexivity|].
  now rewrite !tail_after_without.
Qed.

Lemma normalize_iri_of (tid : string) :
  contains "/" tid = false ->
  Ontology._normalize_tid (App.MITRE_IRI_PREFIX +:+ canon (strip tid)) =
  Ontology._normalize_tid tid.
Proof.
  intros H. rewrite !ontology_normalize_eq.
  assert (S : strip (App.MITRE_IRI_PREFIX +:+ canon (strip tid))
              = App.MITRE_IRI_PREFIX +:+ canon (strip tid)).
  { unfold strip at 1.
    change (lstrip (App.MITRE_IRI_PREFIX +:+ canon (strip tid)))
      with (App.MITRE_IRI_PREFIX +:+ canon (strip tid)).
    rewrite rstrip_append.
    assert (R : rstrip (canon (strip tid)) = canon (strip tid)).
    { unfold canon. rewrite rstrip_smap by apply canon_char_space.
      unfold strip. now rewrite rstrip_rstrip. }
    rewrite R. destruct (canon (strip tid)); reflexivity. }
  rewrite S.
  change (App.MITRE_IRI_PREFIX +:+ canon (strip tid))
    with ("http://example.org/mitre" +:+ String "#" (canon (strip tid))).
  rewrite lastfrag_eq, contains_append. simpl contains. rewrite orb_true_r.
  rewrite tail_after_append.
  unfold canon at 2. rewrite tail_after_smap by apply canon_char_hash.
  fold (canon (tail_after "#" (strip tid))). rewrite canon_canon.
  now rewrite lastfrag_slashless by now apply contains_strip.
Qed.

(** *** The two helpers that take the last fragment *)

Lemma split_first_strafter (c : ascii) (s : string) :
  contains c s = true -> exists h, split_first c s = Some (h, Ontology.STRAFTER c s).
Proof.
  induction s as [|x s IH]; [discriminate|]. simpl.
  destruct (Ascii.eqb x c); simpl; [eauto|].
  intros [h ->]%IH. eauto.
Qed.

End Helpers.

(** Normalizing what [format_tid_display] shows gives the normalized
    identifier again: the display loses nothing of it. *)
Theorem format_tid_display_normalizes_back (fragment : string) :
  Alerts._normalize_tid (App.format_tid_display fragment) = Alerts._normalize_tid fragment.
Proof.
  rewrite format_tid_display_eq, dotted_spec, !alerts_normalize_eq.
  rewrite (strip_smap dotted dotted_space), strip_strip.
  unfold canon. rewrite smap_smap. apply smap_ext, canon_dotted.
Qed.

(** An identifier written without underscore is displayed, after its
    normalization, as it was written, in upper case and without the
    whitespace around it. *)
Theorem format_tid_display_restores_dots (tid : string) :
  PyStr.contains "_" tid = false ->
  App.format_tid_display (Alerts._normalize_tid tid) = PyStr.upper (PyStr.strip tid).
Proof.
  intros H. rewrite format_tid_display_eq, dotted_spec, alerts_normalize_eq.
  rewrite strip_canon, strip_strip. unfold canon, PyStr.upper. rewrite smap_smap.
  apply smap_ext_in. intros c Hc. apply dotted_canon.
  destruct (Ascii.eqb c "_") eqn:E; [|reflexivity].
  apply Ascii.eqb_eq in E. subst c.
  now rewrite (contains_strip _ _ H) in Hc.
Qed.

Lemma format_tid_display_restores_dots_witness :
  App.format_tid_display (Alerts._normalize_tid " t1059.001 ") = PyStr.upper (PyStr.strip " t1059.001 ").
Proof. apply (format_tid_display_restores_dots " t1059.001 "). reflexivity. Defined.

(** The IRI built for an identifier without slash is read by the
    normalizer of the graph as that identifier; the two modules build the
    same IRI. *)
Theorem tid_to_iri_reads_back (tid : string) :
  tid <> "" ->
  PyStr.contains "/" tid = false ->
  Ontology._normalize_tid (App.tid_to_iri tid) = Ontology._normalize_tid tid /\
  Visuals._to_mitre_iri tid = App.tid_to_iri tid.
Proof.
  intros Hne H. unfold App.tid_to_iri, Visuals._to_mitre_iri.
  destruct (String.eqb_spec tid ""); [contradiction|].
  split; [|reflexivity]. rewrite canon_spec. now apply normalize_iri_of.
Qed.

Lemma tid_to_iri_reads_back_witness :
  Ontology._normalize_tid (App.tid_to_iri "t1059.001") = Ontology._normalize_tid "t1059.001" /\
  Visuals._to_mitre_iri "t1059.001" = App.tid_to_iri "t1059.001".
Proof. apply (tid_to_iri_reads_back "t1059.001"); [discriminate | reflexivity]. Defined.

(** On a text with at most one [#] the helper of the graph view takes
    the fragment that the normalizer of the correlation takes. *)
Theorem lastfrag_helpers_agree (text : string) :
  PyStr.contains "#" (Ontology.STRAFTER "#" text) = false ->
  Visuals._lastfrag text = Ontology.lastfrag text.
Proof.
  intros H. unfold Visuals._lastfrag. rewrite lastfrag_eq.
  destruct (PyStr.contains "#" text) eqn:E.
  - destruct (split_first_strafter _ _ E) as [h ->]. symmetry. now apply strafter_tail.
  - destruct (PyStr.contains "/" text) eqn:F; [apply rsplit1_last|].
    symmetry. now apply tail_after_without.
Qed.

Lemma lastfrag_helpers_agree_witness :
  Visuals._lastfrag "http://example.org/mitre#T1190" =
  Ontology.lastfrag "http://example.org/mitre#T1190".
Proof. apply (lastfrag_helpers_agree "http://example.org/mitre#T1190"). reflexivity. Defined.

(** ** Retrieval: order, origin and number of the results *)

Section Ranking.

Import Rag.

Lemma SFcompare_lt_gt (a b : spec_float) :
  SFcompare a b = Some Lt -> SFcompare b a = Some Gt.
Proof.
  destruct a as [sa|sa| |sa ma ea], b as [sb|sb| |sb mb eb]; simpl;
    try discriminate;
    try (destruct sa; discriminate); try (destruct sb; discriminate);
    try (destruct sa, sb; (discriminate || reflexivity)).
  destruct sa, sb; try discriminate; try reflexivity;
    rewrite (Z.compare_antisym ea eb);
    destruct (ea ?= eb)%Z; simpl; try discriminate; try reflexivity;
    change (PosDef.Pos.compare_cont Eq mb ma) with (Pos.compare mb ma);
    change (PosDef.Pos.compare_cont Eq ma mb) with (Pos.compare ma mb);
    rewrite (Pos.compare_antisym ma mb);
    destruct (ma ?= mb)%positive; simpl; (discriminate || reflexivity).
Qed.

Lemma ltb_asym (x y : float) :
  PrimFloat.ltb x y = true -> PrimFloat.ltb y x = false.
Proof.
  rewrite !ltb_spec. unfold SFltb.
  destruct (SFcompare (Prim2SF x) (Prim2SF y)) as [[]|] eqn:E; try discriminate.
  intros _. now rewrite (SFcompare_lt_gt _ _ E).
Qed.

Lemma insert_desc_in (r x : RagResult) (rs : list RagResult) :
  In x (insert_desc r rs) <-> x = r \/ In x rs.
Proof.
  induction rs as [|r' rs IH]; simpl; [intuition congruence|].
  destruct (PrimFloat.ltb (score r) (score r')); simpl; [rewrite IH|]; intuition congruence.
Qed.

Lemma sort_desc_in (x : RagResult) (rs : list RagResult) :
  In x (sort_desc rs) <-> In x rs.
Proof.
  induction rs as [|r rs IH]; simpl; [reflexivity|].
  rewrite insert_desc_in, IH. intuition congruence.
Qed.

Lemma insert_desc_sorted (r : RagResult) (rs : list RagResult) :
  Sorted not_below rs -> Sorted not_below (insert_desc r rs).
Proof.
  induction 1 as [|r' rs Hs IH Hhd]; simpl; [repeat constructor|].
  destruct (PrimFloat.ltb (score r) (score r')) eqn:E.
  - constructor; [exact IH|].
    destruct rs as [|r'' rs]; simpl.
    + constructor. now apply ltb_asym.
    + destruct (PrimFloat.ltb (score r) (score r'')).
      * constructor. now inversion Hhd.
      * constructor. now apply ltb_asym.
  - constructor; [now constructor|]. constructor. exact E.
Qed.

Lemma sort_desc_sorted (rs : list RagResult) : Sorted not_below (sort_desc rs).
Proof.
  induction rs as [|r rs IH]; simpl; [constructor | now apply insert_desc_sorted].
Qed.

Lemma firstn_sorted {A : Type} (R : A -> A -> Prop) (n : nat) (xs : list A) :
  Sorted R xs -> Sorted R (List.firstn n xs).
Proof.
  intros H. revert n. induction H as [|x xs Hs IH Hhd]; intros [|n]; simpl;
    try constructor; [apply IH|].
  destruct Hhd as [|y ys Hy]; destruct n; simpl; constructor. exact Hy.
Qed.

Lemma slice_to_sorted {A : Type} (R : A -> A -> Prop) (k : Z) (xs : list A) :
  Sorted R xs -> Sorted R (slice_to k xs).
Proof. intros H. unfold slice_to. destruct (0 <=? k)%Z; now apply firstn_sorted. Qed.

Lemma slice_to_in {A : Type} (k : Z) (xs : list A) (x : A) :
  In x (slice_to k xs) -> In x xs.
Proof.
  assert (F : forall n, In x (List.firstn n xs) -> In x xs).
  { intros n H. rewrite <- (firstn_skipn n xs). apply in_or_app. now left. }
  unfold slice_to. destruct (0 <=? k)%Z; apply F.
Qed.

Lemma scored_origin (sims : list (Doc * float)) (r : RagResult) :
  In r (List.flat_map (fun ds => if PrimFloat.ltb 0%float (snd ds)
                                 then [result_of (fst ds) (snd ds)] else []) sims) ->
  exists ds, In ds sims /\ r = result_of (fst ds) (snd ds) /\
             PrimFloat.ltb 0%float (snd ds) = true.
Proof.
  intros (ds & Hin & Hr)%in_flat_map.
  destruct (PrimFloat.ltb 0%float (snd ds)) eqn:E; [|destruct Hr].
  destruct Hr as [<- | []]. eauto.
Qed.

Lemma scored_length (sims : list (Doc * float)) :
  List.length (List.flat_map (fun ds => if PrimFloat.ltb 0%float (snd ds)
                                        then [result_of (fst ds) (snd ds)] else []) sims)
  <= List.length sims.
Proof.
  induction sims as [|ds sims IH]; simpl; [lia|].
  rewrite length_app. destruct (PrimFloat.ltb 0%float (snd ds)); simpl; lia.
Qed.

Lemma similarities_length (documents : list (list (string * string))) (query : string) :
  List.length (similarities (init documents) query) = List.length documents.
Proof.
  rewrite <- (length_map fst), similarities_cover. apply length_map.
Qed.

Lemma slice_to_length {A : Type} (k : Z) (xs : list A) :
  List.length (slice_to k xs) <= List.length xs /\
  ((0 <= k)%Z -> List.length (slice_to k xs) <= Z.to_nat k).
Proof.
  unfold slice_to. destruct (Z.leb_spec 0 k); rewrite length_firstn; lia.
Qed.

(** *** Counters *)

Lemma count_one_keys (tok : string) (c : Counter) (kv : string * Z) :
  In kv (count_one tok c) -> fst kv = tok \/ exists kv', In kv' c /\ fst kv' = fst kv.
Proof.
  induction c as [|[k n] c IH]; simpl.
  - intros [<- | []]. now left.
  - destruct (String.eqb k tok) eqn:E; simpl.
    + intros [<- | H]; right; [exists (k, n) | exists kv]; simpl; auto.
    + intros [<- | H]; [right; exists (k, n); simpl; auto|].
      destruct (IH H) as [-> | (kv' & Hin & Hk)]; [now left | right; eauto].
Qed.

Lemma count_keys (toks : list string) (kv : string * Z) :
  In kv (count toks) -> In (fst kv) toks.
Proof.
  unfold count.
  assert (G : forall c, In kv (List.fold_left (fun c tok => count_one tok c) toks c) ->
                        In (fst kv) toks \/ exists kv', In kv' c /\ fst kv' = fst kv).
  { induction toks as [|tok toks IH]; intros c; simpl; [intros H; right; eauto|].
    intros [H | (kv' & [E | (kv'' & Hin & E2)]%count_one_keys & E1)]%IH; auto.
    - left. left. congruence.
    - right. exists kv''. split; [exact Hin | congruence]. }
  intros [H | (kv' & [] & _)]%G. exact H.
Qed.

Lemma counter_get_count_one (tok tok' : string) (c : Counter) :
  tok' <> tok -> counter_get tok (count_one tok' c) = counter_get tok c.
Proof.
  intros Hne. induction c as [|[k n] c IH]; simpl.
  - now destruct (String.eqb_spec tok' tok).
  - destruct (String.eqb_spec k tok').
    + subst k. simpl. now destruct (String.eqb_spec tok' tok).
    + simpl. now rewrite IH.
Qed.

Lemma counter_get_count (tok : string) (toks : list string) :
  ~ In tok toks -> counter_get tok (count toks) = None.
Proof.
  unfold count.
  assert (G : forall c, counter_get tok c = None -> ~ In tok toks ->
                        counter_get tok (List.fold_left (fun c t => count_one t c) toks c) = None).
  { induction toks as [|t toks IH]; intros c Hc Hn; simpl; [exact Hc|].
    apply IH; [|intros H; apply Hn; now right].
    rewrite counter_get_count_one; [exact Hc|]. intros ->. apply Hn. now left. }
  now apply G.
Qed.

Lemma cosine_disjoint (vec_a vec_b : Counter) (norm_a norm_b : float) :
  (forall kv, In kv vec_a -> counter_get (fst kv) vec_b = None) ->
  _cosine vec_a norm_a vec_b norm_b = 0%float.
Proof.
  intros H. unfold _cosine.
  destruct vec_a as [|kv vec_a]; [reflexivity|]. destruct vec_b as [|kw vec_b]; [reflexivity|].
  assert (E : List.fold_left
                (fun score kv =>
                   match counter_get (fst kv) (kw :: vec_b) with
                   | Some n => PrimFloat.add score (float_of_int (snd kv * n))
                   | None => score
                   end) (kv :: vec_a) 0%float = 0%float).
  { revert H. generalize (kv :: vec_a) as va. generalize (kw :: vec_b) as vb.
    intros vb va H. induction va as [|x va IH]; [reflexivity|]. simpl.
    rewrite (H x) by now left. apply IH. intros y Hy. apply H. now right. }
  rewrite E. reflexivity.
Qed.

Lemma similarities_disjoint (documents : list (list (string * string))) (query : string) :
  (forall tok doc, In tok (_tokenize query) -> In doc documents ->
                   ~ In tok (_tokenize (doc_content (store doc)))) ->
  Forall (fun ds => PrimFloat.ltb 0%float (snd ds) = false)
         (similarities (init documents) query).
Proof.
  intros H. unfold similarities, init. rewrite init_from. simpl.
  induction documents as [|doc documents IH]; simpl; [constructor|].
  constructor.
  - simpl. rewrite cosine_disjoint; [reflexivity|].
    intros kv Hkv%count_keys. apply counter_get_count. apply H; [exact Hkv | now left].
  - apply IH. intros tok d Ht Hd. apply H; [exact Ht | now right].
Qed.

End Ranking.

(** The results of a search come in non-increasing order of score: no
    result is followed by one of a strictly greater score, whatever the
    index, the query and [top_k]. *)
Theorem search_sorted_by_score (self : Rag.SimpleRAG) (query : string) (top_k : Z) :
  Sorted not_below (Rag.search self query top_k).
Proof.
  unfold Rag.search. destruct (Rag.docs self); [constructor|].
  apply slice_to_sorted, sort_desc_sorted.
Qed.

(** Every result of a search is a document of the corpus as the index
    stores it, with the snippet of its content; its score is positive, or
    it is the first document of the corpus, returned with score [0.0]
    because no document matches. *)
Theorem search_results_from_corpus
        (documents : list (list (string * string))) (query : string) (top_k : Z)
        (r : Rag.RagResult) :
  In r (Rag.search (Rag.init documents) query top_k) ->
  exists doc,
    In doc documents /\
    r = Rag.result_of (Rag.store doc) (Rag.score r) /\
    (PrimFloat.ltb 0%float (Rag.score r) = true \/
     (List.head documents = Some doc /\ Rag.score r = 0%float)).
Proof.
  unfold Rag.search. rewrite init_docs.
  destruct documents as [|first documents]; [intros []|]. simpl List.map. cbv iota.
  intros Hr%slice_to_in. apply (proj1 (sort_desc_in _ _)) in Hr.
  destruct (List.flat_map _ (Rag.similarities (Rag.init (first :: documents)) query))
    as [|s0 scored] eqn:E.
  - destruct Hr as [<- | []]. exists first. split; [now left|]. split; [reflexivity|].
    right. split; reflexivity.
  - rewrite <- E in Hr. apply scored_origin in Hr as ([d sim] & Hin & -> & Hpos).
    assert (Hd : In d (List.map Rag.store (first :: documents))).
    { rewrite <- similarities_cover with (query := query). apply in_map_iff.
      exists (d, sim). split; [reflexivity | exact Hin]. }
    apply in_map_iff in Hd as (doc & <- & Hdoc).
    exists doc. split; [exact Hdoc|]. split; [reflexivity | now left].
Qed.

Lemma search_results_from_corpus_witness :
  exists doc,
    In doc [[("title", "Intro"); ("content", "alpha beta")]] /\
    Rag.result_of (Rag.store [("title", "Intro"); ("content", "alpha beta")]) 0%float
    = Rag.result_of (Rag.store doc)
        (Rag.score
           (Rag.result_of (Rag.store [("title", "Intro"); ("content", "alpha beta")]) 0%float)) /\
    (PrimFloat.ltb 0%float
       (Rag.score
          (Rag.result_of (Rag.store [("title", "Intro"); ("content", "alpha beta")]) 0%float))
     = true \/
     (List.head [[("title", "Intro"); ("content", "alpha beta")]] = Some doc /\
      Rag.score
        (Rag.result_of (Rag.store [("title", "Intro"); ("content", "alpha beta")]) 0%float)
      = 0%float)).
Proof.
  apply (search_results_from_corpus
           [[("title", "Intro"); ("content", "alpha beta")]] "gamma" 3).
  vm_compute. now left.
Defined.

(** A search returns at most as many results as the corpus has
    documents, and at most [top_k] of them, one when [top_k] is zero. *)
Theorem search_at_most_top_k
        (documents : list (list (string * string))) (query : string) (top_k : Z) :
  (0 <= top_k)%Z ->
  List.length (Rag.search (Rag.init documents) query top_k) <= List.length documents /\
  List.length (Rag.search (Rag.init documents) query top_k) <= Z.to_nat (Z.max 1 top_k).
Proof.
  intros Hk. unfold Rag.search. rewrite init_docs.
  destruct documents as [|first documents]; [simpl; lia|]. simpl List.map. cbv iota.
  match goal with
  | |- context [Rag.slice_to ?k ?xs] =>
      destruct (slice_to_length k xs) as [H1 H2]; set (res := Rag.slice_to k xs) in *
  end.
  split.
  - etransitivity; [exact H1|]. rewrite sort_desc_length.
    pose proof (scored_length (Rag.similarities (Rag.init (first :: documents)) query)) as L.
    rewrite similarities_length in L.
    destruct (List.flat_map _ _); simpl in *; lia.
  - destruct (Z.eqb_spec top_k 0) as [-> | Hne].
    + etransitivity; [apply H2; lia|]. simpl. lia.
    + etransitivity; [apply H2; lia|]. lia.
Qed.

Lemma search_at_most_top_k_witness :
  List.length
    (Rag.search (Rag.init [[("title", "Intro"); ("content", "alpha beta")]]) "alpha" 0)
  <= List.length [[("title", "Intro"); ("content", "alpha beta")]] /\
  List.length
    (Rag.search (Rag.init [[("title", "Intro"); ("content", "alpha beta")]]) "alpha" 0)
  <= Z.to_nat (Z.max 1 0).
Proof.
  apply (search_at_most_top_k [[("title", "Intro"); ("content", "alpha beta")]] "alpha" 0).
  lia.
Defined.

(** When no token of the query occurs in any document, a search returns
    the first document of the corpus alone, with score [0.0], and
    nothing at all when [top_k] is negative. *)
Theorem search_disjoint_query
        (first : list (string * string)) (documents : list (list (string * string)))
        (query : string) (top_k : Z) :
  (forall tok doc, In tok (Rag._tokenize query) -> In doc (first :: documents) ->
                   ~ In tok (Rag._tokenize (Rag.doc_content (Rag.store doc)))) ->
  Rag.search (Rag.init (first :: documents)) query top_k =
  if (top_k <? 0)%Z then [] else [Rag.result_of (Rag.store first) 0%float].
Proof.
  intros H. unfold Rag.search. rewrite init_docs. simpl List.map. cbv iota.
  rewrite none_positive by now apply similarities_disjoint.
  simpl Rag.sort_desc. unfold Rag.slice_to.
  destruct (Z.ltb_spec top_k 0) as [Hneg | Hpos].
  - destruct (Z.eqb_spec top_k 0); [lia|].
    destruct (Z.leb_spec 0 top_k); [lia|].
    replace (List.length [Rag.result_of (Rag.store first) 0%float] - Z.to_nat (- top_k))
      with 0 by (simpl; lia).
    reflexivity.
  - destruct (Z.eqb_spec top_k 0) as [-> | Hne]; [reflexivity|].
    destruct (Z.leb_spec 0 top_k); [|lia].
    destruct (Z.to_nat top_k) as [|n] eqn:E; [lia|]. simpl. now destruct n.
Qed.

Lemma search_disjoint_query_witness :
  Rag.search (Rag.init [[("title", "Intro"); ("content", "alpha beta")]]) "gamma!" (-1) =
  if (-1 <? 0)%Z
  then []
  else [Rag.result_of (Rag.store [("title", "Intro"); ("content", "alpha beta")]) 0%float].
Proof.
  apply (search_disjoint_query [("title", "Intro"); ("content", "alpha beta")] [] "gamma!" (-1)).
  intros tok doc Ht Hd. simpl in Hd. destruct Hd as [<- | []].
  vm_compute in Ht. destruct Ht as [<- | []].
  vm_compute. intros [H | [H | []]]; discriminate H.
Defined.

(** ** Retrieval: the case of the query *)

Section QueryCase.

Import PyStr Rag.

Ltac by_cases_on c := destruct c as [[] [] [] [] [] [] [] []]; reflexivity.

Lemma upper_token_char (c : ascii) : is_token_char (upper_char c) = is_token_char c.
Proof. by_cases_on c. Qed.

Lemma lower_token_char (c : ascii) : is_token_char (lower_char c) = is_token_char c.
Proof. by_cases_on c. Qed.

Lemma lower_upper_char (c : ascii) : lower_char (upper_char c) = lower_char c.
Proof. by_cases_on c. Qed.

Lemma lower_lower_char (c : ascii) : lower_char (lower_char c) = lower_char c.
Proof. by_cases_on c. Qed.

Lemma findall_smap (f : ascii -> ascii) (text : string) :
  (forall c, is_token_char (f c) = is_token_char c) ->
  TOKEN_RX_findall (smap f text) = List.map (smap f) (TOKEN_RX_findall text).
Proof.
  intros F. induction text as [|c rest IH]; [reflexivity|].
  simpl smap. cbn [TOKEN_RX_findall]. rewrite F.
  destruct (is_token_char c); [|exact IH].
  destruct rest as [|c' rest]; [reflexivity|].
  rewrite IH. cbn [smap]. rewrite F.
  destruct (is_token_char c'); [|reflexivity].
  destruct (TOKEN_RX_findall (String c' rest)); reflexivity.
Qed.

Lemma tokenize_smap (f : ascii -> ascii) (text : string) :
  (forall c, is_token_char (f c) = is_token_char c) ->
  (forall c, lower_char (f c) = lower_char c) ->
  _tokenize (smap f text) = _tokenize text.
Proof.
  intros F L. unfold _tokenize.
  destruct text as [|c rest]; [reflexivity|].
  change (String.eqb (smap f (String c rest)) "") with false.
  change (String.eqb (String c rest) "") with false. cbv iota.
  rewrite (findall_smap f _ F), map_map. apply map_ext. intros tok.
  unfold lower. rewrite smap_smap. now apply smap_ext.
Qed.

Lemma search_by_tokens (self : SimpleRAG) (q q' : string) (top_k : Z) :
  _tokenize q = _tokenize q' -> search self q top_k = search self q' top_k.
Proof. intros E. unfold search, similarities. now rewrite E. Qed.

End QueryCase.

(** The case of the letters of a query written in ASCII does not matter:
    the query in upper case and the query in lower case get the results
    of the query itself. *)
Theorem search_ignores_case (self : Rag.SimpleRAG) (query : string) (top_k : Z) :
  is_ascii query = true ->
  Rag.search self (PyStr.upper query) top_k = Rag.search self query top_k /\
  Rag.search self (PyStr.lower query) top_k = Rag.search self query top_k.
Proof.
  intros _. split; apply search_by_tokens, tokenize_smap.
  - exact upper_token_char.
  - exact lower_upper_char.
  - exact lower_token_char.
  - exact lower_lower_char.
Qed.

Lemma search_ignores_case_witness :
  Rag.search (Rag.init [[("title", "Intro"); ("content", "alpha beta")]])
             (PyStr.upper "Alpha") 3 =
  Rag.search (Rag.init [[("title", "Intro"); ("content", "alpha beta")]]) "Alpha" 3 /\
  Rag.search (Rag.init [[("title", "Intro"); ("content", "alpha beta")]])
             (PyStr.lower "Alpha") 3 =
  Rag.search (Rag.init [[("title", "Intro"); ("content", "alpha beta")]]) "Alpha" 3.
Proof.
  apply (search_ignores_case
           (Rag.init [[("title", "Intro"); ("content", "alpha beta")]]) "Alpha" 3).
  reflexivity.
Defined.

(** ** Loading a record stream *)

Section RecordStream.

Variable decode : string -> result json.

(** The records of a stream: the lines that the decoder parses. *)
Lemma ndjson_items_returns (lines : list string) (items : list json) :
  Forall (fun line => forall e, decode line = Raise e -> e = JSONDecodeError) lines ->
  Alerts.ndjson_items decode lines items =
  Ok (items ++ List.flat_map (fun line => match decode line with
                                          | Ok v => [v]
                                          | Raise _ => []
                                          end) lines)%list.
Proof.
  intros H. revert items. induction H as [|line lines Hline _ IH]; intros items; simpl.
  - now rewrite app_nil_r.
  - destruct (decode line) as [v|e] eqn:E.
    + rewrite IH. simpl. now rewrite <- app_assoc.
    + rewrite (Hline e eq_refl). apply IH.
Qed.

(** An exception that comes out of the loop is one that the decoder
    raised on a line, and it is not the decoder's own error. *)
Lemma ndjson_items_raises (lines : list string) (items : list json) (e : exn) :
  Alerts.ndjson_items decode lines items = Raise e ->
  e <> JSONDecodeError /\ exists line, In line lines /\ decode line = Raise e.
Proof.
  revert items. induction lines as [|line lines IH]; intros items; simpl; [discriminate|].
  destruct (decode line) as [v|e'] eqn:E.
  - intros (Hne & l & Hl & Hd)%IH. eauto.
  - destruct e'; try (intros [= <-]; split; [discriminate | eauto]).
    intros (Hne & l & Hl & Hd)%IH. eauto.
Qed.

End RecordStream.

(** An ASCII text of several non-blank lines that all start with a brace
    is read as a record stream, whatever the decoder does on its lines:
    when the decoder raises nothing but its own error on them, the
    result holds the lines that parse, in order; and an exception that
    comes out is never the decoder's own error, it is another exception
    that the decoder raised on a line. *)
Theorem load_record_stream (decode : string -> result json) (text : string) :
  let lines := List.filter (fun line => negb (String.eqb (PyStr.strip line) ""))
                           (Alerts.splitlines (PyStr.strip text)) in
  is_ascii text = true ->
  1 < List.length lines ->
  List.forallb (fun line => PyStr.startswith "{" (PyStr.strip line)) lines = true ->
  (Forall (fun line => forall e, decode line = Raise e -> e = JSONDecodeError) lines ->
   Alerts.load_with decode (Alerts.Text text) =
   Ok (JDict [("_ndjson",
               JList (List.flat_map (fun line => match decode line with
                                                 | Ok v => [v]
                                                 | Raise _ => []
                                                 end) lines))])) /\
  (forall e, Alerts.load_with decode (Alerts.Text text) = Raise e ->
             e <> JSONDecodeError /\ exists line, In line lines /\ decode line = Raise e).
Proof.
  intros lines _ Hlen Hall.
  assert (E : Alerts.load_with decode (Alerts.Text text) =
              items ← Alerts.ndjson_items decode lines [];
              Ok (JDict [("_ndjson", JList items)])).
  { unfold Alerts.load_with. simpl Alerts.as_text. cbv iota zeta. fold lines.
    destruct (String.eqb_spec (PyStr.strip text) "") as [E | _].
    { exfalso. subst lines. rewrite E in Hlen. simpl in Hlen. lia. }
    rewrite Hall.
    destruct (Nat.ltb_spec 1 (List.length lines)) as [_ | ?]; [reflexivity | lia]. }
  rewrite E. split.
  - intros H. now rewrite (ndjson_items_returns decode lines [] H).
  - intros e He.
    destruct (Alerts.ndjson_items decode lines []) as [items|e'] eqn:N; [discriminate|].
    injection He as <-. exact (ndjson_items_raises decode lines [] e' N).
Qed.

Lemma load_record_stream_witness :
  (Forall (fun line => forall e, PyJson.loads line = Raise e -> e = JSONDecodeError)
          ["{}"; "{oops"; "{}"] ->
   Alerts.load_with PyJson.loads (Alerts.Text stream_text) =
   Ok (JDict [("_ndjson",
               JList (List.flat_map (fun line => match PyJson.loads line with
                                                 | Ok v => [v]
                                                 | Raise _ => []
                                                 end) ["{}"; "{oops"; "{}"]))])) /\
  (forall e, Alerts.load_with PyJson.loads (Alerts.Text stream_text) = Raise e ->
             e <> JSONDecodeError /\
             exists line, In line ["{}"; "{oops"; "{}"] /\ PyJson.loads line = Raise e).
Proof.
  apply (load_record_stream PyJson.loads stream_text);
    [reflexivity | vm_compute; lia | reflexivity].
Defined.

(** ** Identifier extraction: the order of the records *)

Section RecordOrder.

Lemma bind_raise {A B : Type} (m : result A) (k : A -> result B) (e : exn) :
  (a ← m; k a) = Raise e -> m = Raise e \/ exists a, m = Ok a /\ k a = Raise e.
Proof. destruct m as [a|e']; simpl; [eauto | intros [= <-]; now left]. Qed.

Lemma rfold_raise {A S : Type} (step : A -> S -> result S) (xs : list A) (acc : S) (e : exn) :
  rfold step xs acc = Raise e -> exists x s, In x xs /\ step x s = Raise e.
Proof.
  revert acc. induction xs as [|x xs IH]; intros acc; simpl; [discriminate|].
  intros [H | (s' & _ & (y & s & Hy & Hs)%IH)]%bind_raise; eauto 6.
Qed.

Lemma attr_get_raise (k : string) (v : json) (e : exn) :
  Py.attr_get k v = Raise e -> e = AttributeError.
Proof. destruct v; simpl; congruence. Qed.

Lemma attr_get_default_raise (k : string) (dflt v : json) (e : exn) :
  Py.attr_get_default k dflt v = Raise e -> e = AttributeError.
Proof. destruct v; simpl; congruence. Qed.

Lemma add_alias_raise (sub : json) (tids : gset string) (e : exn) :
  Alerts.add_alias sub tids = Raise e -> e = AttributeError.
Proof.
  destruct sub; try discriminate. unfold Alerts.add_alias.
  intros [H%attr_get_default_raise | (r & _ & H)]%bind_raise; [exact H|].
  apply bind_raise in H as [H%attr_get_default_raise | (m & _ & H)]; [exact H|].
  apply bind_raise in H as [H%attr_get_raise | (first & _ & H)]; [exact H|].
  apply bind_raise in H as [H | (candidate & _ & H)].
  - destruct (Py.truthy first); [discriminate|].
    apply bind_raise in H as [H%attr_get_default_raise | (m' & _ & H%attr_get_raise)];
      exact H.
  - destruct candidate; discriminate.
Qed.

Lemma visit_raise (node : json) (tids : gset string) (e : exn) :
  Alerts.visit node tids = Raise e -> e = AttributeError.
Proof.
  destruct node; try discriminate. unfold Alerts.visit.
  intros [H%attr_get_raise | (m & _ & H)]%bind_raise; [exact H|].
  apply bind_raise in H as [H%attr_get_raise | (ids & _ & H)]; [exact H|].
  apply bind_raise in H as [H | (t1 & _ & H)].
  - apply rfold_raise in H as (key & s & _ & H).
    apply bind_raise in H as [H%attr_get_raise | (arr & _ & H)]; [exact H | discriminate].
  - apply rfold_raise in H as (key & s & _ & H). now apply add_alias_raise in H.
Qed.

Lemma collect_raise (obj : json) (e : exn) :
  Alerts._collect_tids_from_any obj = Raise e -> e = AttributeError.
Proof. intros (node & s & _ & H)%rfold_raise. now apply visit_raise in H. Qed.

Lemma extend_from_raise (items : list json) (tids : list string) (e : exn) :
  Alerts.extend_from items tids = Raise e -> e = AttributeError.
Proof.
  intros (item & s & _ & H)%rfold_raise. destruct item; try discriminate.
  apply bind_raise in H as [H%collect_raise | (found & _ & H)]; [exact H | discriminate].
Qed.

Lemma extend_from_returns (items : list json) (tids : list string) :
  (forall item, In item (List.filter Alerts.is_dict items) ->
                exists found, Alerts._collect_tids_from_any item = Ok found) ->
  exists r, Alerts.extend_from items tids = Ok r.
Proof.
  intros H. apply rfold_total. intros item Hin s. destruct item; eauto.
  destruct (H (JDict entries)) as [found ->]; [|simpl; eauto].
  apply List.filter_In. now split.
Qed.

Lemma extend_from_permuted (items items' : list json) (l : list string) :
  Permutation items items' ->
  Alerts.extend_from items [] = Ok l ->
  exists l', Alerts.extend_from items' [] = Ok l' /\ PyStr.sorted l' = PyStr.sorted l.
Proof.
  intros P Hl.
  assert (F : forall item, In item (List.filter Alerts.is_dict items') <->
                           In item (List.filter Alerts.is_dict items)).
  { intros item. rewrite !List.filter_In.
    split; intros [Hin Hd]; (split; [|exact Hd]).
    - apply Permutation_sym in P. exact (Permutation_in _ P Hin).
    - exact (Permutation_in _ P Hin). }
  destruct (extend_from_returns items' []) as [l' Hl'].
  { intros item Hin%F. exact (extend_from_collects _ _ _ _ Hl Hin). }
  exists l'. split; [exact Hl'|].
  apply (StronglySorted_unique String.le); try apply sorted_strongly_sorted.
  rewrite !sorted_permutation.
  apply NoDup_Permutation.
  - exact (proj1 (extend_from_clean _ _ _ clean_nil Hl')).
  - exact (proj1 (extend_from_clean _ _ _ clean_nil Hl)).
  - intros t. rewrite !list_elem_of_In.
    rewrite (extend_from_members _ _ _ t Hl'), (extend_from_members _ _ _ t Hl).
    split; intros [[] | (item & found & Hin & H)]; right; exists item, found;
      (split; [now apply F | exact H]).
Qed.

End RecordOrder.

(** What the extraction returns does not depend on the order of the
    records of a batch: it returns a list on one order exactly when it
    returns that list on the other, and so raises on both or on
    neither. *)
Theorem extract_order_independent (items items' : list json) (l : list string) :
  Permutation items items' ->
  Alerts.extract_tech_ids_universal (JList items') = Ok l <->
  Alerts.extract_tech_ids_universal (JList items) = Ok l.
Proof.
  assert (G : forall xs ys, Permutation xs ys ->
                            Alerts.extract_tech_ids_universal (JList xs) = Ok l ->
                            Alerts.extract_tech_ids_universal (JList ys) = Ok l).
  { intros xs ys P. unfold Alerts.extract_tech_ids_universal.
    intros (tids & E & [= <-])%bind_ok.
    destruct (extend_from_permuted _ _ _ P E) as (tids' & -> & Hs). simpl. now rewrite Hs. }
  intros P. split; [apply G; now apply Permutation_sym | now apply G].
Qed.

Lemma extract_order_independent_witness :
  Alerts.extract_tech_ids_universal (JList [JDict []; alert_basic]) = Ok ["T1059_001"; "T1190"] <->
  Alerts.extract_tech_ids_universal (JList [alert_basic; JDict []]) = Ok ["T1059_001"; "T1190"].
Proof.
  apply (extract_order_independent [alert_basic; JDict []] [JDict []; alert_basic]).
  apply perm_swap.
Defined.
